(** * Sticky: a card workspace with drag and drop

    Shallow embedding of [script.js].  The file holds three variants of
    the same application, one after the other:

    - lines 1-643: cards with a z-index counter and local storage
      (module [Layered]);
    - lines 644-1533: free-floating cards with local storage, no z-index
      bookkeeping (module [Freeform]);
    - lines 1534-2336: free-floating cards that can be dropped on a grid,
      no storage (module [Grid]).

    Module [Js] holds the platform operations the handlers rely on:
    numbers with the rounding of doubles, [Number::toString], [parseInt]
    and the comparison operators.

    What is modelled: the card store, the drag session, the card
    elements as far as the handlers read them back, and local storage.
    The clock, the random generator, the window size, the answers of
    [prompt], bounding boxes and [JSON.parse] / [JSON.stringify] are
    inputs.  The theme manager of the first variant is modelled on its
    own (module [Theme]); [Layered.initializeApp] is the start-up after
    its constructor has returned, [Startup.initializeApp] the one with
    the constructor in it.  Left out: the keyboard shortcuts, the
    reset commands of the second and third variant, logging and every
    style property that only changes how a card looks.

    The definitions come first; the facts proved about them follow. *)

From Stdlib Require Import ZArith NArith QArith Qabs Qround Qpower Bool List Sorted Permutation Lia Lqa.
From Stdlib Require Import Ascii String.
From Stdlib Require Import DecimalString DecimalN DecimalPos.
Import ListNotations.



(* ================================================================== *)
(** * Platform operations *)
(* ================================================================== *)

Module Js.

Local Open Scope string_scope.

(** A JavaScript number.  The platform's numbers are doubles (IEEE 754
    binary64).  A finite one is written as the rational it equals, and a
    rational that is not a double stands for the double nearest to it:
    the subtraction of the drag handlers ([sub]) and the printing
    ([toString]) round their arguments with [double] before anything
    else, and the subtraction rounds its result.  The comparisons are
    made on the rationals, which orders doubles as the platform does.
    The product and the sum that scale a random draw to the window, and
    the window size minus the card size, are kept as the exact rationals.
    [NaN] is kept because [parseInt] produces it and every comparison
    with it is false.  The infinities are left out: a magnitude of
    [2^1024] or more is outside the model. *)
Inductive number : Type :=
| NaN
| Fin (q : Q).

Definition of_Z (z : Z) : number := Fin (inject_Z z).

(** Truncation toward zero. *)
Definition trunc (q : Q) : Z := Z.quot (Qnum q) (Zpos (Qden q)).

Definition is_integer (n : number) : Prop := exists z : Z, n = of_Z z.

(** ** Doubles

    [double q] is the double nearest to [q], the one with the even
    significand when two are equally near.  A positive [a] with
    [2^e <= a < 2^(e+1)] is rounded to a multiple of [2^(e-52)], and to
    a multiple of [2^-1074] below the normal range. *)

Definition pow2 (k : Z) : Q := (2 # 1) ^ k.

Definition ilog2 (a : Q) : Z :=
  let l := (Z.log2 (Qnum a) - Z.log2 (Zpos (Qden a)))%Z in
  if Qle_bool (pow2 l) a then l else (l - 1)%Z.

Definition nearest_even (t : Q) : Z :=
  let f := Qfloor t in
  match ((t - inject_Z f) ?= (1 # 2))%Q with
  | Lt => f
  | Gt => (f + 1)%Z
  | Eq => if Z.even f then f else (f + 1)%Z
  end.

Definition ulp_exp (a : Q) : Z := Z.max (ilog2 a - 52) (-1074).

Definition nearest_double (a : Q) : Q :=
  Qred (inject_Z (nearest_even (a / pow2 (ulp_exp a))) * pow2 (ulp_exp a)).

Definition double (q : Q) : Q :=
  match Qnum q with
  | Z0 => 0
  | Zpos _ => nearest_double q
  | Zneg _ => - nearest_double (- q)
  end.

Definition minus (p q : Q) : Q := double (double p - double q).

(** [a - b]: the exact difference of the two doubles, rounded. *)
Definition sub (a b : number) : number :=
  match a, b with
  | Fin p, Fin q => Fin (minus p q)
  | _, _ => NaN
  end.

(** [a > b]: false as soon as one side is [NaN]. *)
Definition gt (a b : number) : bool :=
  match a, b with
  | Fin p, Fin q => negb (Qle_bool p q)
  | _, _ => false
  end.

(** [Math.min(a, b)]. *)
Definition min (a b : number) : number :=
  match a, b with
  | Fin p, Fin q => if Qle_bool p q then a else b
  | _, _ => NaN
  end.

(** ** Number to string

    [Number::toString] with radix 10.  For a double of magnitude [a],
    with [10^(n-1) <= a < 10^n], the platform takes the least [k] such
    that some [k]-digit decimal [s * 10^(n-k)] reads back as [a]; of two
    such decimals it takes the one nearer to [a] (the even [s] when they
    are equally near).  Seventeen digits always suffice.  The decimal is
    printed in positional notation when [1e-6 <= a < 1e21] and in
    exponent notation otherwise: one digit, a point and the remaining
    digits if there are any, [e], the sign of the exponent and the
    exponent.  ([shortest] answers [None] for no double; the digits of
    [a] itself stand in for it.) *)

Definition pow10 (k : Z) : Q := (10 # 1) ^ k.

Fixpoint decade_up (fuel : nat) (a : Q) (n : Z) : Z :=
  match fuel with
  | O => n
  | S f => if Qle_bool (pow10 n) a then decade_up f a (n + 1) else n
  end.

Fixpoint decade_down (fuel : nat) (a : Q) (n : Z) : Z :=
  match fuel with
  | O => n
  | S f => if Qle_bool (pow10 (n - 1)) a then n else decade_down f a (n - 1)
  end.

Definition decade (a : Q) : Z :=
  if Qle_bool 1 a then decade_up 400 a 1 else decade_down 400 a 0.

Definition nearer (a lo hi : Q) (even_lo : bool) : Q :=
  match ((a - lo) ?= (hi - a))%Q with
  | Lt => lo
  | Gt => hi
  | Eq => if even_lo then lo else hi
  end.

Definition candidate (a : Q) (n k : Z) : option Q :=
  let scale := pow10 (n - k) in
  let f := Qfloor (a / scale) in
  let lo := (inject_Z f * scale)%Q in
  let hi := (inject_Z (f + 1) * scale)%Q in
  match Qeq_bool (double lo) a, Qeq_bool (double hi) a with
  | true, true => Some (nearer a lo hi (Z.even f))
  | true, false => Some lo
  | false, true => Some hi
  | false, false => None
  end.

Fixpoint shortest (fuel : nat) (a : Q) (n k : Z) : option Q :=
  match fuel with
  | O => None
  | S f =>
      match candidate a n k with
      | Some v => Some v
      | None => shortest f a n (k + 1)
      end
  end.

Definition decimal (n : N) : string :=
  NilZero.string_of_uint (N.to_uint n).

Definition digit_char (k : N) : ascii := ascii_of_N (48 + k).

Fixpoint fraction (fuel : nat) (r d : N) : string :=
  match fuel with
  | O => EmptyString
  | S fuel' =>
      if (r =? 0)%N then EmptyString
      else String (digit_char ((10 * r) / d))
                  (fraction fuel' ((10 * r) mod d) d)
  end.

Definition plain_digits (v : Q) : string :=
  let a := Z.to_N (Qnum v) in
  let d := Npos (Qden v) in
  let frac := fraction 40 (a mod d) d in
  decimal (a / d)
  ++ match frac with
     | EmptyString => ""
     | _ => String "." frac
     end.

Definition exponent_digits (v : Q) : string :=
  let n := decade v in
  plain_digits (v / pow10 (n - 1))
  ++ "e" ++ (if (1 <=? n)%Z then "+" else "-")
  ++ decimal (Z.to_N (Z.abs (n - 1))).

(** The values that are printed in positional notation and whose
    integer part has at most 53 bits. *)
Definition plain (q : Q) : Prop :=
  q == 0 \/ (1 # 1000000 <= Qabs q /\ Qabs q < 9007199254740992 # 1).

Definition toString (n : number) : string :=
  match n with
  | NaN => "NaN"
  | Fin q =>
      let d := double q in
      let a := Qabs d in
      if Qeq_bool a 0 then "0"
      else
        let v := match shortest 17 a (decade a) 1 with
                 | Some v => v
                 | None => a
                 end in
        (if (Qnum d <? 0)%Z then "-" else "")
        ++ (if Qle_bool (pow10 (-6)) v && negb (Qle_bool (pow10 21) v)
            then plain_digits v
            else exponent_digits v)
  end.

(** ** parseInt

    [parseInt(string)] with no radix argument: leading white space is
    skipped (strings are byte strings here, so the white space is the
    ASCII one), then an optional sign, then [0x] or [0X] selects radix
    16 (radix 10 otherwise), then the longest run of digits of that
    radix is read.  No digit at all gives [NaN]. *)

Definition is_space (c : ascii) : bool :=
  let n := N_of_ascii c in
  ((n =? 9) || (n =? 10) || (n =? 11) || (n =? 12) || (n =? 13) || (n =? 32))%N.

Fixpoint skip_space (s : string) : string :=
  match s with
  | String c r => if is_space c then skip_space r else s
  | EmptyString => s
  end.

Definition digit_of (radix : N) (c : ascii) : option N :=
  let n := N_of_ascii c in
  let v := if ((48 <=? n) && (n <=? 57))%N then Some (n - 48)%N
           else if ((97 <=? n) && (n <=? 122))%N then Some (n - 87)%N
           else if ((65 <=? n) && (n <=? 90))%N then Some (n - 55)%N
           else None in
  match v with
  | Some k => if (k <? radix)%N then Some k else None
  | None => None
  end.

Fixpoint scan (radix acc : N) (s : string) : N :=
  match s with
  | String c r =>
      match digit_of radix c with
      | Some v => scan radix (acc * radix + v) r
      | None => acc
      end
  | EmptyString => acc
  end.

Definition strip_sign (s : string) : bool * string :=
  match s with
  | String "-"%char r => (true, r)
  | String "+"%char r => (false, r)
  | _ => (false, s)
  end.

Definition strip_radix (s : string) : N * string :=
  match s with
  | String "0"%char (String "x"%char r) => (16%N, r)
  | String "0"%char (String "X"%char r) => (16%N, r)
  | _ => (10%N, s)
  end.

Definition parseInt (s : string) : number :=
  let (neg, s2) := strip_sign (skip_space s) in
  let (radix, s3) := strip_radix s2 in
  match s3 with
  | String c _ =>
      match digit_of radix c with
      | Some _ =>
          let m := Z.of_N (scan radix 0 s3) in
          of_Z (if neg then - m else m)
      | None => NaN
      end
  | EmptyString => NaN
  end.

(** [parseInt(v)] where [v] may be [undefined]: the argument is first
    turned into the string ["undefined"]. *)
Definition parseInt_opt (v : option string) : number :=
  match v with
  | Some s => parseInt s
  | None => parseInt "undefined"
  end.

(** [n + "px"] assigned to a CSS length property holding [old].  A value
    that is not a length ([NaNpx]) is dropped by the style object and the
    property keeps what it held; a valid one reads back as written. *)
Definition assign_px (old : string) (n : number) : string :=
  match n with
  | NaN => old
  | Fin _ => toString n ++ "px"
  end.

(** ** Numerals

    Vocabulary for the facts about [toString] and [parseInt]. *)

(** The value of a decimal numeral read digit by digit from [acc]. *)
Fixpoint uint_value (acc : N) (d : Decimal.uint) : N :=
  match d with
  | Decimal.Nil => acc
  | Decimal.D0 l => uint_value (acc * 10 + 0) l
  | Decimal.D1 l => uint_value (acc * 10 + 1) l
  | Decimal.D2 l => uint_value (acc * 10 + 2) l
  | Decimal.D3 l => uint_value (acc * 10 + 3) l
  | Decimal.D4 l => uint_value (acc * 10 + 4) l
  | Decimal.D5 l => uint_value (acc * 10 + 5) l
  | Decimal.D6 l => uint_value (acc * 10 + 6) l
  | Decimal.D7 l => uint_value (acc * 10 + 7) l
  | Decimal.D8 l => uint_value (acc * 10 + 8) l
  | Decimal.D9 l => uint_value (acc * 10 + 9) l
  end.

(** A string that does not go on with a decimal digit. *)
Definition stops (s : string) : Prop :=
  match s with
  | String c _ => digit_of 10 c = None
  | EmptyString => True
  end.

(** A string that starts with a point, with the [e] of an exponent or
    with the [p] of [px], or is empty: what follows the leading digits
    of a rendered length. *)
Definition ends_number (s : string) : Prop :=
  match s with
  | String c _ => c = "."%char \/ c = "p"%char \/ c = "e"%char
  | EmptyString => True
  end.

(** The values [JSON.parse] produces and [JSON.stringify] consumes. *)
#[warnings="-register-all"] Inductive json : Type :=
| JNull
| JBool (b : bool)
| JNum (q : Q)
| JStr (s : string)
| JArr (items : list json)
| JObj (fields : list (string * json)).

Definition json_of_number (n : number) : json :=
  match n with
  | NaN => JNull
  | Fin q => JNum q
  end.

End Js.

(* ================================================================== *)
(** * Arrays *)
(* ================================================================== *)

(** [Array.prototype.find] is the library's [find].  The handlers go on
    to change the entry [find] gave them, or to splice out the entry
    [findIndex] pointed at. *)
Module Arrays.

(** [f] applied to the first entry that satisfies [p]. *)
Fixpoint update_first {A : Type} (p : A -> bool) (f : A -> A) (l : list A) : list A :=
  match l with
  | [] => []
  | a :: r => if p a then f a :: r else a :: update_first p f r
  end.

(** [l.splice(l.findIndex(p), 1)], nothing when no entry satisfies [p]. *)
Fixpoint remove_first {A : Type} (p : A -> bool) (l : list A) : list A :=
  match l with
  | [] => []
  | a :: r => if p a then r else a :: remove_first p r
  end.

(** [l.findIndex(p)], [None] for [-1]. *)
Fixpoint find_index {A : Type} (p : A -> bool) (l : list A) : option nat :=
  match l with
  | [] => None
  | a :: r => if p a then Some O else option_map S (find_index p r)
  end.

End Arrays.

(* ================================================================== *)
(** * The layered variant (script.js, lines 1-643) *)
(* ================================================================== *)

Module Layered.
Import Js Arrays.

Local Open Scope string_scope.

(** ** Data *)

Record point : Type := { x : number; y : number }.

(** One entry of [appConfig.cards]. *)
Record card : Type := {
  id : string;
  title : string;
  content : string;
  position : point;
  zIndex : Z
}.

Record appConfig : Type := {
  cards : list card;
  maxZIndex : Z
}.

Definition default_cards : list card :=
  [ {| id := "card-1"; title := "How to Use?";
       content := "Click and drag any card to move it around. Cards can be placed freely anywhere on the screen";
       position := {| x := of_Z 100; y := of_Z 100 |}; zIndex := 1 |};
    {| id := "card-2"; title := "What matters now?";
       content := "Identify your top priority today. Keep it visible, actionable, and small.";
       position := {| x := of_Z 450; y := of_Z 150 |}; zIndex := 2 |};
    {| id := "card-3"; title := "Idea in progress!";
       content := "What if we approached this differently? — Use this space to explore raw thoughts.";
       position := {| x := of_Z 200; y := of_Z 300 |}; zIndex := 3 |};
    {| id := "card-4"; title := "Looped Thought!";
       content := "Recurring pattern or belief? Examine it. Is it still serving you?";
       position := {| x := of_Z 500; y := of_Z 350 |}; zIndex := 4 |} ].

Definition seed_card (n : nat) : card :=
  nth n default_cards
      {| id := ""; title := ""; content := "";
         position := {| x := NaN; y := NaN |}; zIndex := 0 |}.

Definition default_config : appConfig :=
  {| cards := default_cards; maxZIndex := 4 |}.

(** [dragState].  [draggedCard] refers to a card element by its node
    handle; [None] stands for [null]. *)
Record dragState : Type := {
  isDragging : bool;
  draggedCard : option nat;
  mouseOffset : point
}.

Definition idle : dragState :=
  {| isDragging := false; draggedCard := None;
     mouseOffset := {| x := of_Z 0; y := of_Z 0 |} |}.

(** A card element ([div.info-card]).  Only the properties the handlers
    read back or that mirror the store are kept: the id, the [left] and
    [top] style strings and the z-index; cursor, transform, shadow,
    transition and opacity are cosmetic and left out.  An element that
    was taken out of the document stays reachable through [dragState],
    hence [attached]. *)
Record element : Type := {
  node : nat;
  elem_id : string;
  left : string;
  top : string;
  style_zIndex : Z;
  attached : bool
}.

(** The whole application: the store, the drag session, the card
    elements in document order, the next free node handle, the elements
    whose removal a timer will carry out, the value under the key
    [cardWorkspace] of local storage and the number of [setItem] calls
    made so far. *)
Record state : Type := {
  config : appConfig;
  drag : dragState;
  elements : list element;
  fresh : nat;
  timers : list nat;
  storage : option string;
  writes : nat
}.

Definition with_config (s : state) (c : appConfig) : state :=
  {| config := c; drag := drag s; elements := elements s; fresh := fresh s;
     timers := timers s; storage := storage s; writes := writes s |}.

Definition with_drag (s : state) (d : dragState) : state :=
  {| config := config s; drag := d; elements := elements s; fresh := fresh s;
     timers := timers s; storage := storage s; writes := writes s |}.

Definition with_elements (s : state) (l : list element) : state :=
  {| config := config s; drag := drag s; elements := l; fresh := fresh s;
     timers := timers s; storage := storage s; writes := writes s |}.

Definition has_id (cardId : string) (c : card) : bool := String.eqb (id c) cardId.

Definition set_zIndex (z : Z) (c : card) : card :=
  {| id := id c; title := title c; content := content c;
     position := position c; zIndex := z |}.

Definition set_position (p : point) (c : card) : card :=
  {| id := id c; title := title c; content := content c;
     position := p; zIndex := zIndex c |}.

Definition is_node (n : nat) (e : element) : bool := Nat.eqb (node e) n.

(** [document.getElementById(cardId)]: the first element of the document
    with that id. *)
Definition in_document_with_id (cardId : string) (e : element) : bool :=
  attached e && String.eqb (elem_id e) cardId.

Definition getElementById (cardId : string) (l : list element) : option element :=
  find (in_document_with_id cardId) l.

(** [document.querySelectorAll(".info-card")]. *)
Definition info_cards (l : list element) : list element := filter attached l.

Definition set_left_top (nx ny : number) (e : element) : element :=
  {| node := node e; elem_id := elem_id e;
     left := assign_px (left e) nx; top := assign_px (top e) ny;
     style_zIndex := style_zIndex e; attached := attached e |}.

Definition set_style_zIndex (z : Z) (e : element) : element :=
  {| node := node e; elem_id := elem_id e; left := left e; top := top e;
     style_zIndex := z; attached := attached e |}.

Definition detach (e : element) : element :=
  {| node := node e; elem_id := elem_id e; left := left e; top := top e;
     style_zIndex := style_zIndex e; attached := false |}.

(** ** Card creation (lines 72-128) *)

Definition createCard (cardData : card) (s : state) : state :=
  let e := {| node := fresh s; elem_id := id cardData;
              left := assign_px "" (x (position cardData));
              top := assign_px "" (y (position cardData));
              style_zIndex := zIndex cardData; attached := true |} in
  {| config := config s; drag := drag s; elements := (elements s ++ [e])%list;
     fresh := S (fresh s); timers := timers s; storage := storage s;
     writes := writes s |}.

Definition createAllCards (s : state) : state :=
  fold_left (fun acc cardData => createCard cardData acc) (cards (config s)) s.

(** [Math.random()] is the argument [r1] resp. [r2]; [w] and [h] are
    [window.innerWidth] and [window.innerHeight]. *)
Definition getRandomPosition (r1 r2 w h : Q) : point :=
  {| x := Fin (r1 * (w - 300)); y := Fin (r2 * (h - 400) + 50) |}.

(** ** Persistence, saving side (lines 365-377) *)

Definition json_of_card (c : card) : json :=
  JObj [ ("id", JStr (id c)); ("title", JStr (title c));
         ("content", JStr (content c));
         ("position", JObj [ ("x", json_of_number (x (position c)));
                             ("y", json_of_number (y (position c))) ]);
         ("zIndex", JNum (inject_Z (zIndex c))) ].

(** [workspaceData] of [saveToStorage]; [now] is [Date.now()]. *)
Definition workspaceData (c : appConfig) (now : Z) : json :=
  JObj [ ("cards", JArr (map json_of_card (cards c)));
         ("maxZIndex", JNum (inject_Z (maxZIndex c)));
         ("timestamp", JNum (inject_Z now)) ].

Section Platform.

(** [JSON.stringify] and [JSON.parse] belong to the platform; [None] is
    a thrown [SyntaxError]. *)
Variable JSON_stringify : json -> string.
Variable JSON_parse : string -> option json.

(** [setItem] is taken to succeed; when it throws, the handler logs the
    error and goes on with the store as it is. *)
Definition saveToStorage (now : Z) (s : state) : state :=
  {| config := config s; drag := drag s; elements := elements s;
     fresh := fresh s; timers := timers s;
     storage := Some (JSON_stringify (workspaceData (config s) now));
     writes := S (writes s) |}.

(** ** Drag and drop (lines 166-283) *)

Definition bringCardToFront (cardId : string) (s : state) : state :=
  match find (has_id cardId) (cards (config s)) with
  | None => s
  | Some _ =>
      let z := (maxZIndex (config s) + 1)%Z in
      let c' := {| cards := update_first (has_id cardId) (set_zIndex z) (cards (config s));
                   maxZIndex := z |} in
      with_elements (with_config s c')
        (update_first (in_document_with_id cardId) (set_style_zIndex z) (elements s))
  end.

(** A [mousedown] on a card: whether the target is the remove button,
    the card element the listener is bound to, the pointer and the
    card's bounding box at that instant. *)
Record press : Type := {
  on_remove_button : bool;
  currentTarget : nat;
  clientX : Q;
  clientY : Q;
  rect_left : Q;
  rect_top : Q
}.

Definition startDrag (e : press) (s : state) : state :=
  if on_remove_button e then s
  else
    match find (is_node (currentTarget e)) (elements s) with
    | None => s
    | Some card =>
        let s1 := bringCardToFront (elem_id card) s in
        with_drag s1
          {| isDragging := true; draggedCard := Some (node card);
             mouseOffset := {| x := sub (Fin (clientX e)) (Fin (rect_left e));
                               y := sub (Fin (clientY e)) (Fin (rect_top e)) |} |}
    end.

Definition handleDrag (cx cy : Q) (s : state) : state :=
  match isDragging (drag s), draggedCard (drag s) with
  | true, Some n =>
      let newX := sub (Fin cx) (x (mouseOffset (drag s))) in
      let newY := sub (Fin cy) (y (mouseOffset (drag s))) in
      with_elements s (update_first (is_node n) (set_left_top newX newY) (elements s))
  | _, _ => s
  end.

Definition updateCardPosition (card : element) (s : state) : state :=
  let p := {| x := parseInt (left card); y := parseInt (top card) |} in
  with_config s
    {| cards := update_first (has_id (elem_id card)) (set_position p) (cards (config s));
       maxZIndex := maxZIndex (config s) |}.

Definition stopDrag (now : Z) (s : state) : state :=
  match isDragging (drag s), draggedCard (drag s) with
  | true, Some n =>
      match find (is_node n) (elements s) with
      | Some card => with_drag (saveToStorage now (updateCardPosition card s)) idle
      | None => s
      end
  | _, _ => s
  end.

(** ** Adding and removing cards (lines 293-356) *)

(** The callback of the 300 ms timer of [removeCard]. *)
Definition removal_timer (n : nat) (s : state) : state :=
  if existsb (Nat.eqb n) (timers s) then
    {| config := config s; drag := drag s;
       elements := update_first (is_node n) detach (elements s);
       fresh := fresh s;
       timers := remove_first (Nat.eqb n) (timers s);
       storage := storage s; writes := writes s |}
  else s.

Definition removeCard (cardId : string) (now : Z) (s : state) : state :=
  let scheduled :=
    match getElementById cardId (elements s) with
    | Some e => (timers s ++ [node e])%list
    | None => timers s
    end in
  saveToStorage now
    {| config := {| cards := remove_first (has_id cardId) (cards (config s));
                    maxZIndex := maxZIndex (config s) |};
       drag := drag s; elements := elements s; fresh := fresh s;
       timers := scheduled; storage := storage s; writes := writes s |}.

(** What [prompt] returned is falsy: the dialog was cancelled or left
    empty. *)
Definition declined (answer : option string) : bool :=
  match answer with
  | None => true
  | Some t => String.eqb t ""
  end.

Definition text (answer : option string) : string :=
  match answer with
  | Some t => t
  | None => ""
  end.

(** What the platform hands to [showAddCardDialog]: the two answers, the
    clock when the id is made, the two random draws, the window size and
    the clock when the store is saved. *)
Record dialog : Type := {
  title_answer : option string;
  content_answer : option string;
  now_id : Z;
  random_x : Q;
  random_y : Q;
  innerWidth : Q;
  innerHeight : Q;
  now_save : Z
}.

(** [`card-${Date.now()}`]. *)
Definition stamp_id (now : Z) : string := "card-" ++ toString (of_Z now).

Definition showAddCardDialog (d : dialog) (s : state) : state :=
  if declined (title_answer d) then s
  else if declined (content_answer d) then s
  else
    let z := (maxZIndex (config s) + 1)%Z in
    let newCardData :=
      {| id := stamp_id (now_id d);
         title := text (title_answer d);
         content := text (content_answer d);
         position := getRandomPosition (random_x d) (random_y d)
                       (innerWidth d) (innerHeight d);
         zIndex := z |} in
    let s1 := with_config s {| cards := (cards (config s) ++ [newCardData])%list;
                               maxZIndex := z |} in
    saveToStorage (now_save d) (createCard newCardData s1).

(** ** Loading (lines 382-403) and start-up (lines 610-636) *)

(** Reading property [k] of a parsed value that is not [null]; [None] is
    [undefined].  The parser keeps one value per key. *)
Definition property (k : string) (v : json) : option json :=
  match v with
  | JObj fields =>
      match find (fun kv => String.eqb (fst kv) k) fields with
      | Some kv => Some (snd kv)
      | None => None
      end
  | _ => None
  end.

Definition truthy (v : json) : bool :=
  match v with
  | JNull => false
  | JBool b => b
  | JNum q => negb (Qeq_bool q 0)
  | JStr t => negb (String.eqb t "")
  | JArr _ => true
  | JObj _ => true
  end.

(** The values the guard of [loadFromStorage] lets through: the array
    under [cards] and whatever is under [maxZIndex]. *)
Record adopted : Type := {
  saved_cards : list json;
  saved_maxZIndex : option json
}.

Definition accept (saved : option string) : option adopted :=
  match saved with
  | None => None
  | Some blob =>
      if String.eqb blob "" then None
      else
        match JSON_parse blob with
        | None => None
        | Some JNull => None
        | Some data =>
            match property "cards" data with
            | Some (JArr items) =>
                Some {| saved_cards := items;
                        saved_maxZIndex := property "maxZIndex" data |}
            | _ => None
            end
        end
  end.

(** There is a saved text, not the empty one, and it decodes to an
    object that holds an array under [cards]. *)
Definition well_shaped (saved : option string) : Prop :=
  exists blob fields items,
    saved = Some blob /\ blob <> "" /\
    JSON_parse blob = Some (JObj fields) /\
    property "cards" (JObj fields) = Some (JArr items).

(** Reading the adopted values as the records the handlers work on. *)
Definition integer_of (q : Q) : option Z :=
  if (Qnum q mod Zpos (Qden q) =? 0)%Z then Some (Qnum q / Zpos (Qden q))%Z
  else None.

Definition number_of_json (v : json) : option number :=
  match v with
  | JNum q => Some (Fin q)
  | _ => None
  end.

Definition string_of_json (v : json) : option string :=
  match v with
  | JStr t => Some t
  | _ => None
  end.

Definition point_of_json (v : json) : option point :=
  match property "x" v, property "y" v with
  | Some vx, Some vy =>
      match number_of_json vx, number_of_json vy with
      | Some nx, Some ny => Some {| x := nx; y := ny |}
      | _, _ => None
      end
  | _, _ => None
  end.

Definition card_of_json (v : json) : option card :=
  match property "id" v, property "title" v, property "content" v,
        property "position" v, property "zIndex" v with
  | Some (JStr i), Some (JStr t), Some (JStr c), Some p, Some (JNum z) =>
      match point_of_json p, integer_of z with
      | Some pt, Some n =>
          Some {| id := i; title := t; content := c; position := pt; zIndex := n |}
      | _, _ => None
      end
  | _, _, _, _, _ => None
  end.

Fixpoint cards_of_json (items : list json) : option (list card) :=
  match items with
  | [] => Some []
  | v :: r =>
      match card_of_json v, cards_of_json r with
      | Some c, Some l => Some (c :: l)
      | _, _ => None
      end
  end.

(** [workspaceData.maxZIndex || 4]. *)
Definition counter_of (v : option json) : option Z :=
  match v with
  | None => Some 4%Z
  | Some j =>
      if truthy j then
        match j with
        | JNum q => integer_of q
        | _ => None
        end
      else Some 4%Z
  end.

Definition config_of (a : adopted) : option appConfig :=
  match cards_of_json (saved_cards a), counter_of (saved_maxZIndex a) with
  | Some l, Some z => Some {| cards := l; maxZIndex := z |}
  | _, _ => None
  end.

(** What [loadFromStorage] leaves behind.  [Absent]: the guard failed or
    an exception was caught before any assignment, nothing was touched.
    [Loaded]: store replaced, cards rendered again.  [Untyped]: the guard
    let the values through and they were assigned, but they are not card
    records with a whole-number counter; the handlers are not modelled on
    such a store. *)
Inductive load : Type :=
| Absent (s : state)
| Loaded (s : state)
| Untyped (a : adopted).

Definition loadFromStorage (s : state) : load :=
  match accept (storage s) with
  | None => Absent s
  | Some a =>
      match config_of a with
      | Some c =>
          Loaded (createAllCards
                    (with_elements (with_config s c) (map detach (elements s))))
      | None => Untyped a
      end
  end.

Definition render_if_empty (s : state) : state :=
  match info_cards (elements s) with
  | [] => createAllCards s
  | _ => s
  end.

Definition initializeApp (s : state) : load :=
  match loadFromStorage s with
  | Absent s' => Absent (render_if_empty s')
  | Loaded s' => Loaded (render_if_empty s')
  | Untyped a => Untyped a
  end.

(** ** Window resize (lines 582-606) *)

Definition keep_in_bounds (w h : Q) (c : card) : card :=
  let maxX := Fin (w - 300) in
  let maxY := Fin (h - 400) in
  let x1 := if gt (x (position c)) maxX then maxX else x (position c) in
  let y1 := if gt (y (position c)) maxY then maxY else y (position c) in
  set_position {| x := x1; y := y1 |} c.

Definition show_position (l : list element) (c : card) : list element :=
  update_first (in_document_with_id (id c))
    (set_left_top (x (position c)) (y (position c))) l.

Definition handleWindowResize (w h : Q) (now : Z) (s : state) : state :=
  let moved := map (keep_in_bounds w h) (cards (config s)) in
  saveToStorage now
    {| config := {| cards := moved; maxZIndex := maxZIndex (config s) |};
       drag := drag s;
       elements := fold_left show_position moved (elements s);
       fresh := fresh s; timers := timers s; storage := storage s;
       writes := writes s |}.

(** ** Events *)

Inductive event : Type :=
| Mousedown (e : press)
| Mousemove (cx cy : Q)
| Mouseup (now : Z)
| RemoveClick (cardId : string) (now : Z)
| AddClick (d : dialog)
| Resize (w h : Q) (now : Z)
| Timeout (n : nat).

Definition step (s : state) (ev : event) : state :=
  match ev with
  | Mousedown e => startDrag e s
  | Mousemove cx cy => handleDrag cx cy s
  | Mouseup now => stopDrag now s
  | RemoveClick cardId now => removeCard cardId now s
  | AddClick d => showAddCardDialog d s
  | Resize w h now => handleWindowResize w h now s
  | Timeout n => removal_timer n s
  end.

Definition run (s : state) (evs : list event) : state := fold_left step evs s.

(** ** Observations used in the statements *)

(** The layer a step handed out, if it did: the counter moved to it. *)
Definition allocated (s s' : state) : list Z :=
  if (maxZIndex (config s') =? maxZIndex (config s))%Z then []
  else [maxZIndex (config s')].

Fixpoint allocations (s : state) (evs : list event) : list Z :=
  match evs with
  | [] => []
  | ev :: r => (allocated s (step s ev) ++ allocations (step s ev) r)%list
  end.

End Platform.

Definition ids (s : state) : list string := map id (cards (config s)).

(** A coordinate lies between [lo] and [hi]. *)
Definition within (lo hi : Q) (n : number) : Prop :=
  match n with
  | Fin q => lo <= q /\ q <= hi
  | NaN => False
  end.

(** A card of 300 by 400 pixels rests inside a viewport of [w] by [h]. *)
Definition rests_in_viewport (w h : Q) (c : card) : Prop :=
  within 0 (w - 300) (x (position c)) /\ within 0 (h - 400) (y (position c)).

(** The element shows the position [(qx, qy)]. *)
Definition shows (e : element) (qx qy : Q) : Prop :=
  left e = toString (Fin qx) ++ "px" /\ top e = toString (Fin qy) ++ "px".

(** A page whose store holds one card, on layer 1, with the counter at
    1, and its element. *)
Definition single_card_page : state :=
  createAllCards
    {| config :=
         {| cards := [ {| id := "card-1"; title := "How to Use?"; content := "";
                          position := {| x := of_Z 100; y := of_Z 100 |};
                          zIndex := 1 |} ];
            maxZIndex := 1 |};
       drag := idle; elements := []; fresh := 0; timers := [];
       storage := None; writes := 0 |}.

(** The page as the script finds it: default store, no card element,
    [saved] under the storage key. *)
Definition page (saved : option string) : state :=
  {| config := default_config; drag := idle; elements := []; fresh := 0;
     timers := []; storage := saved; writes := 0 |}.

(** The state of a drag in progress on the element with handle [n],
    whose id is [cardId], with press offset [off]. *)
Definition dragging_on (n : nat) (cardId : string) (off : point) (c : appConfig)
           (s : state) : Prop :=
  drag s = {| isDragging := true; draggedCard := Some n; mouseOffset := off |} /\
  config s = c /\
  exists e, find (is_node n) (elements s) = Some e /\ elem_id e = cardId.

(** ** Sample inputs *)

(** A serializer and a parser to run the handlers with: [always v]
    answers every text with the value [v]. *)
Definition no_json (_ : json) : string := "".

Definition always (v : json) (_ : string) : option json := Some v.


(** A saved object in the format of the other variants: the cards are
    under [cardData], there is no [cards]. *)
Definition foreign_blob : json := JObj [ ("cardData", JArr []); ("timestamp", JNum 5) ].

(** A saved object with one card on layer 9 and no counter. *)
Definition high_card : card :=
  {| id := "card-9"; title := "T"; content := "C";
     position := {| x := of_Z 10; y := of_Z 20 |}; zIndex := 9 |}.

Definition blob_without_counter : json := JObj [ ("cards", JArr [json_of_card high_card]) ].

Definition some_dialog (now : Z) : dialog :=
  {| title_answer := Some "X"; content_answer := Some "Y"; now_id := now;
     random_x := 1 # 3; random_y := 1 # 7; innerWidth := 1280 # 1;
     innerHeight := 800 # 1; now_save := now |}.

(** The default cards, rendered. *)
Definition rendered_defaults : state := createAllCards (page None).

Definition press_at (n : nat) (cx cy bx bt : Z) : press :=
  {| on_remove_button := false; currentTarget := n;
     clientX := inject_Z cx; clientY := inject_Z cy;
     rect_left := inject_Z bx; rect_top := inject_Z bt |}.

(** The first default card, which sits at (100, 100), is grabbed 200
    pixels right of and 50 pixels below its corner and pulled until the
    pointer is at (50, 20). *)
Definition pull_left : list event :=
  [ Mousedown (press_at 0 300 150 100 100); Mousemove 50 20; Mouseup 1 ].

(** The same card is grabbed 0.7 pixels right of and 0.3 pixels below
    its corner and pulled until the pointer is at (5.7, 8.3). *)
Definition fine_pull : list event :=
  [ Mousedown {| on_remove_button := false; currentTarget := 0;
                 clientX := 1007 # 10; clientY := 1003 # 10;
                 rect_left := 100; rect_top := 100 |};
    Mousemove (57 # 10) (83 # 10); Mouseup 1 ].

(** The same card is grabbed 0.30000000000000004 pixels right of the left
    edge of its box and the pointer is moved to 0.3. *)
Definition tiny_pull : list event :=
  [ Mousedown {| on_remove_button := false; currentTarget := 0;
                 clientX := 30000000000000004 # 100000000000000000; clientY := 5;
                 rect_left := 0; rect_top := 0 |};
    Mousemove (3 # 10) 25; Mouseup 1 ].

(** On the bare page a card is added, at (367.5, 106.25), and pressed. *)
Definition held_new_card : state :=
  run no_json (page None)
    [ AddClick {| title_answer := Some "X"; content_answer := Some "Y"; now_id := 7;
                  random_x := 3 # 8; random_y := 9 # 64; innerWidth := 1280 # 1;
                  innerHeight := 800 # 1; now_save := 7 |};
      Mousedown {| on_remove_button := false; currentTarget := 0;
                   clientX := 400; clientY := 200;
                   rect_left := 735 # 2; rect_top := 425 # 4 |} ].

Definition element_of (n : nat) (s : state) : element :=
  match find (is_node n) (elements s) with
  | Some e => e
  | None => {| node := n; elem_id := ""; left := ""; top := "";
               style_zIndex := 0; attached := false |}
  end.

(** ** Reset (lines 408-463) *)

(** The four cards the reset puts into the store: the default ones,
    each at a new random position.  [draw i] holds the two numbers
    [Math.random()] gave to the [i]-th call of [getRandomPosition]. *)
Definition reset_cards (draw : nat -> Q * Q) (w h : Q) : list card :=
  map (fun i => set_position
                  (getRandomPosition (fst (draw i)) (snd (draw i)) w h)
                  (seed_card i))
      (seq 0 4).

(** [resetWorkspace] up to its timers: nothing when the confirmation is
    declined; otherwise every card element of the document is handed to
    a removal timer. *)
Definition resetWorkspace (confirmed : bool) (s : state) : state :=
  if confirmed then
    {| config := config s; drag := drag s; elements := elements s;
       fresh := fresh s;
       timers := (timers s ++ map node (info_cards (elements s)))%list;
       storage := storage s; writes := writes s |}
  else s.

Section Reset.

Variable JSON_stringify : json -> string.

(** The callback of the 350 ms timer of [resetWorkspace]. *)
Definition reset_timer (draw : nat -> Q * Q) (w h : Q) (now : Z) (s : state) : state :=
  saveToStorage JSON_stringify now
    (createAllCards
       (with_config s {| cards := reset_cards draw w h; maxZIndex := 4 |})).

End Reset.

(** ** More observations *)

(** No card lies above the counter. *)
Definition layers_bounded (s : state) : Prop :=
  Forall (fun c => (zIndex c <= maxZIndex (config s))%Z) (cards (config s)).


(** What a card element shows, and what [createCard] makes an element
    show for a card. *)
Definition view_of (e : element) : string * string * string * Z :=
  (elem_id e, left e, top e, style_zIndex e).

Definition rendering (c : card) : string * string * string * Z :=
  (id c, assign_px "" (x (position c)), assign_px "" (y (position c)), zIndex c).

(** The state a load or a start-up left behind, when the store is one
    the handlers work on. *)
Definition outcome (l : load) : option state :=
  match l with
  | Absent s => Some s
  | Loaded s => Some s
  | Untyped _ => None
  end.

End Layered.

(* ================================================================== *)
(** * The theme manager of the layered variant (script.js, lines 472-529) *)
(* ================================================================== *)

Module Theme.

Local Open Scope string_scope.

(** The [.theme-icon] element inside the theme button. *)
Record icon : Type := { textContent : string; fontSize : string }.

(** The manager's fields [isDarkMode] and [themeIcon] ([None] for
    [null]: the button has no such child), the class [dark-mode] of the
    body and the entry [themePreference] of the local storage.  The
    theme button exists; without it the constructor does nothing and no
    click is handled. *)
Record state : Type := {
  isDarkMode : bool;
  themeIcon : option icon;
  dark_mode : bool;
  themePreference : option string
}.

(** A method returns or throws; either way the state is what the
    assignments made so far left behind. *)
Inductive outcome : Type :=
| Returned (s : state)
| Thrown (s : state).

Definition state_of (o : outcome) : state :=
  match o with
  | Returned s => s
  | Thrown s => s
  end.

Definition set_isDarkMode (b : bool) (s : state) : state :=
  {| isDarkMode := b; themeIcon := themeIcon s; dark_mode := dark_mode s;
     themePreference := themePreference s |}.

Definition set_dark_mode (b : bool) (s : state) : state :=
  {| isDarkMode := isDarkMode s; themeIcon := themeIcon s; dark_mode := b;
     themePreference := themePreference s |}.

(** [if (this.themeIcon) this.themeIcon.textContent = t]. *)
Definition write_icon (t : string) (s : state) : state :=
  {| isDarkMode := isDarkMode s;
     themeIcon := option_map (fun i => {| textContent := t; fontSize := fontSize i |})
                             (themeIcon s);
     dark_mode := dark_mode s; themePreference := themePreference s |}.

(** Lines 500-509.  In the dark branch the font size is assigned
    without the test for the icon: [this.themeIcon.style] throws when
    there is none. *)
Definition applyTheme (s : state) : outcome :=
  if isDarkMode s then
    let s1 := write_icon "☽" (set_dark_mode true s) in
    match themeIcon s1 with
    | Some i =>
        Returned {| isDarkMode := isDarkMode s1;
                    themeIcon := Some {| textContent := textContent i;
                                         fontSize := "2rem" |};
                    dark_mode := dark_mode s1;
                    themePreference := themePreference s1 |}
    | None => Thrown s1
    end
  else Returned (write_icon "✺" (set_dark_mode false s)).

Definition label (dark : bool) : string := if dark then "dark" else "light".

(** Lines 511-513. *)
Definition saveTheme (s : state) : state :=
  {| isDarkMode := isDarkMode s; themeIcon := themeIcon s; dark_mode := dark_mode s;
     themePreference := Some (label (isDarkMode s)) |}.

(** Lines 494-498. *)
Definition toggleTheme (s : state) : outcome :=
  match applyTheme (set_isDarkMode (negb (isDarkMode s)) s) with
  | Returned s1 => Returned (saveTheme s1)
  | Thrown s1 => Thrown s1
  end.

(** Lines 515-528; [prefers_dark] is what the media query
    [(prefers-color-scheme: dark)] answers.  An empty saved text counts
    as none. *)
Definition starts_dark (prefers_dark : bool) (saved : option string) : bool :=
  match saved with
  | Some t => if String.eqb t "" then prefers_dark else String.eqb t "dark"
  | None => prefers_dark
  end.

Definition loadTheme (prefers_dark : bool) (s : state) : outcome :=
  applyTheme (set_isDarkMode (starts_dark prefers_dark (themePreference s)) s).

(** Lines 473-492: [new ThemeManager()] on a page with a theme button.
    When [loadTheme] throws, the click handler is never installed. *)
Definition ThemeManager (i : option icon) (prefers_dark body_dark : bool)
           (saved : option string) : outcome :=
  loadTheme prefers_dark
    {| isDarkMode := false; themeIcon := i; dark_mode := body_dark;
       themePreference := saved |}.

(** A click on the theme button: an exception thrown by the handler
    leaves the state as it was at the throw. *)
Definition click (s : state) : state := state_of (toggleTheme s).

Definition clicks (n : nat) (s : state) : state := Nat.iter n click s.

(** ** Sample inputs *)

Definition sun : icon := {| textContent := "✺"; fontSize := "" |}.

Definition light_page (i : option icon) : state :=
  state_of (ThemeManager i false false None).

End Theme.

(* ================================================================== *)
(** * Start-up of the layered variant, theme manager included *)
(* ================================================================== *)

Module Startup.

(** What [initializeApp] (lines 610-636) leaves behind.  [Ready]: the
    theme manager was constructed and the load and the first rendering
    ran.  [Aborted]: the constructor threw, and with it [initializeApp],
    before [loadFromStorage]; the page is as it was. *)
Inductive started : Type :=
| Ready (theme : option Theme.state) (l : Layered.load)
| Aborted (theme : Theme.state) (s : Layered.state).

Section Platform.

Variable JSON_parse : string -> option Js.json.

(** [button] is [None] on a page without a theme button, [Some i] on a
    page with one, [i] being its icon if it has one. *)
Definition initializeApp (button : option (option Theme.icon))
           (prefers_dark body_dark : bool) (saved_theme : option string)
           (s : Layered.state) : started :=
  match button with
  | None => Ready None (Layered.initializeApp JSON_parse s)
  | Some i =>
      match Theme.ThemeManager i prefers_dark body_dark saved_theme with
      | Theme.Returned t => Ready (Some t) (Layered.initializeApp JSON_parse s)
      | Theme.Thrown t => Aborted t s
      end
  end.

End Platform.

End Startup.

(* ================================================================== *)
(** * The free-form variant (script.js, lines 644-1533): the drag gesture *)
(* ================================================================== *)

Module Freeform.
Import Js Arrays.

Local Open Scope string_scope.

Record point : Type := { x : number; y : number }.

(** One entry of [CONFIG.cardData]. *)
Record card : Type := {
  id : string;
  title : string;
  content : string;
  freePosition : point
}.

Record dragState : Type := {
  isDragging : bool;
  draggedCard : option nat;
  startPosition : option point;
  offset : point
}.

Definition idle : dragState :=
  {| isDragging := false; draggedCard := None; startPosition := None;
     offset := {| x := of_Z 0; y := of_Z 0 |} |}.

Record element : Type := {
  node : nat;
  elem_id : string;
  left : string;
  top : string;
  style_zIndex : string
}.

(** The store, the drag session, the card elements, the style updates
    handed to [requestAnimationFrame] and not yet run, the saved text and
    the number of [setItem] calls. *)
Record state : Type := {
  cardData : list card;
  drag : dragState;
  elements : list element;
  frames : list (nat * (number * number));
  storage : option string;
  writes : nat
}.

Definition has_id (cardId : string) (c : card) : bool := String.eqb (id c) cardId.

Definition is_node (n : nat) (e : element) : bool := Nat.eqb (node e) n.

Definition set_left_top (nx ny : number) (e : element) : element :=
  {| node := node e; elem_id := elem_id e;
     left := assign_px (left e) nx; top := assign_px (top e) ny;
     style_zIndex := style_zIndex e |}.

Definition set_style_zIndex (z : string) (e : element) : element :=
  {| node := node e; elem_id := elem_id e; left := left e; top := top e;
     style_zIndex := z |}.

Definition set_freePosition (p : point) (c : card) : card :=
  {| id := id c; title := title c; content := content c; freePosition := p |}.

Definition json_of_card (c : card) : json :=
  JObj [ ("id", JStr (id c)); ("title", JStr (title c));
         ("content", JStr (content c));
         ("freePosition", JObj [ ("x", json_of_number (x (freePosition c)));
                                 ("y", json_of_number (y (freePosition c))) ]) ].

Definition workspaceData (l : list card) (now : Z) : json :=
  JObj [ ("cardData", JArr (map json_of_card l));
         ("timestamp", JNum (inject_Z now)) ].

Record press : Type := {
  on_remove_button : bool;
  currentTarget : nat;
  clientX : Q;
  clientY : Q;
  rect_left : Q;
  rect_top : Q
}.

Section Platform.

Variable JSON_stringify : json -> string.

(** Lines 1288-1303. *)
Definition saveToLocalStorage (now : Z) (s : state) : state :=
  {| cardData := cardData s; drag := drag s; elements := elements s;
     frames := frames s;
     storage := Some (JSON_stringify (workspaceData (cardData s) now));
     writes := S (writes s) |}.

(** Lines 900-940. *)
Definition startDragging (e : press) (s : state) : state :=
  if on_remove_button e then s
  else
    match find (is_node (currentTarget e)) (elements s) with
    | None => s
    | Some card =>
        {| cardData := cardData s;
           drag := {| isDragging := true; draggedCard := Some (node card);
                      startPosition := Some {| x := Fin (clientX e);
                                               y := Fin (clientY e) |};
                      offset := {| x := sub (Fin (clientX e)) (Fin (rect_left e));
                                   y := sub (Fin (clientY e)) (Fin (rect_top e)) |} |};
           elements := update_first (is_node (node card))
                         (set_style_zIndex "1000") (elements s);
           frames := frames s; storage := storage s; writes := writes s |}
    end.

(** Lines 946-962: the new position is computed at once, the style is
    written when the next animation frame comes. *)
Definition handleMouseMovement (cx cy : Q) (s : state) : state :=
  match isDragging (drag s), draggedCard (drag s) with
  | true, Some n =>
      let newX := sub (Fin cx) (x (offset (drag s))) in
      let newY := sub (Fin cy) (y (offset (drag s))) in
      {| cardData := cardData s; drag := drag s; elements := elements s;
         frames := (frames s ++ [(n, (newX, newY))])%list;
         storage := storage s; writes := writes s |}
  | _, _ => s
  end.

Definition animation_frame (s : state) : state :=
  {| cardData := cardData s; drag := drag s;
     elements :=
       fold_left (fun l f => update_first (is_node (fst f))
                               (set_left_top (fst (snd f)) (snd (snd f))) l)
                 (frames s) (elements s);
     frames := []; storage := storage s; writes := writes s |}.

(** Lines 1008-1016. *)
Definition updateCardDataPosition (card : element) (p : point) (s : state) : state :=
  {| cardData := update_first (has_id (elem_id card)) (set_freePosition p) (cardData s);
     drag := drag s; elements := elements s; frames := frames s;
     storage := storage s; writes := writes s |}.

(** Lines 1022-1040. *)
Definition cleanupAfterDrag (s : state) : state :=
  {| cardData := cardData s; drag := idle; elements := elements s;
     frames := frames s; storage := storage s; writes := writes s |}.

(** Lines 968-1002. *)
Definition stopDragging (now : Z) (s : state) : state :=
  match isDragging (drag s), draggedCard (drag s) with
  | true, Some n =>
      match find (is_node n) (elements s) with
      | Some card =>
          let s1 :=
            {| cardData := cardData s; drag := drag s;
               elements := update_first (is_node n) (set_style_zIndex "auto")
                             (elements s);
               frames := frames s; storage := storage s; writes := writes s |} in
          cleanupAfterDrag
            (saveToLocalStorage now
               (updateCardDataPosition card
                  {| x := parseInt (left card); y := parseInt (top card) |} s1))
      | None => s
      end
  | _, _ => s
  end.

End Platform.

(** The element shows the position [(qx, qy)]. *)
Definition shows (e : element) (qx qy : Q) : Prop :=
  left e = toString (Fin qx) ++ "px" /\ top e = toString (Fin qy) ++ "px".

(** ** Sample inputs *)

Definition element_of (n : nat) (s : state) : element :=
  match find (is_node n) (elements s) with
  | Some e => e
  | None => {| node := n; elem_id := ""; left := ""; top := ""; style_zIndex := "" |}
  end.

(** One card at [(qx, qy)], rendered; then pressed. *)
Definition one_card (qx qy : Q) : state :=
  {| cardData := [ {| id := "card-1"; title := "How to Use?"; content := "";
                      freePosition := {| x := Fin qx; y := Fin qy |} |} ];
     drag := idle;
     elements := [ {| node := 0; elem_id := "card-1";
                      left := assign_px "" (Fin qx); top := assign_px "" (Fin qy);
                      style_zIndex := "" |} ];
     frames := []; storage := None; writes := 0 |}.

Definition held_card (qx qy : Q) : state :=
  startDragging
    {| on_remove_button := false; currentTarget := 0;
       clientX := qx + 5; clientY := qy + 5; rect_left := qx; rect_top := qy |}
    (one_card qx qy).

(** The card at (0, 0) is grabbed 0.30000000000000004 pixels right of the
    left edge of its box, the pointer is moved to 0.3, the frame comes
    and the card is released. *)
Definition tiny_release (JSON_stringify : json -> string) : state :=
  stopDragging JSON_stringify 1
    (animation_frame
       (handleMouseMovement (3 # 10) 25
          (startDragging
             {| on_remove_button := false; currentTarget := 0;
                clientX := 30000000000000004 # 100000000000000000; clientY := 5;
                rect_left := 0; rect_top := 0 |}
             (one_card 0 0)))).

End Freeform.

(* ================================================================== *)
(** * The grid variant (script.js, lines 1534-2336) *)
(* ================================================================== *)

Module Grid.
Import Js Arrays.

Local Open Scope string_scope.

(** ** Data *)

Record point : Type := { x : number; y : number }.

Record cell_position : Type := { row : number; col : number }.

(** A property that is missing, [null] or an object. *)
Inductive slot (A : Type) : Type :=
| undefined
| null
| object (a : A).

Arguments undefined {A}.
Arguments null {A}.
Arguments object {A} a.

(** One entry of [CONFIG.cardData]; [position] is the grid placement,
    [freePosition] the free one. *)
Record card : Type := {
  id : string;
  title : string;
  content : string;
  type : option string;
  position : slot cell_position;
  freePosition : slot point
}.

(** Where a card element hangs: under [document.body] or in the grid
    cell with the given index in document order. *)
Inductive container : Type :=
| Body
| Cell (k : nat).

(** A [div.grid-cell] of the page: its [data-row] and [data-col]
    attributes and its bounding box.  The markup is not part of the
    script; the cells are given with the state. *)
Record grid_cell : Type := {
  cell_id : string;
  cell_row : option string;
  cell_col : option string;
  box_left : Q;
  box_right : Q;
  box_top : Q;
  box_bottom : Q
}.

(** A card element: its id, its parent, the classes [free-position] and
    [dragging], the [left] and [top] style strings and [dataset.row],
    [dataset.col].  Width, height and the classes [placed] and
    [new-card] are cosmetic and left out. *)
Record element : Type := {
  node : nat;
  elem_id : string;
  parent : container;
  free_position : bool;
  dragging : bool;
  left : string;
  top : string;
  data_row : option string;
  data_col : option string
}.

Record dragState : Type := {
  isDragging : bool;
  draggedCard : option nat;
  startPosition : option point;
  offset : point;
  originalParent : option container;
  wasInGrid : bool
}.

Definition idle : dragState :=
  {| isDragging := false; draggedCard := None; startPosition := None;
     offset := {| x := of_Z 0; y := of_Z 0 |};
     originalParent := None; wasInGrid := false |}.

(** The store, the drag session, the grid cells of the page, the card
    elements (those of one parent in child order) and the next free node
    handle. *)
Record state : Type := {
  cardData : list card;
  drag : dragState;
  cells : list grid_cell;
  elements : list element;
  fresh : nat
}.

Definition with_cardData (s : state) (l : list card) : state :=
  {| cardData := l; drag := drag s; cells := cells s;
     elements := elements s; fresh := fresh s |}.

Definition with_drag (s : state) (d : dragState) : state :=
  {| cardData := cardData s; drag := d; cells := cells s;
     elements := elements s; fresh := fresh s |}.

Definition with_elements (s : state) (l : list element) : state :=
  {| cardData := cardData s; drag := drag s; cells := cells s;
     elements := l; fresh := fresh s |}.

(** ** Elements *)

Definition has_id (cardId : string) (c : card) : bool := String.eqb (id c) cardId.

Definition is_node (n : nat) (e : element) : bool := Nat.eqb (node e) n.

Definition same_container (p q : container) : bool :=
  match p, q with
  | Body, Body => true
  | Cell i, Cell j => Nat.eqb i j
  | _, _ => false
  end.

Definition child_of (p : container) (e : element) : bool := same_container (parent e) p.

Definition set_parent (p : container) (e : element) : element :=
  {| node := node e; elem_id := elem_id e; parent := p;
     free_position := free_position e; dragging := dragging e;
     left := left e; top := top e;
     data_row := data_row e; data_col := data_col e |}.

Definition set_dragging (b : bool) (e : element) : element :=
  {| node := node e; elem_id := elem_id e; parent := parent e;
     free_position := free_position e; dragging := b;
     left := left e; top := top e;
     data_row := data_row e; data_col := data_col e |}.

Definition set_left_top (nx ny : number) (e : element) : element :=
  {| node := node e; elem_id := elem_id e; parent := parent e;
     free_position := free_position e; dragging := dragging e;
     left := assign_px (left e) nx; top := assign_px (top e) ny;
     data_row := data_row e; data_col := data_col e |}.

(** [p.appendChild(card)]: the card becomes the last child of [p]. *)
Definition appendChild (p : container) (n : nat) (l : list element) : list element :=
  match find (is_node n) l with
  | Some e => (remove_first (is_node n) l ++ [set_parent p e])%list
  | None => l
  end.

(** [dataset.row] and [dataset.col] of a container; the body carries no
    such attribute, and reading it gives [undefined]. *)
Definition dataset_row (cs : list grid_cell) (p : container) : option string :=
  match p with
  | Body => None
  | Cell k => match nth_error cs k with
              | Some c => cell_row c
              | None => None
              end
  end.

Definition dataset_col (cs : list grid_cell) (p : container) : option string :=
  match p with
  | Body => None
  | Cell k => match nth_error cs k with
              | Some c => cell_col c
              | None => None
              end
  end.

(** Assigning [v] to a [dataset] entry stores its string form. *)
Definition stored (v : option string) : string :=
  match v with
  | Some t => t
  | None => "undefined"
  end.

(** [cell.querySelector(".info-card:not(.dragging)")]. *)
Definition resting_card (k : nat) (l : list element) : option element :=
  find (fun e => child_of (Cell k) e && negb (dragging e)) l.

(** The cards in document order: those in the cells, cell by cell, then
    those under the body, where the script appends them. *)
Definition document_order (cs : list grid_cell) (l : list element) : list element :=
  (flat_map (fun k => filter (child_of (Cell k)) l) (seq 0 (List.length cs))
   ++ filter (child_of Body) l)%list.

Definition getElementById (cardId : string) (cs : list grid_cell)
           (l : list element) : option element :=
  find (fun e => String.eqb (elem_id e) cardId) (document_order cs l).

(** ** Store update (lines 2040-2055) *)

Definition set_placement (g : slot cell_position) (f : slot point) (c : card) : card :=
  {| id := id c; title := title c; content := content c; type := type c;
     position := g; freePosition := f |}.

Definition updateCardDataPosition (cardId : string) (gridPosition : slot cell_position)
           (freePosition : slot point) (s : state) : state :=
  match gridPosition with
  | object _ =>
      with_cardData s
        (update_first (has_id cardId) (set_placement gridPosition null) (cardData s))
  | _ =>
      with_cardData s
        (update_first (has_id cardId) (set_placement null freePosition) (cardData s))
  end.

(** ** Card creation and placement (lines 1664-1759) *)

Definition cell_named (name : string) (c : grid_cell) : bool := String.eqb (cell_id c) name.

Definition createSingleCard (cardData : card) (s : state) : state * element :=
  ({| cardData := Grid.cardData s; drag := drag s; cells := cells s;
      elements := elements s; fresh := S (fresh s) |},
   {| node := fresh s; elem_id := id cardData; parent := Body;
      free_position := false; dragging := false; left := ""; top := "";
      data_row := None; data_col := None |}).

Definition positionCardFreely (card : element) (p : point) (s : state) : state :=
  with_elements s
    (elements s ++
     [ {| node := node card; elem_id := elem_id card; parent := Body;
          free_position := true; dragging := dragging card;
          left := assign_px (left card) (x p); top := assign_px (top card) (y p);
          data_row := data_row card; data_col := data_col card |} ])%list.

Definition positionCardInGrid (card : element) (g : cell_position) (s : state) : state :=
  let name := "cell-" ++ toString (row g) ++ "-" ++ toString (col g) in
  match find_index (cell_named name) (cells s) with
  | Some k =>
      with_elements s
        (elements s ++
         [ {| node := node card; elem_id := elem_id card; parent := Cell k;
              free_position := free_position card; dragging := dragging card;
              left := left card; top := top card;
              data_row := Some (toString (row g));
              data_col := Some (toString (col g)) |} ])%list
  | None => s
  end.

Definition positionCard (card : element) (cardData : Grid.card) (s : state) : state :=
  match freePosition cardData with
  | object p => positionCardFreely card p s
  | _ =>
      match position cardData with
      | object g => positionCardInGrid card g s
      | _ => s
      end
  end.

Definition createAndPlace (s : state) (cardData : Grid.card) : state :=
  let (s1, card) := createSingleCard cardData s in
  positionCard card cardData s1.

Definition createAllCards (s : state) : state :=
  fold_left createAndPlace (cardData s) s.

(** ** Drag and drop (lines 1799-2101) *)

Record press : Type := {
  currentTarget : nat;
  clientX : Q;
  clientY : Q;
  rect_left : Q;
  rect_top : Q
}.

(** The style part of [convertCardToFreePosition]. *)
Definition float_at (e : press) (c : element) : element :=
  {| node := node c; elem_id := elem_id c; parent := parent c;
     free_position := true; dragging := dragging c;
     left := assign_px (left c) (Fin (rect_left e));
     top := assign_px (top c) (Fin (rect_top e));
     data_row := data_row c; data_col := data_col c |}.

Definition convertCardToFreePosition (n : nat) (e : press) (s : state) : state :=
  with_elements s
    (appendChild Body n (update_first (is_node n) (float_at e) (elements s))).

Definition is_cell (p : container) : bool :=
  match p with
  | Cell _ => true
  | Body => false
  end.

Definition startDragging (e : press) (s : state) : state :=
  match find (is_node (currentTarget e)) (elements s) with
  | None => s
  | Some card =>
      let d := {| isDragging := true; draggedCard := Some (node card);
                  startPosition := Some {| x := Fin (clientX e); y := Fin (clientY e) |};
                  offset := {| x := sub (Fin (clientX e)) (Fin (rect_left e));
                               y := sub (Fin (clientY e)) (Fin (rect_top e)) |};
                  originalParent := Some (parent card);
                  wasInGrid := is_cell (parent card) |} in
      let s1 := convertCardToFreePosition (node card) e (with_drag s d) in
      with_elements s1 (update_first (is_node (node card)) (set_dragging true) (elements s1))
  end.

(** The highlight of the cell under the pointer is cosmetic and left
    out. *)
Definition handleMouseMovement (cx cy : Q) (s : state) : state :=
  match isDragging (drag s), draggedCard (drag s) with
  | true, Some n =>
      let newX := sub (Fin cx) (x (offset (drag s))) in
      let newY := sub (Fin cy) (y (offset (drag s))) in
      with_elements s (update_first (is_node n) (set_left_top newX newY) (elements s))
  | _, _ => s
  end.

Definition under_mouse (mouseX mouseY : Q) (c : grid_cell) : bool :=
  Qle_bool (box_left c) mouseX && Qle_bool mouseX (box_right c)
  && Qle_bool (box_top c) mouseY && Qle_bool mouseY (box_bottom c).

Definition findGridCellUnderMouse (mouseX mouseY : Q) (s : state) : option nat :=
  find_index (under_mouse mouseX mouseY) (cells s).

(** The style and dataset part of [moveCardToGridCell]. *)
Definition settle (r c : option string) (card : element) : element :=
  {| node := node card; elem_id := elem_id card; parent := parent card;
     free_position := false; dragging := dragging card;
     left := ""; top := "";
     data_row := Some (stored r); data_col := Some (stored c) |}.

Definition moveCardToGridCell (n : nat) (targetCell : container) (s : state) : state :=
  match find (is_node n) (elements s) with
  | None => s
  | Some card =>
      let r := dataset_row (cells s) targetCell in
      let c := dataset_col (cells s) targetCell in
      let s1 := with_elements s
                  (appendChild targetCell n
                     (update_first (is_node n) (settle r c) (elements s))) in
      updateCardDataPosition (elem_id card)
        (object {| row := parseInt_opt (dataset_row (cells s) targetCell);
                   col := parseInt_opt (dataset_col (cells s) targetCell) |})
        undefined s1
  end.

Definition parentElement (n : nat) (s : state) : container :=
  match find (is_node n) (elements s) with
  | Some e => parent e
  | None => Body
  end.

Definition swapCardPositions (card1 card2 : nat) (s : state) : state :=
  let card1Parent := parentElement card1 s in
  let card2Parent := parentElement card2 s in
  moveCardToGridCell card2 card1Parent (moveCardToGridCell card1 card2Parent s).

Definition snapCardToGrid (card : nat) (targetCell : nat) (s : state) : state :=
  match resting_card targetCell (elements s) with
  | Some existingCard => swapCardPositions card (node existingCard) s
  | None => moveCardToGridCell card (Cell targetCell) s
  end.

Definition finalizeCardFreePosition (n : nat) (s : state) : state :=
  match find (is_node n) (elements s) with
  | None => s
  | Some card =>
      updateCardDataPosition (elem_id card) null
        (object {| x := parseInt (left card); y := parseInt (top card) |})
        (with_elements s (update_first (is_node n) (set_dragging false) (elements s)))
  end.

Definition cleanupAfterDrag (s : state) : state :=
  let l := match draggedCard (drag s) with
           | Some n => update_first (is_node n) (set_dragging false) (elements s)
           | None => elements s
           end in
  {| cardData := cardData s; drag := idle; cells := cells s;
     elements := l; fresh := fresh s |}.

Definition stopDragging (cx cy : Q) (s : state) : state :=
  match isDragging (drag s), draggedCard (drag s) with
  | true, Some card =>
      match findGridCellUnderMouse cx cy s with
      | Some dropTarget => cleanupAfterDrag (snapCardToGrid card dropTarget s)
      | None => cleanupAfterDrag (finalizeCardFreePosition card s)
      end
  | _, _ => s
  end.

(** ** Adding a card (lines 2125-2159) *)

Record dialog : Type := {
  title_answer : option string;
  content_answer : option string;
  now_id : Z;
  random_x : Q;
  random_y : Q;
  innerWidth : Q;
  innerHeight : Q
}.

Definition declined (answer : option string) : bool :=
  match answer with
  | None => true
  | Some t => String.eqb t ""
  end.

Definition text (answer : option string) : string :=
  match answer with
  | Some t => t
  | None => ""
  end.

Definition showAddCardDialog (d : dialog) (s : state) : state :=
  if declined (title_answer d) then s
  else if declined (content_answer d) then s
  else
    let newCardData :=
      {| id := "card-" ++ toString (of_Z (now_id d));
         title := text (title_answer d);
         content := text (content_answer d);
         type := Some "idea";
         position := null;
         freePosition :=
           object {| x := Fin (random_x d * (innerWidth d - 300));
                     y := Fin (random_y d * (innerHeight d - 200) + 100) |} |} in
    createAndPlace (with_cardData s (cardData s ++ [newCardData])%list) newCardData.

(** ** Window resize (lines 2210-2234) *)

Definition keep_in_bounds (w h : Q) (c : card) : card :=
  match freePosition c with
  | object p =>
      set_placement (position c)
        (object {| x := min (x p) (Fin (w - 300)); y := min (y p) (Fin (h - 200)) |})
        c
  | _ => c
  end.

Definition show_position (cs : list grid_cell) (l : list element) (c : card) : list element :=
  match freePosition c with
  | object p =>
      match getElementById (id c) cs l with
      | Some e =>
          if free_position e
          then update_first (is_node (node e)) (set_left_top (x p) (y p)) l
          else l
      | None => l
      end
  | _ => l
  end.

Definition handleWindowResize (w h : Q) (s : state) : state :=
  let moved := map (keep_in_bounds w h) (cardData s) in
  {| cardData := moved; drag := drag s; cells := cells s;
     elements := fold_left (show_position (cells s)) moved (elements s);
     fresh := fresh s |}.

(** ** Events *)

Inductive event : Type :=
| Mousedown (e : press)
| Mousemove (cx cy : Q)
| Mouseup (cx cy : Q)
| AddClick (d : dialog)
| Resize (w h : Q).

Definition step (s : state) (ev : event) : state :=
  match ev with
  | Mousedown e => startDragging e s
  | Mousemove cx cy => handleMouseMovement cx cy s
  | Mouseup cx cy => stopDragging cx cy s
  | AddClick d => showAddCardDialog d s
  | Resize w h => handleWindowResize w h s
  end.

Definition run (s : state) (evs : list event) : state := fold_left step evs s.

(** A drag in progress: the dragged card is the last child of the body,
    no other element carries its handle and none rests in cell [k]. *)
Definition lifted (n : nat) (cardId : string) (k : nat) (rest : list element)
           (before s : state) : Prop :=
  isDragging (drag s) = true /\
  draggedCard (drag s) = Some n /\
  (exists qx qy, offset (drag s) = {| x := Fin qx; y := Fin qy |}) /\
  cardData s = cardData before /\
  cells s = cells before /\
  forallb (fun e => negb (is_node n e)) rest = true /\
  forallb (fun e => negb (child_of (Cell k) e)) rest = true /\
  exists d, elements s = (rest ++ [d])%list /\
            is_node n d = true /\ elem_id d = cardId /\ parent d = Body.

(** The element shows the position [(qx, qy)]. *)
Definition shows (e : element) (qx qy : Q) : Prop :=
  left e = toString (Fin qx) ++ "px" /\ top e = toString (Fin qy) ++ "px".

(** A drag in progress with press offset [(ox, oy)]: the dragged card is
    the last child of the body, free-positioned, and shows [(qx, qy)]. *)
Definition held_at (n : nat) (cardId : string) (rest : list element)
           (before s : state) (ox oy qx qy : Q) : Prop :=
  isDragging (drag s) = true /\
  draggedCard (drag s) = Some n /\
  offset (drag s) = {| x := Fin ox; y := Fin oy |} /\
  cardData s = cardData before /\
  cells s = cells before /\
  forallb (fun e => negb (is_node n e)) rest = true /\
  exists d, elements s = (rest ++ [d])%list /\
            is_node n d = true /\ elem_id d = cardId /\ parent d = Body /\
            free_position d = true /\ shows d qx qy.

(** What the card pressed with [e] shows after the moves: the corner of
    its box at press time, then the pointer of the last move minus the
    press offset. *)
Definition last_shown (e : press) (moves : list (Q * Q)) : Q * Q :=
  fold_left (fun _ m => (minus (fst m) (minus (clientX e) (rect_left e)),
                         minus (snd m) (minus (clientY e) (rect_top e))))
            moves (rect_left e, rect_top e).

(** ** Occupancy of the cells *)

Definition one_card_per_cell (l : list element) : Prop :=
  forall a b k, In a l -> In b l -> parent a = Cell k -> parent b = Cell k ->
                node a = node b.

(** Handles are distinct and below the next free one, a card in a cell
    does not carry the class [dragging], and no cell holds two cards. *)
Definition tidy_elements (bound : nat) (l : list element) : Prop :=
  NoDup (map node l) /\
  Forall (fun e => (node e < bound)%nat) l /\
  Forall (fun e => is_cell (parent e) = true -> dragging e = false) l /\
  one_card_per_cell l.

(** A tidy page; while a drag is in progress the dragged card hangs
    under the body. *)
Definition tidy (s : state) : Prop :=
  tidy_elements (fresh s) (elements s) /\
  (isDragging (drag s) = true ->
   forall n, draggedCard (drag s) = Some n ->
             Forall (fun e => node e = n -> parent e = Body) (elements s)).

(** The cell a card of the store is put into at start-up: the one its
    grid position names, when the card has no free position and the page
    has such a cell. *)
Definition named_cell (cs : list grid_cell) (c : card) : list nat :=
  match freePosition c with
  | object _ => []
  | _ =>
      match position c with
      | object g =>
          match find_index
                  (cell_named ("cell-" ++ toString (row g) ++ "-" ++ toString (col g)))
                  cs with
          | Some k => [k]
          | None => []
          end
      | _ => []
      end
  end.

(** The page before [initializeWorkspace] has run. *)
Definition blank (l : list card) (cs : list grid_cell) : state :=
  {| cardData := l; drag := idle; cells := cs; elements := []; fresh := 0 |}.

(** ** A sample page *)

(** A grid of two rows and two columns, as [CONFIG.gridSize] has it,
    with cells of 100 by 100 pixels from the top left corner. *)
Definition cell_at (r c : Z) : grid_cell :=
  {| cell_id := "cell-" ++ toString (of_Z r) ++ "-" ++ toString (of_Z c);
     cell_row := Some (toString (of_Z r));
     cell_col := Some (toString (of_Z c));
     box_left := inject_Z (100 * c); box_right := inject_Z (100 * c + 100);
     box_top := inject_Z (100 * r); box_bottom := inject_Z (100 * r + 100) |}.

Definition two_by_two : list grid_cell :=
  [cell_at 0 0; cell_at 0 1; cell_at 1 0; cell_at 1 1].

Definition free_card (i t : string) (px py : Z) : card :=
  {| id := i; title := t; content := ""; type := None; position := undefined;
     freePosition := object {| x := of_Z px; y := of_Z py |} |}.

(** Card A at (10, 10) and card B at (300, 300), both free. *)
Definition two_cards : state :=
  createAllCards
    {| cardData := [free_card "card-1" "A" 10 10; free_card "card-2" "B" 300 300];
       drag := idle; cells := two_by_two; elements := []; fresh := 0 |}.

(** Press the card with handle [n], whose box starts at [(fx, fy)], five
    pixels inside its corner, move to [(tx, ty)] and release there. *)
Definition drag_to (n : nat) (fx fy tx ty : Z) : list event :=
  [ Mousedown {| currentTarget := n;
                 clientX := inject_Z (fx + 5); clientY := inject_Z (fy + 5);
                 rect_left := inject_Z fx; rect_top := inject_Z fy |};
    Mousemove (inject_Z tx) (inject_Z ty);
    Mouseup (inject_Z tx) (inject_Z ty) ].

(** A rests in cell (0, 0); then B rests in cell (0, 1) as well; B alone
    rests in cell (0, 1) while A is free. *)
Definition a_on_grid : state := run two_cards (drag_to 0 10 10 50 50).

Definition both_on_grid : state := run a_on_grid (drag_to 1 300 300 150 50).

Definition b_on_grid : state := run two_cards (drag_to 1 300 300 150 50).

Definition grid_card (i t : string) (r c : Z) : card :=
  {| id := i; title := t; content := ""; type := None;
     position := object {| row := of_Z r; col := of_Z c |}; freePosition := null |}.

Definition element_of (n : nat) (s : state) : element :=
  match find (is_node n) (elements s) with
  | Some e => e
  | None => {| node := n; elem_id := ""; parent := Body; free_position := false;
               dragging := false; left := ""; top := "";
               data_row := None; data_col := None |}
  end.

Definition placement_of (cardId : string) (s : state)
  : option (slot cell_position * slot point) :=
  match find (has_id cardId) (cardData s) with
  | Some c => Some (position c, freePosition c)
  | None => None
  end.

(** A store with two cards on the grid and a free one. *)
Definition mixed_cards : list card :=
  [grid_card "card-1" "A" 0 0; grid_card "card-2" "B" 0 1; free_card "card-3" "C" 300 300].

Definition some_dialog (now : Z) : dialog :=
  {| title_answer := Some "X"; content_answer := Some "Y"; now_id := now;
     random_x := 1 # 3; random_y := 1 # 7; innerWidth := 1280 # 1;
     innerHeight := 800 # 1 |}.

End Grid.

(* ================================================================== *)
(** * Facts about the platform operations *)
(* ================================================================== *)

Module DoubleFacts.
Import Js.

Local Open Scope Q_scope.

Lemma pow2_pos (k : Z) : 0 < pow2 k.
Proof. apply Qpower_0_lt. reflexivity. Qed.

Lemma pow2_add (a b : Z) : pow2 (a + b) == pow2 a * pow2 b.
Proof. apply Qpower_plus. discriminate. Qed.

Lemma pow2_Z (k : Z) : (0 <= k)%Z -> pow2 k == inject_Z (2 ^ k).
Proof. intro H. unfold pow2. now rewrite Zpower_Qpower. Qed.

Lemma pow2_le (a b : Z) : (a <= b)%Z -> pow2 a <= pow2 b.
Proof. intro H. apply Qpower_le_compat_l; [exact H|discriminate]. Qed.

Lemma pow2_lt (a b : Z) : (a < b)%Z -> pow2 a < pow2 b.
Proof. intro H. apply Qpower_lt_compat_l; [exact H|reflexivity]. Qed.

Lemma pow2_lt_inv (a b : Z) : pow2 a < pow2 b -> (a < b)%Z.
Proof. intro H. apply (Qpower_lt_compat_l_inv (2 # 1)); [exact H|reflexivity]. Qed.

Lemma pow2_succ (a : Z) : pow2 (a + 1) == 2 * pow2 a.
Proof. rewrite pow2_add. change (pow2 1) with (2 # 1). ring. Qed.

Lemma ilog2_spec (a : Q) : 0 < a -> pow2 (ilog2 a) <= a /\ a < pow2 (ilog2 a + 1).
Proof.
  intro Ha. destruct a as [n d]. unfold ilog2. cbn [Qnum Qden].
  assert (Hn : (0 < n)%Z) by (unfold Qlt in Ha; simpl in Ha; lia).
  set (ln := Z.log2 n). set (ld := Z.log2 (Z.pos d)).
  destruct (Z.log2_spec n Hn) as (N1 & N2). fold ln in N1, N2.
  destruct (Z.log2_spec (Z.pos d) eq_refl) as (D1 & D2). fold ld in D1, D2.
  assert (Ln : (0 <= ln)%Z) by apply Z.log2_nonneg.
  assert (Ld : (0 <= ld)%Z) by apply Z.log2_nonneg.
  assert (E : n # d == inject_Z n / inject_Z (Z.pos d)) by apply Qmake_Qdiv.
  assert (Dpos : 0 < inject_Z (Z.pos d)) by reflexivity.
  assert (A : (n # d) * inject_Z (Z.pos d) == inject_Z n).
  { rewrite E. field. discriminate. }
  assert (Q1 : pow2 ln <= inject_Z n).
  { rewrite pow2_Z by lia. now rewrite <- Zle_Qle. }
  assert (Q2 : inject_Z n < pow2 (ln + 1)).
  { rewrite pow2_Z by lia. now rewrite <- Zlt_Qlt. }
  assert (Q3 : pow2 ld <= inject_Z (Z.pos d)).
  { rewrite pow2_Z by lia. now rewrite <- Zle_Qle. }
  assert (Q4 : inject_Z (Z.pos d) < pow2 (ld + 1)).
  { rewrite pow2_Z by lia. now rewrite <- Zlt_Qlt. }
  assert (F1 : n # d < pow2 (ln - ld + 1)).
  { assert (X : pow2 (ln - ld + 1) * pow2 ld == pow2 (ln + 1)).
    { rewrite <- pow2_add. apply Qpower_comp; [reflexivity|lia]. }
    pose proof (pow2_pos (ln - ld + 1)). pose proof (pow2_pos ld). nra. }
  assert (F2 : pow2 (ln - ld - 1) <= n # d).
  { assert (X : pow2 (ln - ld - 1) * pow2 (ld + 1) == pow2 ln).
    { rewrite <- pow2_add. apply Qpower_comp; [reflexivity|lia]. }
    pose proof (pow2_pos (ln - ld - 1)). pose proof (pow2_pos (ld + 1)). nra. }
  destruct (Qle_bool (pow2 (ln - ld)) (n # d)) eqn:T.
  - apply Qle_bool_iff in T. split; [exact T|exact F1].
  - split; [exact F2|].
    replace (ln - ld - 1 + 1)%Z with (ln - ld)%Z by lia.
    apply Qnot_le_lt. intro C. apply Qle_bool_iff in C. congruence.
Qed.


Lemma floor_bounds (t : Q) : inject_Z (Qfloor t) <= t /\ t < inject_Z (Qfloor t) + 1.
Proof.
  split; [apply Qfloor_le|].
  pose proof (Qlt_floor t) as H. rewrite inject_Z_plus in H. exact H.
Qed.

Lemma inject_Z_cases (a b : Z) :
  inject_Z a <= inject_Z b \/ inject_Z b + 1 <= inject_Z a.
Proof.
  destruct (Z_le_gt_dec a b) as [H|H].
  - left. now rewrite <- Zle_Qle.
  - right. change 1 with (inject_Z 1). rewrite <- inject_Z_plus, <- Zle_Qle. lia.
Qed.

(** [nearest_even t] is an integer nearest to [t]. *)
Lemma nearest_even_sq (t : Q) (G : Z) :
  (inject_Z (nearest_even t) - t) * (inject_Z (nearest_even t) - t)
  <= (inject_Z G - t) * (inject_Z G - t).
Proof.
  unfold nearest_even. set (f := Qfloor t).
  destruct (floor_bounds t) as (F1 & F2). fold f in F1, F2.
  assert (F3 : inject_Z (f + 1) == inject_Z f + 1)
    by (rewrite inject_Z_plus; reflexivity).
  destruct (inject_Z_cases G f) as [C|C].
  - destruct (Qcompare_spec (t - inject_Z f) (1 # 2)) as [E|E|E];
      [destruct (Z.even f)| |]; rewrite ?F3; nra.
  - destruct (Qcompare_spec (t - inject_Z f) (1 # 2)) as [E|E|E];
      [destruct (Z.even f)| |]; rewrite ?F3; nra.
Qed.

Lemma nearest_even_half (t : Q) :
  inject_Z (nearest_even t) - t <= 1 # 2 /\ t - inject_Z (nearest_even t) <= 1 # 2.
Proof.
  unfold nearest_even. set (f := Qfloor t).
  destruct (floor_bounds t) as (F1 & F2). fold f in F1, F2.
  assert (F3 : inject_Z (f + 1) == inject_Z f + 1)
    by (rewrite inject_Z_plus; reflexivity).
  destruct (Qcompare_spec (t - inject_Z f) (1 # 2)) as [E|E|E];
    [destruct (Z.even f)| |]; rewrite ?F3; split; lra.
Qed.

(** The double nearest to a positive rational, as it is computed. *)
Lemma nearest_double_value (a : Q) :
  nearest_double a
  == inject_Z (nearest_even (a / pow2 (ulp_exp a))) * pow2 (ulp_exp a).
Proof. unfold nearest_double. apply Qred_correct. Qed.

(** It is at least as near to [a] as every multiple of its last place. *)
Lemma nearest_double_grid (a : Q) (G : Z) :
  let r := nearest_double a in
  let g := inject_Z G * pow2 (ulp_exp a) in
  (r - a) * (r - a) <= (g - a) * (g - a).
Proof.
  intros r g. unfold r, g. rewrite nearest_double_value.
  set (P := pow2 (ulp_exp a)). pose proof (pow2_pos (ulp_exp a)) as HP. fold P in HP.
  pose proof (nearest_even_sq (a / P) G) as H.
  set (m := inject_Z (nearest_even (a / P))) in *.
  assert (E : a == (a / P) * P) by (field; lra).
  set (t := a / P) in *.
  rewrite E.
  assert (X : (m * P - t * P) * (m * P - t * P) == (m - t) * (m - t) * (P * P)) by ring.
  assert (Y : (inject_Z G * P - t * P) * (inject_Z G * P - t * P)
              == (inject_Z G - t) * (inject_Z G - t) * (P * P)) by ring.
  rewrite X, Y. apply Qmult_le_compat_r; [exact H|]. nra.
Qed.

Lemma ulp_exp_low (a : Q) : (-1074 <= ulp_exp a)%Z.
Proof. unfold ulp_exp. lia. Qed.

Lemma ulp_exp_bound (a : Q) : 0 < a -> a < pow2 (ulp_exp a + 53).
Proof.
  intro Ha. destruct (ilog2_spec a Ha) as (_ & H).
  eapply Qlt_le_trans; [exact H|]. apply pow2_le. unfold ulp_exp. lia.
Qed.

Lemma ulp_exp_normal (a : Q) :
  0 < a -> (-1074 < ulp_exp a)%Z -> pow2 (ulp_exp a + 52) <= a.
Proof.
  intros Ha Hp. destruct (ilog2_spec a Ha) as (H & _).
  replace (ulp_exp a + 52)%Z with (ilog2 a); [exact H|]. unfold ulp_exp in *. lia.
Qed.

Lemma on_grid (z p : Z) :
  (p <= 0)%Z -> inject_Z z == inject_Z (z * 2 ^ (- p)) * pow2 p.
Proof.
  intro Hp. rewrite inject_Z_mult, <- pow2_Z by lia.
  assert (E : pow2 (- p) * pow2 p == 1).
  { rewrite <- pow2_add. replace (- p + p)%Z with 0%Z by lia. reflexivity. }
  rewrite <- Qmult_assoc, E. ring.
Qed.

(** The double nearest to a positive rational is at least as near to it
    as every integer up to [2^53]. *)
Lemma nearest_double_int (a : Q) (z : Z) :
  0 < a -> (z <= 2 ^ 53)%Z ->
  (nearest_double a - a) * (nearest_double a - a)
  <= (inject_Z z - a) * (inject_Z z - a).
Proof.
  intros Ha Hz. destruct (Z_le_gt_dec (ulp_exp a) 0) as [Hp|Hp].
  - pose proof (nearest_double_grid a (z * 2 ^ (- ulp_exp a))) as H. cbv zeta in H.
    rewrite <- on_grid in H by exact Hp. exact H.
  - pose proof (nearest_double_grid a (2 ^ 52)) as H. cbv zeta in H.
    assert (N : pow2 (ulp_exp a + 52) <= a) by (apply ulp_exp_normal; [exact Ha|lia]).
    assert (G : inject_Z (2 ^ 52) * pow2 (ulp_exp a) == pow2 (ulp_exp a + 52)).
    { rewrite <- pow2_Z by lia. rewrite <- pow2_add. apply Qpower_comp; [reflexivity|lia]. }
    rewrite G in H.
    assert (B : inject_Z z <= pow2 (ulp_exp a + 52)).
    { apply Qle_trans with (inject_Z (2 ^ 53)); [now rewrite <- Zle_Qle|].
      rewrite <- pow2_Z by lia. apply pow2_le. lia. }
    eapply Qle_trans; [exact H|]. nra.
Qed.


Lemma pow2_le_inv (a b : Z) : pow2 a <= pow2 b -> (a <= b)%Z.
Proof. intro H. apply (Qpower_le_compat_l_inv (2 # 1)); [exact H|reflexivity]. Qed.

Lemma sq_zero (x y : Q) : (x - y) * (x - y) <= 0 -> x == y.
Proof. intro H. apply Qle_antisym; nra. Qed.

Lemma Qnum_sign (q : Q) :
  match Qnum q with
  | Z0 => q == 0
  | Zpos _ => 0 < q
  | Zneg _ => q < 0
  end.
Proof. destruct q as [[|n|n] d]; unfold Qeq, Qlt; simpl; lia. Qed.

Lemma Qnum_pos (q : Q) : 0 < q -> exists n, Qnum q = Zpos n.
Proof.
  destruct q as [[|n|n] d]; unfold Qlt; simpl; intro H; try lia. now exists n.
Qed.

Lemma Qnum_neg (q : Q) : q < 0 -> exists n, Qnum q = Zneg n.
Proof.
  destruct q as [[|n|n] d]; unfold Qlt; simpl; intro H; try lia. now exists n.
Qed.

Lemma double_pos (q : Q) : 0 < q -> double q = nearest_double q.
Proof. intro H. destruct (Qnum_pos q H) as (n & E). unfold double. now rewrite E. Qed.

Lemma double_neg (q : Q) : q < 0 -> double q = - nearest_double (- q).
Proof. intro H. destruct (Qnum_neg q H) as (n & E). unfold double. now rewrite E. Qed.

Lemma double_zero (q : Q) : q == 0 -> double q = 0.
Proof.
  intro H. unfold double. pose proof (Qnum_sign q) as S.
  destruct (Qnum q); [reflexivity|lra|lra].
Qed.

(** [double q] is at least as near to [q] as every integer of magnitude
    up to [2^53]. *)
Lemma double_near_int (q : Q) (z : Z) :
  (Z.abs z <= 2 ^ 53)%Z ->
  (double q - q) * (double q - q) <= (inject_Z z - q) * (inject_Z z - q).
Proof.
  intro Hz. destruct (Q_dec q 0) as [[H|H]|H].
  - rewrite (double_neg q H).
    assert (P : 0 < - q) by lra.
    pose proof (nearest_double_int (- q) (- z) P ltac:(lia)) as N.
    rewrite inject_Z_opp in N. nra.
  - rewrite (double_pos q H). apply nearest_double_int; [exact H|lia].
  - rewrite (double_zero q H). nra.
Qed.

(** Integers of magnitude up to [2^53] are doubles. *)
Lemma double_int (q : Q) (z : Z) :
  q == inject_Z z -> (Z.abs z <= 2 ^ 53)%Z -> double q == inject_Z z.
Proof.
  intros E Hz. pose proof (double_near_int q z Hz) as H.
  rewrite <- E. apply sq_zero. nra.
Qed.

Lemma nearest_double_nonneg (a : Q) : 0 < a -> 0 <= nearest_double a.
Proof.
  intro Ha. rewrite nearest_double_value.
  pose proof (pow2_pos (ulp_exp a)) as HP.
  destruct (nearest_even_half (a / pow2 (ulp_exp a))) as (_ & H).
  assert (T : 0 < a / pow2 (ulp_exp a)).
  { apply Qlt_shift_div_l; [exact HP|lra]. }
  assert (M : (0 <= nearest_even (a / pow2 (ulp_exp a)))%Z).
  { apply Z.lt_succ_r. rewrite Zlt_Qlt. unfold Z.succ. rewrite inject_Z_plus.
    change (inject_Z 1) with 1. change (inject_Z 0) with 0 in *. lra. }
  rewrite Zle_Qle in M. change (inject_Z 0) with 0 in M. nra.
Qed.

Lemma nearest_double_idem (a : Q) :
  0 < a -> 0 < nearest_double a -> nearest_double (nearest_double a) = nearest_double a.
Proof.
  intros Ha Hr. set (r := nearest_double a) in *.
  set (p := ulp_exp a). set (P := pow2 p).
  set (m := nearest_even (a / P)).
  assert (V : r == inject_Z m * P) by apply nearest_double_value.
  pose proof (pow2_pos p) as HP. fold P in HP.
  pose proof (ulp_exp_bound a Ha) as B. fold p in B.
  pose proof (ulp_exp_low a) as L. fold p in L.
  assert (T : a / P < inject_Z (2 ^ 53)).
  { apply Qlt_shift_div_r; [exact HP|]. rewrite <- pow2_Z by lia.
    unfold P. rewrite <- pow2_add. replace (53 + p)%Z with (p + 53)%Z by lia. exact B. }
  destruct (nearest_even_half (a / P)) as (H1 & _). fold m in H1.
  assert (M : (m <= 2 ^ 53)%Z).
  { apply Z.lt_succ_r. rewrite Zlt_Qlt. unfold Z.succ. rewrite inject_Z_plus.
    change (inject_Z 1) with 1. lra. }
  assert (M0 : (0 < m)%Z).
  { rewrite Zlt_Qlt. change (inject_Z 0) with 0. nra. }
  assert (G : exists G : Z, r == inject_Z G * pow2 (ulp_exp r)).
  { destruct (ilog2_spec r Hr) as (E1 & E2).
    assert (R : r <= pow2 (p + 53)).
    { rewrite V, pow2_add, (pow2_Z 53) by lia. fold P.
      rewrite Zle_Qle in M. nra. }
    destruct (Qlt_le_dec r (pow2 (p + 53))) as [C|C].
    - assert (E : (ilog2 r < p + 53)%Z).
      { apply pow2_lt_inv. eapply Qle_lt_trans; [exact E1|exact C]. }
      assert (Le : (ulp_exp r <= p)%Z) by (unfold ulp_exp; lia).
      exists (m * 2 ^ (p - ulp_exp r))%Z.
      apply Qeq_trans with (inject_Z m * P); [exact V|].
      rewrite inject_Z_mult, <- pow2_Z by lia.
      rewrite <- Qmult_assoc, <- pow2_add. unfold P.
      apply Qmult_comp; [reflexivity|].
      apply Qpower_comp; [reflexivity|lia].
    - assert (Er : r == pow2 (p + 53)) by (apply Qle_antisym; assumption).
      assert (E : ilog2 r = (p + 53)%Z).
      { apply Z.le_antisymm.
        - apply pow2_le_inv. now rewrite <- Er.
        - apply Z.lt_succ_r. apply pow2_lt_inv. unfold Z.succ. now rewrite <- Er. }
      exists (2 ^ 52)%Z. apply Qeq_trans with (pow2 (p + 53)); [exact Er|].
      rewrite <- pow2_Z, <- pow2_add by lia.
      apply Qpower_comp; [reflexivity|]. unfold ulp_exp. rewrite E. lia. }
  destruct G as (G & HG).
  pose proof (nearest_double_grid r G) as N. cbv zeta in N. rewrite <- HG in N.
  assert (E : nearest_double r == r) by (apply sq_zero; nra).
  change (Qred (inject_Z (nearest_even (r / pow2 (ulp_exp r))) * pow2 (ulp_exp r))
          = Qred (inject_Z m * P)).
  apply Qred_complete. rewrite <- nearest_double_value.
  apply Qeq_trans with r; [exact E|exact V].
Qed.

Lemma Qopp_opp_eq (q : Q) : - - q = q.
Proof. destruct q as [n d]. unfold Qopp. simpl. now rewrite Z.opp_involutive. Qed.

Lemma Qred_zero (q : Q) : q == 0 -> Qred q = 0.
Proof. intro H. rewrite (Qred_complete _ _ H). reflexivity. Qed.

(** Rounding a double gives the same double. *)
Lemma double_idem (q : Q) : double (double q) = double q.
Proof.
  destruct (Q_dec q 0) as [[H|H]|H].
  - rewrite (double_neg q H). assert (P : 0 < - q) by lra.
    pose proof (nearest_double_nonneg (- q) P) as N.
    destruct (Qle_lt_or_eq _ _ N) as [C|C].
    + rewrite double_neg by lra.
      rewrite Qopp_opp_eq.
      now rewrite nearest_double_idem.
    + assert (Z0 : nearest_double (- q) = 0).
      { unfold nearest_double in *. apply Qred_zero.
        rewrite Qred_correct in C. now symmetry. }
      rewrite Z0. reflexivity.
  - rewrite (double_pos q H).
    pose proof (nearest_double_nonneg q H) as N.
    destruct (Qle_lt_or_eq _ _ N) as [C|C].
    + rewrite double_pos by exact C. now apply nearest_double_idem.
    + assert (Z0 : nearest_double q = 0).
      { unfold nearest_double in *. apply Qred_zero.
        rewrite Qred_correct in C. now symmetry. }
      rewrite Z0. reflexivity.
  - rewrite (double_zero q H). reflexivity.
Qed.

End DoubleFacts.

Module JsFacts.
Import Js DoubleFacts.

(** The string functions are never unfolded by simplification. *)
Arguments toString : simpl never.
Arguments parseInt : simpl never.
Arguments parseInt_opt : simpl never.
Arguments assign_px : simpl never.
Arguments plain_digits : simpl never.
Arguments exponent_digits : simpl never.
Arguments double : simpl never.
Arguments minus : simpl never.

Lemma uint_value_pos (d : Decimal.uint) (p : positive) :
  uint_value (Npos p) d = Npos (Pos.of_uint_acc d p).
Proof.
  revert p; induction d; intro p; cbn [uint_value Pos.of_uint_acc]; auto;
    rewrite <- IHd; f_equal; lia.
Qed.

Lemma uint_value_of_uint (d : Decimal.uint) :
  uint_value 0 d = N.of_uint d.
Proof.
  unfold N.of_uint.
  induction d; cbn [uint_value Pos.of_uint]; auto;
    change (0 * 10 + 0)%N with 0%N; auto; apply uint_value_pos.
Qed.

Lemma scan_stops (acc : N) (s : string) : stops s -> scan 10 acc s = acc.
Proof.
  destruct s as [|c r]; simpl; auto. intros ->. reflexivity.
Qed.

Lemma scan_uint (d : Decimal.uint) (acc : N) (rest : string) :
  scan 10 acc (NilEmpty.string_of_uint d ++ rest) = scan 10 (uint_value acc d) rest.
Proof.
  revert acc; induction d; intro acc; simpl; auto.
Qed.

Lemma scan_decimal (n : N) (rest : string) :
  stops rest -> scan 10 0 (decimal n ++ rest) = n.
Proof.
  intro H. unfold decimal, NilZero.string_of_uint.
  assert (E : scan 10 0 (NilEmpty.string_of_uint (N.to_uint n) ++ rest) = n).
  { rewrite scan_uint, scan_stops by assumption.
    rewrite uint_value_of_uint. apply DecimalN.Unsigned.of_to. }
  assert (Hn : N.to_uint n <> Decimal.Nil).
  { destruct n; simpl; [discriminate|apply DecimalPos.Unsigned.to_uint_nonnil]. }
  destruct (N.to_uint n); solve [auto | now elim Hn].
Qed.

Lemma ends_number_stops s : ends_number s -> stops s.
Proof. destruct s as [|c r]; simpl; auto. intros [->|[->| ->]]; reflexivity. Qed.

Lemma strip_radix_uint (d : Decimal.uint) (rest : string) :
  ends_number rest ->
  strip_radix (NilEmpty.string_of_uint d ++ rest)
  = (10%N, (NilEmpty.string_of_uint d ++ rest)%string).
Proof.
  intro H. destruct d as [|l|l|l|l|l|l|l|l|l|l]; try reflexivity.
  - destruct rest as [|c r]; [reflexivity|].
    destruct H as [->|[->| ->]]; reflexivity.
  - destruct l; try reflexivity.
    destruct rest as [|c r]; [reflexivity|].
    destruct H as [->|[->| ->]]; reflexivity.
Qed.

Lemma parseInt_uint (neg : bool) (d : Decimal.uint) (rest : string) :
  d <> Decimal.Nil -> ends_number rest ->
  parseInt ((if neg then "-" else "") ++ NilEmpty.string_of_uint d ++ rest)
  = of_Z (if neg then - Z.of_N (uint_value 0 d) else Z.of_N (uint_value 0 d)).
Proof.
  intros Hd H.
  assert (Hs : stops rest) by now apply ends_number_stops.
  assert (E : scan 10 0 (NilEmpty.string_of_uint d ++ rest) = uint_value 0 d).
  { now rewrite scan_uint, scan_stops. }
  pose proof (strip_radix_uint d rest H) as R.
  unfold parseInt.
  destruct d as [|l|l|l|l|l|l|l|l|l|l]; [now elim Hd| ..]; destruct neg.
  all: match goal with
       | R : strip_radix ?body = _ |- context [strip_sign (skip_space ?s)] =>
           first [ change (strip_sign (skip_space s)) with (true, body)
                 | change (strip_sign (skip_space s)) with (false, body) ]
       end; cbv beta iota; rewrite R, E; reflexivity.
Qed.

Lemma append_assoc (a b c : string) : ((a ++ b) ++ c = a ++ (b ++ c))%string.
Proof. induction a; simpl; congruence. Qed.

(** [parseInt] reads the leading decimal numeral of a string and stops
    at a point, at an exponent and at a unit. *)
Lemma parseInt_decimal (neg : bool) (n : N) (rest : string) :
  ends_number rest ->
  parseInt ((if neg then "-" else "") ++ decimal n ++ rest)
  = of_Z (if neg then - Z.of_N n else Z.of_N n).
Proof.
  intro Ht. unfold decimal, NilZero.string_of_uint.
  assert (Hn : N.to_uint n <> Decimal.Nil).
  { destruct n; simpl; [discriminate|apply DecimalPos.Unsigned.to_uint_nonnil]. }
  destruct (N.to_uint n) as [|l|l|l|l|l|l|l|l|l|l] eqn:Eu; [now elim Hn|..];
    rewrite (parseInt_uint neg _ _ Hn Ht), uint_value_of_uint, <- Eu,
      DecimalN.Unsigned.of_to; reflexivity.
Qed.

Lemma parseInt_plain_digits (neg : bool) (v : Q) (rest : string) :
  ends_number rest ->
  parseInt ((if neg then "-" else "") ++ plain_digits v ++ rest)
  = of_Z (if neg then - Z.of_N (Z.to_N (Qnum v) / Npos (Qden v))
          else Z.of_N (Z.to_N (Qnum v) / Npos (Qden v))).
Proof.
  intro Ht. unfold plain_digits.
  set (a := Z.to_N (Qnum v)). set (d := Npos (Qden v)).
  set (frac := fraction 40 (a mod d) d).
  set (tail := match frac with EmptyString => ""%string | _ => String "." frac end).
  rewrite append_assoc. apply parseInt_decimal.
  unfold tail. destruct frac; simpl; auto.
Qed.

(** Whatever number an element shows as a length, [parseInt] reads a
    whole number from it. *)
Lemma parseInt_toString_integer (q : Q) :
  is_integer (parseInt (toString (Fin q) ++ "px")).
Proof.
  unfold toString. cbv zeta.
  destruct (Qeq_bool (Qabs (double q)) 0).
  - exists 0%Z. vm_compute. reflexivity.
  - set (v := match shortest 17 (Qabs (double q)) (decade (Qabs (double q))) 1 with
              | Some v => v
              | None => Qabs (double q)
              end).
    set (neg := (Qnum (double q) <? 0)%Z).
    rewrite append_assoc.
    destruct (Qle_bool (pow10 (-6)) v && negb (Qle_bool (pow10 21) v)).
    + rewrite parseInt_plain_digits by (simpl; auto). eexists; reflexivity.
    + unfold exponent_digits. cbv zeta. rewrite append_assoc.
      rewrite parseInt_plain_digits by (cbn [append ends_number]; auto). eexists; reflexivity.
Qed.

Lemma trunc_sign (q : Q) :
  trunc q = if (Qnum q <? 0)%Z
            then (- Z.of_N (Z.to_N (Z.abs (Qnum q)) / Npos (Qden q)))%Z
            else Z.of_N (Z.to_N (Z.abs (Qnum q)) / Npos (Qden q)).
Proof.
  unfold trunc. destruct q as [n d]; simpl.
  rewrite N2Z.inj_div, Z2N.id by lia. simpl Z.of_N.
  destruct (Z.ltb_spec n 0).
  - rewrite Z.abs_neq by lia.
    rewrite <- Z.quot_div_nonneg by lia.
    rewrite Z.quot_opp_l by lia. lia.
  - rewrite Z.abs_eq by lia. apply Z.quot_div_nonneg; lia.
Qed.

Lemma trunc_inject_Z (z : Z) : trunc (inject_Z z) = z.
Proof. unfold trunc; simpl. apply Z.quot_1_r. Qed.

Lemma inject_Z_inj (a b : Z) : inject_Z a = inject_Z b -> a = b.
Proof. now intros [= ->]. Qed.


(** ** The digits [toString] chooses *)

Section Digits.
Local Open Scope Q_scope.

Lemma pow10_pos (k : Z) : 0 < pow10 k.
Proof. apply Qpower_0_lt. reflexivity. Qed.

Lemma pow10_add (a b : Z) : pow10 (a + b) == pow10 a * pow10 b.
Proof. apply Qpower_plus. discriminate. Qed.

Lemma pow10_Z (k : Z) : (0 <= k)%Z -> pow10 k == inject_Z (10 ^ k).
Proof. intro H. unfold pow10. now rewrite Zpower_Qpower. Qed.

Lemma pow10_le (a b : Z) : (a <= b)%Z -> pow10 a <= pow10 b.
Proof. intro H. apply Qpower_le_compat_l; [exact H|discriminate]. Qed.

Lemma floor_unique (t : Q) (z : Z) :
  inject_Z z <= t -> t < inject_Z z + 1 -> Qfloor t = z.
Proof.
  intros L U. pose proof (floor_bounds t) as [A B].
  assert (C : (z < Qfloor t + 1)%Z).
  { rewrite Zlt_Qlt, inject_Z_plus. change (inject_Z 1) with 1. lra. }
  assert (D : (Qfloor t < z + 1)%Z).
  { rewrite Zlt_Qlt, inject_Z_plus. change (inject_Z 1) with 1. lra. }
  lia.
Qed.

Lemma floor_nonneg (t : Q) : 0 <= t -> (0 <= Qfloor t)%Z.
Proof.
  intro H. change 0%Z with (Qfloor 0). now apply Qfloor_resp_le.
Qed.

(** The decade loops: [10^(n-1) <= a] for the [n] they return. *)
Lemma decade_up_low (a : Q) (fuel : nat) (n : Z) :
  pow10 (n - 1) <= a ->
  pow10 (decade_up fuel a n - 1) <= a /\ (n <= decade_up fuel a n)%Z.
Proof.
  revert n. induction fuel as [|fuel IH]; intros n H; cbn [decade_up].
  - split; [exact H|lia].
  - destruct (Qle_bool (pow10 n) a) eqn:T.
    + apply Qle_bool_iff in T.
      destruct (IH (n + 1)%Z) as [A B].
      { replace (n + 1 - 1)%Z with n by lia. exact T. }
      split; [exact A|lia].
    + split; [exact H|lia].
Qed.

Lemma decade_down_low (a : Q) (fuel : nat) (n m : Z) :
  (m <= n)%Z -> pow10 (m - 1) <= a -> (n - m < Z.of_nat fuel)%Z ->
  pow10 (decade_down fuel a n - 1) <= a /\ (m <= decade_down fuel a n)%Z.
Proof.
  revert n. induction fuel as [|fuel IH]; intros n Hm H F; cbn [decade_down].
  - simpl in F. lia.
  - destruct (Qle_bool (pow10 (n - 1)) a) eqn:T.
    + apply Qle_bool_iff in T. split; [exact T|exact Hm].
    + assert (Hn : m <> n).
      { intros ->. apply Qle_bool_iff in H. congruence. }
      apply IH; [lia|exact H|lia].
Qed.

Lemma pow10_m6 : pow10 (-6) == 1 # 1000000.
Proof. reflexivity. Qed.

Lemma decade_low (a : Q) :
  pow10 (-6) <= a ->
  pow10 (decade a - 1) <= a /\ (-5 <= decade a)%Z.
Proof.
  intro H. unfold decade. destruct (Qle_bool 1 a) eqn:T.
  - apply Qle_bool_iff in T.
    destruct (decade_up_low a 400 1) as [A B]; [exact T|].
    split; [exact A|lia].
  - apply (decade_down_low a 400 0 (-5)); [lia|exact H|reflexivity].
Qed.

Lemma decade_ge_one (a : Q) : 1 <= a -> (1 <= decade a)%Z.
Proof.
  intro H. unfold decade. apply Qle_bool_iff in H. rewrite H.
  apply decade_up_low. apply Qle_bool_iff in H. exact H.
Qed.

(** What a candidate is: one of the two multiples of [10^(n-k)] next to
    [a], and it reads back as [a]. *)
Lemma candidate_some (a : Q) (n k : Z) (v : Q) :
  candidate a n k = Some v ->
  double v == a /\
  (v = inject_Z (Qfloor (a / pow10 (n - k))) * pow10 (n - k) \/
   v = inject_Z (Qfloor (a / pow10 (n - k)) + 1) * pow10 (n - k)).
Proof.
  unfold candidate. cbv zeta.
  set (lo := inject_Z (Qfloor (a / pow10 (n - k))) * pow10 (n - k)).
  set (hi := inject_Z (Qfloor (a / pow10 (n - k)) + 1) * pow10 (n - k)).
  destruct (Qeq_bool (double lo) a) eqn:L, (Qeq_bool (double hi) a) eqn:H;
    try discriminate; try apply Qeq_bool_iff in L; try apply Qeq_bool_iff in H.
  - unfold nearer. intros [= <-].
    destruct (a - lo ?= hi - a); [destruct (Z.even _)|..]; auto.
  - intros [= <-]. auto.
  - intros [= <-]. auto.
Qed.

Lemma shortest_first (fuel : nat) (a : Q) (n k : Z) (v : Q) :
  shortest fuel a n k = Some v ->
  exists k', (k <= k')%Z /\ candidate a n k' = Some v /\
             forall j, (k <= j < k')%Z -> candidate a n j = None.
Proof.
  revert k. induction fuel as [|fuel IH]; intros k; cbn [shortest]; [discriminate|].
  destruct (candidate a n k) as [w|] eqn:C.
  - intros [= <-]. exists k. split; [lia|]. split; [exact C|]. intros j Hj. lia.
  - intro H. destruct (IH _ H) as (k' & A & B & D).
    exists k'. split; [lia|]. split; [exact B|].
    intros j Hj. destruct (Z.eq_dec j k) as [->|Hne]; [exact C|apply D; lia].
Qed.

(** Candidates are not below the decade of [a]. *)
Lemma candidate_low (a : Q) (n k : Z) :
  pow10 (n - 1) <= a -> (1 <= k)%Z ->
  pow10 (n - 1) <= inject_Z (Qfloor (a / pow10 (n - k))) * pow10 (n - k).
Proof.
  intros H Hk. pose proof (pow10_pos (n - k)) as P.
  assert (E : pow10 (n - 1) == inject_Z (10 ^ (k - 1)) * pow10 (n - k)).
  { rewrite <- pow10_Z by lia. rewrite <- pow10_add.
    replace (k - 1 + (n - k))%Z with (n - 1)%Z by lia. reflexivity. }
  assert (F : (10 ^ (k - 1) <= Qfloor (a / pow10 (n - k)))%Z).
  { rewrite <- (Qfloor_Z (10 ^ (k - 1))). apply Qfloor_resp_le.
    apply Qle_shift_div_l; [exact P|]. rewrite <- E. exact H. }
  rewrite E. apply Qmult_le_compat_r; [|lra].
  now rewrite <- Zle_Qle.
Qed.

Lemma candidate_unit (a : Q) (n N : Z) :
  a == inject_Z N -> (0 <= N <= 2 ^ 53)%Z -> candidate a n n <> None.
Proof.
  intros E HN. unfold candidate. cbv zeta.
  replace (n - n)%Z with 0%Z by lia. change (pow10 0) with 1.
  assert (F : Qfloor (a / 1) = N).
  { rewrite <- (Qfloor_Z N). apply Qfloor_comp. rewrite E. field. }
  rewrite F.
  assert (D : double (inject_Z N * 1) == a).
  { rewrite E. apply double_int; [ring|lia]. }
  apply Qeq_bool_iff in D. rewrite D.
  destruct (Qeq_bool (double (inject_Z (N + 1) * 1)) a); discriminate.
Qed.

Lemma floor_as_N (v : Q) :
  0 <= v -> Z.of_N (Z.to_N (Qnum v) / Npos (Qden v)) = Qfloor v.
Proof.
  intro H. destruct v as [n d]. unfold Qle in H. simpl in H.
  unfold Qfloor. cbn [Qnum Qden].
  rewrite N2Z.inj_div, Z2N.id by lia. reflexivity.
Qed.

(** The decimal chosen for a double [a] with [1e-6 <= a < 2^53] is
    printed in positional notation and has the integer part of [a]. *)
Lemma chosen_digits (a : Q) :
  pow10 (-6) <= a -> a < inject_Z (2 ^ 53) ->
  let v := match shortest 17 a (decade a) 1 with
           | Some v => v
           | None => a
           end in
  pow10 (-6) <= v /\ v < pow10 21 /\ Qfloor v = Qfloor a.
Proof.
  intros L U. cbv zeta.
  assert (B21 : inject_Z (2 ^ 53) < pow10 21).
  { rewrite pow10_Z by lia. rewrite <- Zlt_Qlt. reflexivity. }
  pose proof (pow10_pos (-6)) as P6.
  destruct (shortest 17 a (decade a) 1) as [v|] eqn:S.
  2:{ split; [exact L|]. split; [lra|reflexivity]. }
  destruct (shortest_first _ _ _ _ _ S) as (k & Hk & C & First).
  destruct (candidate_some _ _ _ _ C) as [R V].
  pose proof (floor_bounds a) as [A B].
  assert (N0 : (0 <= Qfloor a)%Z) by (apply floor_nonneg; lra).
  assert (N1 : (Qfloor a + 1 <= 2 ^ 53)%Z).
  { assert (T : (Qfloor a < 2 ^ 53)%Z) by (rewrite Zlt_Qlt; lra). lia. }
  destruct (decade_low a L) as [DL D5].
  pose proof (candidate_low a (decade a) k DL Hk) as CL.
  pose proof (pow10_le (-6) (decade a - 1) ltac:(lia)) as P.
  pose proof (pow10_pos (decade a - k)) as PS.
  set (n := decade a) in *. set (N := Qfloor a) in *.
  assert (VL : pow10 (-6) <= v).
  { destruct V as [->| ->]; [lra|].
    rewrite inject_Z_plus. change (inject_Z 1) with 1. nra. }
  destruct (Qle_lt_or_eq _ _ A) as [Lt|Eq].
  - pose proof (double_near_int v N ltac:(lia)) as D1.
    pose proof (double_near_int v (N + 1) ltac:(lia)) as D2.
    rewrite R in D1, D2. rewrite inject_Z_plus in D2.
    change (inject_Z 1) with 1 in D2.
    assert (V1 : inject_Z N < v) by nra.
    assert (V2 : v < inject_Z N + 1) by nra.
    split; [exact VL|]. split.
    + assert (T : inject_Z N + 1 <= inject_Z (2 ^ 53)).
      { change 1 with (inject_Z 1). rewrite <- inject_Z_plus, <- Zle_Qle. exact N1. }
      lra.
    + apply floor_unique; lra.
  - assert (N2 : (1 <= N)%Z).
    { assert (T : (0 < N)%Z) by (rewrite Zlt_Qlt; change (inject_Z 0) with 0; lra). lia. }
    assert (A1 : 1 <= a).
    { rewrite <- Eq. change 1 with (inject_Z 1). now rewrite <- Zle_Qle. }
    pose proof (decade_ge_one a A1) as Dn. fold n in Dn.
    assert (Kn : (k <= n)%Z).
    { destruct (Z_le_gt_dec k n) as [T|T]; [exact T|].
      exfalso. apply (candidate_unit a n N (Qeq_sym _ _ Eq) ltac:(lia)).
      apply First. lia. }
    assert (I : exists z, (0 <= z)%Z /\ v == inject_Z z).
    { assert (F0 : (0 <= Qfloor (a / pow10 (n - k)))%Z).
      { apply floor_nonneg. apply Qle_shift_div_l; [exact PS|]. lra. }
      destruct V as [->| ->].
      - exists (Qfloor (a / pow10 (n - k)) * 10 ^ (n - k))%Z.
        split; [apply Z.mul_nonneg_nonneg; [exact F0|apply Z.pow_nonneg; lia]|].
        rewrite inject_Z_mult.
        apply Qmult_comp; [reflexivity|apply pow10_Z; lia].
      - exists ((Qfloor (a / pow10 (n - k)) + 1) * 10 ^ (n - k))%Z.
        split; [apply Z.mul_nonneg_nonneg; [lia|apply Z.pow_nonneg; lia]|].
        rewrite inject_Z_mult.
        apply Qmult_comp; [reflexivity|apply pow10_Z; lia]. }
    destruct I as (z & Z0 & Vz).
    assert (Va : v == a).
    { destruct (Z_le_gt_dec z (2 ^ 53)) as [T|T].
      - rewrite <- R. symmetry. rewrite Vz at 2. apply double_int; [exact Vz|lia].
      - exfalso.
        pose proof (double_near_int v (2 ^ 53) ltac:(lia)) as D.
        rewrite R in D.
        assert (T2 : inject_Z (2 ^ 53) < v).
        { rewrite Vz. rewrite <- Zlt_Qlt. lia. }
        nra. }
    split; [exact VL|]. split; [lra|].
    now apply Qfloor_comp.
Qed.

Lemma trunc_zero (d : Q) : d == 0 -> trunc d = 0%Z.
Proof.
  destruct d as [n den]. unfold Qeq, trunc. cbn [Qnum Qden]. intro H.
  assert (n = 0%Z) by lia. subst n. reflexivity.
Qed.

Lemma Qabs_zero (d : Q) : Qabs d == 0 -> d == 0.
Proof. destruct d as [n den]. unfold Qeq. simpl. lia. Qed.

(** Reading a rendered number back with [parseInt] truncates it. *)
Lemma parseInt_toString_px (q : Q) :
  plain (double q) ->
  parseInt (toString (Fin q) ++ "px") = of_Z (trunc (double q)).
Proof.
  intro H. unfold toString. cbv zeta.
  set (d := double q) in *.
  destruct (Qeq_bool (Qabs d) 0) eqn:Z.
  - apply Qeq_bool_iff in Z.
    assert (D0 : d == 0) by now apply Qabs_zero.
    rewrite (trunc_zero d D0). vm_compute. reflexivity.
  - destruct H as [H|[L U]].
    { apply Qeq_bool_neq in Z. elim Z. rewrite H. reflexivity. }
    rewrite <- pow10_m6 in L.
    destruct (chosen_digits (Qabs d) L U) as (VL & VU & VF).
    set (v := match shortest 17 (Qabs d) (decade (Qabs d)) 1 with
              | Some v => v
              | None => Qabs d
              end) in *.
    apply Qle_bool_iff in VL. rewrite VL.
    assert (VU' : Qle_bool (pow10 21) v = false).
    { destruct (Qle_bool (pow10 21) v) eqn:T; [|reflexivity].
      apply Qle_bool_iff in T. lra. }
    rewrite VU'. cbn [andb negb].
    rewrite append_assoc, parseInt_plain_digits by (simpl; auto).
    rewrite floor_as_N.
    2:{ apply Qle_bool_iff in VL. pose proof (pow10_pos (-6)). lra. }
    rewrite VF, trunc_sign.
    rewrite <- (floor_as_N (Qabs d)) by apply Qabs_nonneg.
    clearbody d. destruct d as [n den]. reflexivity.
Qed.

(** The same for a number that is a double already. *)
Lemma parseInt_toString_double (q : Q) :
  double q = q -> plain q ->
  parseInt (toString (Fin q) ++ "px") = of_Z (trunc q).
Proof.
  intros D H. rewrite <- D at 2. apply parseInt_toString_px. now rewrite D.
Qed.

Lemma parseInt_toString_minus (p q : Q) :
  plain (minus p q) ->
  parseInt (toString (Fin (minus p q)) ++ "px") = of_Z (trunc (minus p q)).
Proof.
  intro H. apply parseInt_toString_double; [apply double_idem|exact H].
Qed.

End Digits.

End JsFacts.

(* ================================================================== *)
(** * Facts about arrays *)
(* ================================================================== *)

Module ArraysFacts.
Import Arrays.

(** Case analysis on whatever the goal branches on. *)
Ltac break_match :=
  repeat match goal with
         | |- context [match ?t with _ => _ end] => destruct t eqn:?
         | |- context [if ?t then _ else _] => destruct t eqn:?
         end.

(** ** Lists *)

Lemma find_split {A : Type} (p : A -> bool) (l : list A) (a : A) :
  find p l = Some a ->
  exists pre post, l = (pre ++ a :: post)%list /\ p a = true /\
                   forallb (fun b => negb (p b)) pre = true.
Proof.
  induction l as [|b r IH]; simpl; [discriminate|].
  destruct (p b) eqn:E.
  - intros [= ->]. now exists [], r.
  - intro H. destruct (IH H) as (pre & post & -> & Hp & Hpre).
    exists (b :: pre), post. simpl. now rewrite E.
Qed.

Lemma update_first_split {A : Type} (p : A -> bool) (f : A -> A) (pre post : list A) (a : A) :
  p a = true -> forallb (fun b => negb (p b)) pre = true ->
  update_first p f (pre ++ a :: post) = (pre ++ f a :: post)%list.
Proof.
  intros Ha. induction pre as [|b r IH]; simpl.
  - now rewrite Ha.
  - intro H. apply andb_prop in H as [Hb Hr].
    destruct (p b); [discriminate|]. now rewrite IH.
Qed.

Lemma update_first_none {A : Type} (p : A -> bool) (f : A -> A) (l : list A) :
  find p l = None -> update_first p f l = l.
Proof.
  induction l as [|b r IH]; simpl; auto.
  destruct (p b); [discriminate|]. intro H. now rewrite IH.
Qed.

Lemma find_update_first {A : Type} (p : A -> bool) (f : A -> A) (l : list A) (a : A) :
  find p l = Some a -> p (f a) = true -> find p (update_first p f l) = Some (f a).
Proof.
  induction l as [|b r IH]; simpl; [discriminate|].
  destruct (p b) eqn:E.
  - intros [= ->] H. simpl. now rewrite H.
  - intros H1 H2. simpl. rewrite E. now apply IH.
Qed.

Lemma map_update_first {A B : Type} (g : A -> B) (p : A -> bool) (f : A -> A) (l : list A) :
  (forall a, g (f a) = g a) -> map g (update_first p f l) = map g l.
Proof.
  intro H. induction l as [|b r IH]; simpl; auto.
  destruct (p b); simpl; now rewrite ?H, ?IH.
Qed.

Lemma remove_first_incl {A : Type} (p : A -> bool) (l : list A) (a : A) :
  In a (remove_first p l) -> In a l.
Proof.
  induction l as [|b r IH]; simpl; auto.
  destruct (p b); simpl; intuition.
Qed.

Lemma map_remove_first_incl {A B : Type} (g : A -> B) (p : A -> bool) (l : list A) (b : B) :
  In b (map g (remove_first p l)) -> In b (map g l).
Proof.
  rewrite !in_map_iff. intros (a & <- & H). exists a. split; auto.
  now apply remove_first_incl in H.
Qed.

Lemma NoDup_map_remove_first {A B : Type} (g : A -> B) (p : A -> bool) (l : list A) :
  NoDup (map g l) -> NoDup (map g (remove_first p l)).
Proof.
  induction l as [|b r IH]; simpl; auto.
  intro H. inversion H as [|? ? Hn Hr]; subst.
  destruct (p b); simpl; auto.
  constructor; auto. intro Hin. apply Hn. now apply map_remove_first_incl in Hin.
Qed.

Lemma remove_first_split {A : Type} (p : A -> bool) (pre post : list A) (a : A) :
  p a = true -> forallb (fun b => negb (p b)) pre = true ->
  remove_first p (pre ++ a :: post) = (pre ++ post)%list.
Proof.
  intros Ha. induction pre as [|b r IH]; simpl.
  - now rewrite Ha.
  - intro H. apply andb_prop in H as [Hb Hr].
    destruct (p b); [discriminate|]. now rewrite IH.
Qed.

Lemma find_skip {A : Type} (p : A -> bool) (pre l : list A) :
  forallb (fun b => negb (p b)) pre = true -> find p (pre ++ l) = find p l.
Proof.
  induction pre as [|b r IH]; simpl; auto.
  intro H. apply andb_prop in H as [Hb Hr].
  destruct (p b); [discriminate|auto].
Qed.

Lemma update_first_same {A : Type} (p : A -> bool) (f : A -> A) (l : list A) (a : A) :
  find p l = Some a -> f a = a -> update_first p f l = l.
Proof.
  induction l as [|b r IH]; simpl; [discriminate|].
  destruct (p b).
  - intros [= ->] ->. reflexivity.
  - intros H1 H2. now rewrite IH.
Qed.

Lemma find_update_first_other {A : Type} (p q : A -> bool) (g : A -> A) (l : list A) :
  (forall a, q a = true -> p a = false) ->
  (forall a, p (g a) = p a) ->
  find p (update_first q g l) = find p l.
Proof.
  intros Hq Hg. induction l as [|b r IH]; simpl; auto.
  destruct (q b) eqn:Q; simpl.
  - now rewrite Hg, (Hq b Q).
  - now rewrite IH.
Qed.

Lemma forallb_app_true {A : Type} (p : A -> bool) (l1 l2 : list A) :
  forallb p l1 = true -> forallb p l2 = true -> forallb p (l1 ++ l2) = true.
Proof. intros H1 H2. rewrite forallb_app. now rewrite H1, H2. Qed.

End ArraysFacts.

(* ================================================================== *)
(** * Facts about the layered variant *)
(* ================================================================== *)

Module LayeredFacts.
Import Js JsFacts Arrays ArraysFacts Layered.

Local Open Scope string_scope.

Section Platform.

Variable JSON_stringify : json -> string.
Variable JSON_parse : string -> option json.

Local Abbreviation step := (step JSON_stringify).
Local Abbreviation run := (run JSON_stringify).
Local Abbreviation allocations := (allocations JSON_stringify).
Local Abbreviation stopDrag := (stopDrag JSON_stringify).
Local Abbreviation removeCard := (removeCard JSON_stringify).
Local Abbreviation showAddCardDialog := (showAddCardDialog JSON_stringify).
Local Abbreviation handleWindowResize := (handleWindowResize JSON_stringify).
Local Abbreviation saveToStorage := (saveToStorage JSON_stringify).
Local Abbreviation loadFromStorage := (loadFromStorage JSON_parse).
Local Abbreviation initializeApp := (initializeApp JSON_parse).
Local Abbreviation accept := (accept JSON_parse).

(** ** The counter *)

Lemma bringCardToFront_counter (cardId : string) (s : state) :
  maxZIndex (config (bringCardToFront cardId s)) = maxZIndex (config s) \/
  maxZIndex (config (bringCardToFront cardId s)) = (maxZIndex (config s) + 1)%Z.
Proof.
  unfold bringCardToFront. destruct (find _ _); simpl; auto.
Qed.

Lemma step_counter (s : state) (ev : event) :
  maxZIndex (config (step s ev)) = maxZIndex (config s) \/
  maxZIndex (config (step s ev)) = (maxZIndex (config s) + 1)%Z.
Proof.
  destruct ev as [e|cx cy|now|cardId now|d|w h now|n]; simpl.
  - unfold startDrag. break_match; auto. apply bringCardToFront_counter.
  - unfold handleDrag. break_match; auto.
  - unfold Layered.stopDrag. break_match; auto.
  - auto.
  - unfold Layered.showAddCardDialog. break_match; auto.
  - auto.
  - unfold removal_timer. break_match; auto.
Qed.

Lemma allocations_above (evs : list event) (s : state) :
  Forall (fun z => maxZIndex (config s) < z)%Z (allocations s evs) /\
  StronglySorted Z.lt (allocations s evs).
Proof.
  revert s. induction evs as [|ev r IH]; intro s; simpl.
  - split; constructor.
  - destruct (IH (step s ev)) as [Ha Hs].
    pose proof (step_counter s ev) as Hc.
    assert (Ha' : Forall (fun z => maxZIndex (config s) < z)%Z (allocations (step s ev) r)).
    { eapply Forall_impl; [|exact Ha]. simpl. intros; lia. }
    unfold allocated. destruct (Z.eqb_spec (maxZIndex (config (step s ev))) (maxZIndex (config s))) as [E|E];
      simpl; [now split|].
    split; constructor; auto; lia.
Qed.

(** ** Layers *)

Lemma bringCardToFront_found (s : state) (cardId : string)
      (pre post : list card) (c : card) :
  cards (config s) = (pre ++ c :: post)%list ->
  has_id cardId c = true ->
  forallb (fun b => negb (has_id cardId b)) pre = true ->
  cards (config (bringCardToFront cardId s))
  = (pre ++ set_zIndex (maxZIndex (config s) + 1) c :: post)%list /\
  maxZIndex (config (bringCardToFront cardId s)) = (maxZIndex (config s) + 1)%Z.
Proof.
  intros E Hc Hpre. unfold bringCardToFront.
  assert (F : find (has_id cardId) (cards (config s)) = Some c).
  { rewrite E. clear E. induction pre as [|b r IH]; simpl in *.
    - now rewrite Hc.
    - apply andb_prop in Hpre as [Hb Hr]. destruct (has_id cardId b); [discriminate|auto]. }
  rewrite F. simpl. rewrite E. split; auto. now apply update_first_split.
Qed.

(** C4: the layers handed out along any run of events grow strictly and
    lie above the counter the run started from; bringing a card to the
    front gives it the counter plus one and leaves every other card as it
    was; on a page with one card on layer 1, a new card gets layer 2 and
    bringing the first card to the front then gives it layer 3 while the
    new card stays on layer 2. *)
Theorem layers_grow_and_front_takes_next
        (s : state) (evs : list event) (cardId : string)
        (pre post : list card) (c : card) (d : dialog) :
  cards (config s) = (pre ++ c :: post)%list ->
  has_id cardId c = true ->
  forallb (fun b => negb (has_id cardId b)) pre = true ->
  declined (title_answer d) = false ->
  declined (content_answer d) = false ->
  (StronglySorted Z.lt (allocations s evs) /\
   Forall (fun z => maxZIndex (config s) < z)%Z (allocations s evs)) /\
  (cards (config (bringCardToFront cardId s))
   = (pre ++ set_zIndex (maxZIndex (config s) + 1) c :: post)%list /\
   maxZIndex (config (bringCardToFront cardId s)) = (maxZIndex (config s) + 1)%Z) /\
  (map zIndex (cards (config (showAddCardDialog d s)))
   = (map zIndex (cards (config s)) ++ [maxZIndex (config s) + 1])%list%Z) /\
  (let s1 := showAddCardDialog d single_card_page in
   let s2 := bringCardToFront "card-1" s1 in
   map zIndex (cards (config s1)) = [1; 2]%Z /\
   map zIndex (cards (config s2)) = [3; 2]%Z).
Proof.
  intros E Hc Hpre Ht Hb. split; [|split; [|split]].
  - split; apply allocations_above.
  - now apply bringCardToFront_found.
  - unfold Layered.showAddCardDialog. rewrite Ht, Hb. simpl.
    now rewrite map_app.
  - unfold Layered.showAddCardDialog. rewrite Ht, Hb. split; reflexivity.
Qed.

(** ** Ids *)

Lemma ids_update_first (p : card -> bool) (f : card -> card) (l : list card) :
  (forall c, id (f c) = id c) -> map id (update_first p f l) = map id l.
Proof. apply map_update_first. Qed.

Lemma bringCardToFront_ids (cardId : string) (s : state) :
  ids (bringCardToFront cardId s) = ids s.
Proof.
  unfold bringCardToFront, ids. break_match; auto. simpl.
  now apply ids_update_first.
Qed.

(** ** Loading *)

Local Abbreviation well_shaped := (well_shaped JSON_parse).

Lemma accept_shape (saved : option string) (a : adopted) :
  accept saved = Some a -> well_shaped saved.
Proof.
  unfold Layered.accept. destruct saved as [blob|]; [|discriminate].
  destruct (String.eqb_spec blob "") as [|Hne]; [discriminate|].
  destruct (JSON_parse blob) as [data|] eqn:P; [|discriminate].
  destruct data as [|b|q|t|items|fields]; try discriminate.
  destruct (property "cards" (JObj fields)) as [[|b|q|t|items|fs]|] eqn:C;
    try discriminate.
  intros _. now exists blob, fields, items.
Qed.

Lemma shape_accept (saved : option string) :
  well_shaped saved -> exists a, accept saved = Some a.
Proof.
  intros (blob & fields & items & -> & Hne & P & C).
  unfold Layered.accept. apply String.eqb_neq in Hne. rewrite Hne, P, C. eauto.
Qed.

Lemma createAllCards_config (s : state) : config (createAllCards s) = config s.
Proof.
  unfold createAllCards. generalize (cards (config s)) as l. intro l.
  revert s. induction l as [|c r IH]; intro s; simpl; auto.
  now rewrite IH.
Qed.

(** C7: a saved text is let through only when it decodes to an object
    with an array under [cards]; for every other text, and when nothing
    was saved, loading touches nothing, whatever the state, and start-up
    goes on with the four default cards, which it renders. *)
Theorem malformed_blob_leaves_defaults (s : state) (saved : option string) :
  ~ well_shaped saved ->
  accept saved = None /\
  (storage s = saved -> loadFromStorage s = Absent s) /\
  loadFromStorage (page saved) = Absent (page saved) /\
  initializeApp (page saved) = Absent (createAllCards (page saved)) /\
  config (createAllCards (page saved)) = default_config /\
  map elem_id (elements (createAllCards (page saved)))
  = ["card-1"; "card-2"; "card-3"; "card-4"].
Proof.
  intro H.
  assert (A : accept saved = None).
  { destruct (accept saved) as [a|] eqn:E; auto.
    elim H. eapply accept_shape; eauto. }
  assert (L : forall s0, storage s0 = saved -> loadFromStorage s0 = Absent s0).
  { intros s0 E. unfold Layered.loadFromStorage. now rewrite E, A. }
  split; [exact A|]. split; [apply L|]. split; [now apply L|].
  split; [|split; reflexivity].
  unfold Layered.initializeApp. rewrite L by reflexivity. reflexivity.
Qed.

(** C8: when the array under [cards] holds card records and the saved
    counter is missing or zero, the store takes these cards and the
    counter 4, whatever layers the cards carry; if one of them is above
    layer 4, the card brought to the front next gets layer 5, which is
    not above that card. *)
Theorem missing_counter_becomes_four
        (s : state) (blob : string) (data : json) (items : list json)
        (l : list card) (high hit : card) (cardId : string) :
  storage s = Some blob ->
  blob <> "" ->
  JSON_parse blob = Some data ->
  property "cards" data = Some (JArr items) ->
  cards_of_json items = Some l ->
  (property "maxZIndex" data = None \/
   exists q, property "maxZIndex" data = Some (JNum q) /\ q == 0) ->
  In high l -> (4 < zIndex high)%Z ->
  find (has_id cardId) l = Some hit ->
  exists s',
    loadFromStorage s = Loaded s' /\
    cards (config s') = l /\
    maxZIndex (config s') = 4%Z /\
    maxZIndex (config (bringCardToFront cardId s')) = 5%Z /\
    find (has_id cardId) (cards (config (bringCardToFront cardId s')))
    = Some (set_zIndex 5 hit) /\
    (5 <= zIndex high)%Z.
Proof.
  intros Hs Hb Hp Hc Hl Hz Hin Hhigh Hfind.
  assert (A : accept (Some blob)
              = Some {| saved_cards := items;
                        saved_maxZIndex := property "maxZIndex" data |}).
  { unfold Layered.accept. apply String.eqb_neq in Hb. rewrite Hb, Hp.
    destruct data; try discriminate. now rewrite Hc. }
  assert (Z4 : counter_of (property "maxZIndex" data) = Some 4%Z).
  { destruct Hz as [->|(q & -> & Hq)]; auto.
    simpl. apply Qeq_bool_iff in Hq. now rewrite Hq. }
  eexists. unfold Layered.loadFromStorage. rewrite Hs, A.
  unfold config_of. simpl saved_cards. simpl saved_maxZIndex. rewrite Hl, Z4.
  split; [reflexivity|].
  rewrite createAllCards_config. simpl.
  split; [reflexivity|]. split; [reflexivity|].
  unfold bringCardToFront. rewrite createAllCards_config. simpl.
  rewrite Hfind. simpl. split; [reflexivity|]. split; [|lia].
  apply find_update_first; auto.
  apply find_some in Hfind. apply Hfind.
Qed.

(** ** The drag gesture *)

Lemma find_node_update_first (n : nat) (p : element -> bool)
      (f : element -> element) (l : list element) (e : element) :
  (forall a, node (f a) = node a) ->
  find (is_node n) l = Some e ->
  exists e', find (is_node n) (update_first p f l) = Some e' /\ (e' = e \/ e' = f e).
Proof.
  intros Hf. induction l as [|b r IH]; simpl; [discriminate|].
  destruct (is_node n b) eqn:Hb.
  - intros [= ->]. destruct (p e); simpl.
    + unfold is_node in *. rewrite Hf, Hb. eauto.
    + rewrite Hb. eauto.
  - intro H. destruct (p b); simpl.
    + unfold is_node in *. rewrite Hf, Hb. eauto.
    + rewrite Hb. auto.
Qed.

Lemma startDrag_dragging (e : press) (s : state) (card : element) :
  on_remove_button e = false ->
  find (is_node (currentTarget e)) (elements s) = Some card ->
  dragging_on (node card) (elem_id card)
    {| x := Fin (minus (clientX e) (rect_left e));
       y := Fin (minus (clientY e) (rect_top e)) |}
    (config (bringCardToFront (elem_id card) s))
    (startDrag e s).
Proof.
  intros Hb Hf. unfold startDrag. rewrite Hb, Hf.
  split; [reflexivity|]. split; [reflexivity|]. simpl.
  assert (Hn : node card = currentTarget e).
  { apply find_some in Hf. destruct Hf as [_ Hf]. now apply Nat.eqb_eq in Hf. }
  rewrite Hn.
  unfold bringCardToFront. destruct (find (has_id _) _); simpl; eauto.
  destruct (find_node_update_first (currentTarget e)
              (in_document_with_id (elem_id card))
              (set_style_zIndex (maxZIndex (config s) + 1)) (elements s) card)
    as (e' & He' & [->| ->]); auto; eauto.
Qed.

Lemma handleDrag_dragging (n : nat) (cardId : string) (qx qy : Q) (c : appConfig)
      (cx cy : Q) (s : state) :
  dragging_on n cardId {| x := Fin qx; y := Fin qy |} c s ->
  dragging_on n cardId {| x := Fin qx; y := Fin qy |} c (handleDrag cx cy s) /\
  exists e, find (is_node n) (elements (handleDrag cx cy s)) = Some e /\
            elem_id e = cardId /\ shows e (minus cx qx) (minus cy qy).
Proof.
  intros (Hd & Hc & e & He & Hid). unfold handleDrag. rewrite Hd. simpl.
  assert (F : find (is_node n)
                (update_first (is_node n)
                   (set_left_top (Fin (minus cx qx)) (Fin (minus cy qy))) (elements s))
              = Some (set_left_top (Fin (minus cx qx)) (Fin (minus cy qy)) e)).
  { apply find_update_first; auto.
    apply find_some in He. apply He. }
  split.
  - split; [exact Hd|]. split; [exact Hc|]. eexists; split; [exact F|exact Hid].
  - eexists; split; [exact F|]. split; [exact Hid|]. split; reflexivity.
Qed.

Lemma moves_dragging (n : nat) (cardId : string) (qx qy : Q) (c : appConfig)
      (moves : list (Q * Q)) (s : state) :
  dragging_on n cardId {| x := Fin qx; y := Fin qy |} c s ->
  dragging_on n cardId {| x := Fin qx; y := Fin qy |} c
    (run s (map (fun m => Mousemove (fst m) (snd m)) moves)).
Proof.
  revert s. induction moves as [|m r IH]; intros s H; simpl; auto.
  apply IH. now apply handleDrag_dragging.
Qed.

(** The release stores what [parseInt] reads from the two style strings
    of the dragged element, saves the store and ends the session. *)
Lemma stopDrag_reads (n : nat) (e : element) (now : Z) (s : state) :
  isDragging (drag s) = true ->
  draggedCard (drag s) = Some n ->
  find (is_node n) (elements s) = Some e ->
  let p := {| x := parseInt (left e); y := parseInt (top e) |} in
  let c' := {| cards := update_first (has_id (elem_id e)) (set_position p)
                          (cards (config s));
               maxZIndex := maxZIndex (config s) |} in
  config (stopDrag now s) = c' /\
  drag (stopDrag now s) = idle /\
  storage (stopDrag now s) = Some (JSON_stringify (workspaceData c' now)) /\
  writes (stopDrag now s) = S (writes s).
Proof.
  intros Hd Hn He. unfold Layered.stopDrag. rewrite Hd, Hn, He.
  unfold updateCardPosition. simpl. auto.
Qed.

(** C5, as the code has it: after a press on a card, any moves, a last
    move to [(cx, cy)] and the release, the record found under the card's
    id holds the pointer minus the press offset (both differences
    computed in doubles), each coordinate cut to a whole number toward
    zero, whether or not that lies in the viewport; the record has the
    layer the press gave it and is otherwise what it was.  The drag
    session is over and the store has been saved. *)
Theorem release_stores_position_unclamped
        (s : state) (e : press) (card : element) (c : Layered.card)
        (moves : list (Q * Q)) (cx cy : Q) (now : Z) :
  on_remove_button e = false ->
  find (is_node (currentTarget e)) (elements s) = Some card ->
  find (has_id (elem_id card)) (cards (config s)) = Some c ->
  plain (minus cx (minus (clientX e) (rect_left e))) ->
  plain (minus cy (minus (clientY e) (rect_top e))) ->
  let s' := run s (Mousedown e
                   :: map (fun m => Mousemove (fst m) (snd m)) moves
                   ++ [Mousemove cx cy; Mouseup now]) in
  (exists c', find (has_id (elem_id card)) (cards (config s')) = Some c' /\
              position c'
              = {| x := of_Z (trunc (minus cx (minus (clientX e) (rect_left e))));
                   y := of_Z (trunc (minus cy (minus (clientY e) (rect_top e)))) |} /\
              zIndex c' = (maxZIndex (config s) + 1)%Z /\
              id c' = id c /\ title c' = title c /\ content c' = content c) /\
  drag s' = idle /\
  storage s' = Some (JSON_stringify (workspaceData (config s') now)).
Proof.
  intros Hb Hf Hc Px Py s'. subst s'.
  unfold Layered.run. simpl fold_left. rewrite fold_left_app. simpl fold_left.
  pose proof (startDrag_dragging e s card Hb Hf) as D.
  apply (moves_dragging _ _ _ _ _ moves) in D.
  fold (Layered.run JSON_stringify (startDrag e s)
          (map (fun m => Mousemove (fst m) (snd m)) moves)).
  set (s1 := run (startDrag e s) _) in *.
  destruct (handleDrag_dragging _ _ _ _ _ cx cy s1 D)
    as ((Hd & Hcfg & _) & e2 & He2 & Hid & Hl & Ht).
  destruct (stopDrag_reads (node card) e2 now (handleDrag cx cy s1))
    as (C & Dr & St & _); auto; try (now rewrite Hd).
  cbv zeta in St. rewrite <- C in St.
  rewrite Hl, Ht, !parseInt_toString_minus in C by assumption.
  assert (F : find (has_id (elem_id card))
                 (cards (config (stopDrag now (handleDrag cx cy s1))))
               = Some (set_position
                         {| x := of_Z (trunc (minus cx (minus (clientX e) (rect_left e))));
                            y := of_Z (trunc (minus cy (minus (clientY e) (rect_top e)))) |}
                         (set_zIndex (maxZIndex (config s) + 1) c))).
  { rewrite C. simpl. rewrite Hcfg, Hid.
    unfold bringCardToFront. rewrite Hc. simpl.
    apply find_update_first; auto.
    + apply find_update_first; auto. apply find_some in Hc. apply Hc.
    + apply find_some in Hc. apply Hc. }
  split; [|split]; auto.
  - eexists. split; [exact F|].
    cbn [position zIndex id title content set_position set_zIndex].
    split; [reflexivity|]. split; [reflexivity|]. split; [reflexivity|].
    split; reflexivity.
Qed.

(** ** Resize *)

Lemma keep_in_bounds_upper (w h : Q) (c : card) :
  gt (x (position (keep_in_bounds w h c))) (Fin (w - 300)) = false /\
  gt (y (position (keep_in_bounds w h c))) (Fin (h - 400)) = false.
Proof.
  unfold keep_in_bounds; simpl. split.
  - destruct (gt (x (position c)) (Fin (w - 300))) eqn:E; auto.
    simpl. apply negb_false_iff, Qle_bool_iff, Qle_refl.
  - destruct (gt (y (position c)) (Fin (h - 400))) eqn:E; auto.
    simpl. apply negb_false_iff, Qle_bool_iff, Qle_refl.
Qed.

Lemma resize_layered (w h : Q) (now : Z) (s : state) :
  let c' := {| cards := map (keep_in_bounds w h) (cards (config s));
               maxZIndex := maxZIndex (config s) |} in
  config (handleWindowResize w h now s) = c' /\
  storage (handleWindowResize w h now s) = Some (JSON_stringify (workspaceData c' now)) /\
  writes (handleWindowResize w h now s) = S (writes s).
Proof. simpl. auto. Qed.

End Platform.

(** ** Closed instances *)

Lemma layers_grow_and_front_takes_next_witness :
  map zIndex (cards (config (bringCardToFront "card-2" (page None))))
  = [1; 5; 3; 4]%Z.
Proof.
  destruct (layers_grow_and_front_takes_next no_json (page None)
              [AddClick (some_dialog 7); Mousemove 1 1] "card-2"
              (firstn 1 default_cards) (skipn 2 default_cards)
              (seed_card 1) (some_dialog 7)
              eq_refl eq_refl eq_refl eq_refl eq_refl) as (_ & (H & _) & _).
  exact (f_equal (map zIndex) H).
Defined.

(** Whatever the store holds, two adds that read the same clock value
    leave two cards with the same id in it. *)
Lemma add_twice_repeats_id (JSON_stringify : json -> string) (d : dialog) (s : state) :
  declined (title_answer d) = false ->
  declined (content_answer d) = false ->
  ~ NoDup (ids (showAddCardDialog JSON_stringify d
                  (showAddCardDialog JSON_stringify d s))).
Proof.
  intros Ht Hc. unfold Layered.showAddCardDialog. rewrite Ht, Hc.
  unfold ids. simpl. rewrite !map_app. simpl. rewrite <- app_assoc. simpl.
  intro H. apply NoDup_remove_2 in H. apply H.
  apply in_or_app. right. now left.
Qed.

(** C3: the add takes the id from the clock alone ("Use timestamp for
    unique ID") and never looks at the store; two adds that read the
    same clock value leave two cards with the same id in the store. *)
Lemma same_clock_same_id :
  ~ NoDup (ids (run no_json (page None)
                  [AddClick (some_dialog 7); AddClick (some_dialog 7)])).
Proof.
  vm_compute. intro H.
  repeat match goal with
         | H : NoDup (_ :: _ :: _) |- _ => inversion H; clear H; subst
         end.
  match goal with H : ~ In _ _ |- _ => apply H; now left end.
Qed.

End LayeredFacts.


(* ================================================================== *)
(** * Facts about the grid variant *)
(* ================================================================== *)

Module GridFacts.
Import Js JsFacts Arrays ArraysFacts Grid.

Local Open Scope string_scope.

Local Abbreviation no n := (forallb (fun e => negb (is_node n e))).

Lemma later_nodes_differ (l : list element) (n : nat) :
  ~ In n (map node l) -> no n l = true.
Proof.
  induction l as [|b r IH]; simpl; auto.
  intro H. apply andb_true_intro. split.
  - unfold is_node. destruct (Nat.eqb_spec (node b) n); [elim H; auto|auto].
  - apply IH. intro; apply H; auto.
Qed.

Lemma find_last (n : nat) (rest : list element) (d : element) :
  no n rest = true -> is_node n d = true ->
  find (is_node n) (rest ++ [d]) = Some d.
Proof. intros Hr Hd. rewrite find_skip by exact Hr. simpl. now rewrite Hd. Qed.

Lemma update_last (n : nat) (f : element -> element) (rest : list element) (d : element) :
  no n rest = true -> is_node n d = true ->
  update_first (is_node n) f (rest ++ [d]) = (rest ++ [f d])%list.
Proof. intros Hr Hd. now apply update_first_split. Qed.

Lemma appendChild_at (p : container) (n : nat) (pre post : list element) (a : element) :
  no n pre = true -> is_node n a = true ->
  appendChild p n (pre ++ a :: post) = ((pre ++ post) ++ [set_parent p a])%list.
Proof.
  intros Hp Ha. unfold appendChild.
  rewrite find_skip by exact Hp. simpl. rewrite Ha.
  now rewrite remove_first_split.
Qed.

Lemma appendChild_last (p : container) (n : nat) (rest : list element) (d : element) :
  no n rest = true -> is_node n d = true ->
  appendChild p n (rest ++ [d]) = (rest ++ [set_parent p d])%list.
Proof.
  intros Hr Hd. rewrite appendChild_at by assumption. now rewrite app_nil_r.
Qed.

Lemma startDragging_lifts (e : press) (s : state) (el : element) (k : nat) :
  find (is_node (currentTarget e)) (elements s) = Some el ->
  NoDup (map node (elements s)) ->
  (forall e', In e' (elements s) -> child_of (Cell k) e' = true -> e' = el) ->
  exists rest, lifted (currentTarget e) (elem_id el) k rest s (startDragging e s).
Proof.
  intros Hf Hn Hk. unfold startDragging. rewrite Hf.
  destruct (find_split _ _ _ Hf) as (pre & post & E & Hel & Hpre).
  assert (En : node el = currentTarget e) by now apply Nat.eqb_eq in Hel.
  assert (Hpost : no (currentTarget e) post = true).
  { apply later_nodes_differ. rewrite E, map_app in Hn. simpl in Hn.
    apply NoDup_remove_2 in Hn. rewrite <- En. intro H. apply Hn.
    apply in_or_app. now right. }
  assert (Hrest : no (currentTarget e) (pre ++ post) = true)
    by now apply forallb_app_true.
  assert (Hcell : forallb (fun b => negb (child_of (Cell k) b)) (pre ++ post) = true).
  { apply forallb_forall. intros b Hb.
    destruct (child_of (Cell k) b) eqn:C; auto.
    assert (b = el).
    { apply Hk; auto. rewrite E. apply in_app_or in Hb as [Hb|Hb];
        apply in_or_app; [now left|right; now right]. }
    subst b. rewrite forallb_forall in Hrest. apply Hrest in Hb.
    now rewrite Hel in Hb. }
  exists (pre ++ post)%list. rewrite En.
  unfold lifted, convertCardToFreePosition.
  cbn [drag cardData cells elements with_elements with_drag
       isDragging draggedCard offset].
  rewrite E, (update_first_split _ _ pre post el Hel Hpre).
  rewrite appendChild_at by (auto).
  rewrite update_last by auto. cbn [sub].
  repeat split; eauto.
Qed.

Lemma handleMouseMovement_lifted (n : nat) (cardId : string) (k : nat)
      (rest : list element) (before s : state) (cx cy : Q) :
  lifted n cardId k rest before s ->
  lifted n cardId k rest before (handleMouseMovement cx cy s).
Proof.
  intros (Hd & Hn & Ho & Hc & Hcs & Hr & Hk & d & E & Hnd & Hid & Hp).
  unfold handleMouseMovement. rewrite Hd, Hn.
  unfold lifted. cbn [drag cardData cells elements with_elements].
  rewrite E, update_last by auto.
  repeat split; eauto.
Qed.

Lemma moves_lifted (n : nat) (cardId : string) (k : nat)
      (rest : list element) (before : state) (moves : list (Q * Q)) (s : state) :
  lifted n cardId k rest before s ->
  lifted n cardId k rest before
    (run s (map (fun m => Mousemove (fst m) (snd m)) moves)).
Proof.
  revert s. induction moves as [|m r IH]; intros s H; simpl; auto.
  apply IH. now apply handleMouseMovement_lifted.
Qed.

Lemma set_placement_same (c : card) (g : slot cell_position) :
  position c = g -> freePosition c = null -> set_placement g null c = c.
Proof. destruct c; simpl. now intros -> ->. Qed.

Lemma resting_none (k : nat) (rest : list element) (d : element) :
  forallb (fun e => negb (child_of (Cell k) e)) rest = true ->
  parent d = Body ->
  resting_card k (rest ++ [d]) = None.
Proof.
  intros Hr Hd. unfold resting_card.
  rewrite find_skip.
  - simpl. unfold child_of. now rewrite Hd.
  - rewrite forallb_forall in *. intros e He. apply Hr in He.
    apply negb_true_iff in He. now rewrite He.
Qed.

(** The release of a lifted card over cell [k], which names the grid
    position the card's record holds. *)
Lemma drop_on_own_cell (n : nat) (k : nat) (rest : list element)
      (before s : state) (el : element) (cell : grid_cell) (c : card) (cx cy : Q) :
  lifted n (elem_id el) k rest before s ->
  nth_error (cells before) k = Some cell ->
  findGridCellUnderMouse cx cy s = Some k ->
  find (has_id (elem_id el)) (cardData before) = Some c ->
  position c = object {| row := parseInt_opt (cell_row cell);
                         col := parseInt_opt (cell_col cell) |} ->
  freePosition c = null ->
  resting_card k (elements s) = None /\
  snapCardToGrid n k s = moveCardToGridCell n (Cell k) s /\
  cardData (stopDragging cx cy s) = cardData before /\
  drag (stopDragging cx cy s) = idle /\
  exists d, find (is_node n) (elements (stopDragging cx cy s)) = Some d /\
            parent d = Cell k /\ dragging d = false.
Proof.
  intros (Hd & Hn & Ho & Hc & Hcs & Hr & Hk & d & E & Hnd & Hid & Hp)
         Hcell Hdrop Hfind Hpos Hfree.
  assert (R : resting_card k (elements s) = None).
  { rewrite E. now apply resting_none. }
  assert (S : snapCardToGrid n k s = moveCardToGridCell n (Cell k) s).
  { unfold snapCardToGrid. now rewrite R. }
  split; [exact R|]. split; [exact S|].
  unfold stopDragging. rewrite Hd, Hn, Hdrop, S.
  unfold moveCardToGridCell. rewrite E, find_last by auto.
  rewrite update_last, appendChild_last by auto.
  unfold updateCardDataPosition, cleanupAfterDrag.
  cbn [drag cardData cells elements with_elements with_cardData].
  rewrite Hn, Hc, Hid, Hcs. simpl dataset_row. simpl dataset_col. rewrite Hcell.
  rewrite (update_first_same _ _ _ c Hfind) by (now apply set_placement_same).
  split; [reflexivity|]. split; [reflexivity|].
  rewrite update_last by auto.
  rewrite find_last by auto. eexists; split; [reflexivity|]. split; reflexivity.
Qed.

(** ** The swap *)

Lemma parseInt_undefined : parseInt_opt None = NaN.
Proof. vm_compute. reflexivity. Qed.

Lemma has_id_exclusive (ida idb : string) (c : card) :
  ida <> idb -> has_id ida c = true -> has_id idb c = false.
Proof.
  unfold has_id. intros Hne Ha. apply String.eqb_eq in Ha.
  apply String.eqb_neq. congruence.
Qed.

Lemma nodup_nodes_split (l1 l2 : list element) (a : element) :
  NoDup (map node (l1 ++ a :: l2)) ->
  no (node a) l1 = true /\ no (node a) l2 = true.
Proof.
  intro H. rewrite map_app in H. simpl in H.
  pose proof (NoDup_remove_2 _ _ _ H) as Hn.
  split; apply later_nodes_differ; intro Hin; apply Hn; apply in_or_app; auto.
Qed.

Lemma no_sym (a b : element) : is_node (node a) b = is_node (node b) a.
Proof. unfold is_node. apply Nat.eqb_sym. Qed.

Lemma moveCardToGridCell_at (n : nat) (target : container) (s : state)
      (l1 l2 : list element) (a : element) :
  elements s = (l1 ++ a :: l2)%list ->
  no n l1 = true -> is_node n a = true ->
  let r := dataset_row (cells s) target in
  let c := dataset_col (cells s) target in
  let s' := moveCardToGridCell n target s in
  elements s' = ((l1 ++ l2) ++ [set_parent target (settle r c a)])%list /\
  cardData s'
  = update_first (has_id (elem_id a))
      (set_placement (object {| row := parseInt_opt r; col := parseInt_opt c |}) null)
      (cardData s) /\
  cells s' = cells s /\ drag s' = drag s.
Proof.
  intros E H1 Ha r c s'. subst s'. unfold moveCardToGridCell.
  rewrite E, find_skip by exact H1. simpl find. rewrite Ha.
  rewrite update_first_split by auto.
  rewrite appendChild_at by auto.
  unfold updateCardDataPosition.
  cbn [drag cardData cells elements with_elements with_cardData].
  auto.
Qed.

(** The release of a dragged card [d] over a cell in which another card
    [b] rests, whatever the dragged card's origin: the dragged card's
    record takes the cell's grid position, and the record of [b] is given
    a grid position whose row and column are not numbers, while [b]
    itself goes under the body. *)
Lemma swap_writes_NaN (s : state) (k : nat) (pre post : list element)
      (d b : element) (cell : grid_cell) (ca cb : card) (cx cy : Q) :
  isDragging (drag s) = true ->
  draggedCard (drag s) = Some (node d) ->
  elements s = (pre ++ b :: post ++ [d])%list ->
  NoDup (map node (elements s)) ->
  parent d = Body ->
  resting_card k (elements s) = Some b ->
  findGridCellUnderMouse cx cy s = Some k ->
  nth_error (cells s) k = Some cell ->
  elem_id d <> elem_id b ->
  find (has_id (elem_id d)) (cardData s) = Some ca ->
  find (has_id (elem_id b)) (cardData s) = Some cb ->
  let s' := stopDragging cx cy s in
  placement_of (elem_id d) s'
  = Some (object {| row := parseInt_opt (cell_row cell);
                    col := parseInt_opt (cell_col cell) |}, null) /\
  placement_of (elem_id b) s'
  = Some (object {| row := NaN; col := NaN |}, null) /\
  exists b', find (is_node (node b)) (elements s') = Some b' /\ parent b' = Body.
Proof.
  intros Hd Hn E Hnd Hp Hrest Hdrop Hcell Hne Ha Hb s'.
  set (n := node d) in *. set (m := node b) in *.
  assert (Hk : parent b = Cell k).
  { apply find_some in Hrest. destruct Hrest as [_ H].
    apply andb_prop in H as [H _]. unfold child_of in H.
    destruct (parent b) as [|j]; simpl in H; [discriminate|].
    apply Nat.eqb_eq in H. now subst j. }
  (* what the distinct handles give *)
  assert (Hb1 : no m pre = true /\ no m (post ++ [d]) = true).
  { rewrite E in Hnd. now apply nodup_nodes_split. }
  destruct Hb1 as [Hmpre Hmrest].
  assert (Hd1 : no n (pre ++ b :: post) = true).
  { rewrite E in Hnd.
    replace (pre ++ b :: post ++ [d])%list with ((pre ++ b :: post) ++ d :: [])%list in Hnd
      by (rewrite <- app_assoc; reflexivity).
    now apply nodup_nodes_split in Hnd. }
  assert (Hnn : is_node n d = true) by apply Nat.eqb_refl.
  assert (Hmm : is_node m b = true) by apply Nat.eqb_refl.
  assert (Hmpost : no m post = true /\ is_node m d = false).
  { rewrite forallb_app in Hmrest. apply andb_prop in Hmrest as [H1 H2].
    simpl in H2. rewrite andb_true_r in H2. apply negb_true_iff in H2. auto. }
  destruct Hmpost as [Hmpost Hmd].
  assert (Hnpp : no n pre = true /\ no n post = true).
  { rewrite forallb_app in Hd1. apply andb_prop in Hd1 as [H1 H2].
    simpl in H2. apply andb_prop in H2 as [_ H2]. auto. }
  destruct Hnpp as [Hnpre Hnpost].
  assert (E' : elements s = ((pre ++ b :: post) ++ [d])%list).
  { rewrite E, <- app_assoc. reflexivity. }
  subst s'. unfold stopDragging. rewrite Hd, Hn, Hdrop.
  unfold snapCardToGrid. rewrite Hrest.
  unfold swapCardPositions, parentElement.
  assert (Fn : find (is_node n) (elements s) = Some d).
  { rewrite E'. now apply find_last. }
  assert (Fm : find (is_node m) (elements s) = Some b).
  { rewrite E, find_skip by exact Hmpre. simpl. now rewrite Hmm. }
  fold m. rewrite Fn, Fm, Hp, Hk.
  destruct (moveCardToGridCell_at n (Cell k) s (pre ++ b :: post) [] d E' Hd1 Hnn)
    as (E1 & C1 & G1 & D1).
  set (s1 := moveCardToGridCell n (Cell k) s) in *.
  rewrite app_nil_r, <- app_assoc in E1. simpl app in E1.
  destruct (moveCardToGridCell_at m Body s1 pre _ b E1 Hmpre Hmm)
    as (E2 & C2 & G2 & D2).
  set (s2 := moveCardToGridCell m Body s1) in *.
  simpl dataset_row in *. simpl dataset_col in *.
  rewrite Hcell in C1. rewrite parseInt_undefined in C2.
  unfold placement_of, cleanupAfterDrag. cbn [cardData elements drag].
  rewrite D2, D1, Hn, C2, C1.
  split; [|split].
  - rewrite find_update_first_other;
      [|intros a Ha'; eapply has_id_exclusive; eauto|reflexivity].
    rewrite (find_update_first _ _ _ ca Ha); [reflexivity|].
    apply find_some in Ha. apply Ha.
  - rewrite (find_update_first _ _ _ cb); [reflexivity| |].
    + rewrite find_update_first_other; auto.
      intros a Ha'. eapply has_id_exclusive; eauto.
    + apply find_some in Hb. apply Hb.
  - rewrite E2.
    assert (Hnm : forall a, is_node n a = true -> is_node m a = false).
    { intros a Hna. unfold is_node in *. apply Nat.eqb_eq in Hna.
      apply Nat.eqb_neq in Hmd. apply Nat.eqb_neq. fold n in Hmd. congruence. }
    rewrite find_update_first_other; [|exact Hnm|reflexivity].
    eexists. split.
    + apply find_last; [|exact Hmm].
      apply forallb_app_true; [exact Hmpre|].
      apply forallb_app_true; [exact Hmpost|].
      simpl. rewrite andb_true_r. apply negb_true_iff. exact Hmd.
    + reflexivity.
Qed.
(** C2: a card that rests alone in a grid cell whose attributes name the
    grid position its record holds is pressed, moved about and released
    over that same cell.  The cell is found empty when the card comes
    down, so no swap takes place; the card goes back into the cell and
    the store is exactly what it was before the press. *)
Theorem drop_on_own_cell_changes_nothing
        (s : state) (e : press) (el : element) (k : nat) (cell : grid_cell)
        (c : card) (moves : list (Q * Q)) (cx cy : Q) :
  find (is_node (currentTarget e)) (elements s) = Some el ->
  NoDup (map node (elements s)) ->
  parent el = Cell k ->
  (forall e', In e' (elements s) -> child_of (Cell k) e' = true -> e' = el) ->
  nth_error (cells s) k = Some cell ->
  find (has_id (elem_id el)) (cardData s) = Some c ->
  position c = object {| row := parseInt_opt (cell_row cell);
                         col := parseInt_opt (cell_col cell) |} ->
  freePosition c = null ->
  findGridCellUnderMouse cx cy s = Some k ->
  let held := run s (Mousedown e :: map (fun m => Mousemove (fst m) (snd m)) moves) in
  let s' := run s (Mousedown e :: map (fun m => Mousemove (fst m) (snd m)) moves
                   ++ [Mouseup cx cy]) in
  resting_card k (elements held) = None /\
  snapCardToGrid (currentTarget e) k held
  = moveCardToGridCell (currentTarget e) (Cell k) held /\
  cardData s' = cardData s /\
  find (has_id (elem_id el)) (cardData s') = Some c /\
  drag s' = idle /\
  exists d, find (is_node (currentTarget e)) (elements s') = Some d /\
            parent d = Cell k /\ dragging d = false.
Proof.
  intros Hf Hn Hp Hk Hcell Hc Hpos Hfree Hdrop held s'.
  destruct (startDragging_lifts e s el k Hf Hn Hk) as (rest & L).
  apply (moves_lifted _ _ _ _ _ moves) in L.
  change (run (startDragging e s) (map (fun m => Mousemove (fst m) (snd m)) moves))
    with held in L.
  assert (E : s' = stopDragging cx cy held).
  { unfold s', held, run. simpl fold_left. now rewrite fold_left_app. }
  assert (Hdrop' : findGridCellUnderMouse cx cy held = Some k).
  { destruct L as (_ & _ & _ & _ & Hcs & _).
    unfold findGridCellUnderMouse in *. now rewrite Hcs. }
  destruct (drop_on_own_cell _ _ _ _ _ el cell c cx cy L Hcell Hdrop' Hc Hpos Hfree)
    as (R & S & D & I & X).
  rewrite E.
  split; [exact R|]. split; [exact S|]. split; [exact D|].
  split; [now rewrite D|]. split; [exact I|exact X].
Qed.

(** ** Resize *)

Lemma min_upper (a b : number) : gt (min a b) b = false.
Proof.
  destruct a as [|p], b as [|q]; simpl; auto.
  destruct (Qle_bool p q) eqn:E; simpl.
  - now rewrite E.
  - apply negb_false_iff, Qle_bool_iff, Qle_refl.
Qed.

Lemma keep_in_bounds_spec (w h : Q) (c : card) :
  id (keep_in_bounds w h c) = id c /\
  position (keep_in_bounds w h c) = position c /\
  match freePosition c with
  | object p =>
      freePosition (keep_in_bounds w h c)
      = object {| x := min (x p) (Fin (w - 300)); y := min (y p) (Fin (h - 200)) |} /\
      gt (min (x p) (Fin (w - 300))) (Fin (w - 300)) = false /\
      gt (min (y p) (Fin (h - 200))) (Fin (h - 200)) = false
  | _ => keep_in_bounds w h c = c
  end.
Proof.
  unfold keep_in_bounds. destruct (freePosition c) as [| |p]; simpl; auto.
  repeat split; auto using min_upper.
Qed.

End GridFacts.

(* ================================================================== *)
(** * Facts about the free-form variant *)
(* ================================================================== *)

Module FreeformFacts.
Import Js JsFacts Arrays ArraysFacts Freeform.

Local Open Scope string_scope.

Section Platform.

Variable JSON_stringify : json -> string.

Local Abbreviation stopDragging := (stopDragging JSON_stringify).

(** The release stores what [parseInt] reads from the two style strings
    of the dragged element, saves the store and ends the session. *)
Lemma stopDragging_reads (n : nat) (e : element) (now : Z) (s : state) :
  isDragging (drag s) = true ->
  draggedCard (drag s) = Some n ->
  find (is_node n) (elements s) = Some e ->
  let l := update_first (has_id (elem_id e))
             (set_freePosition {| x := parseInt (left e); y := parseInt (top e) |})
             (cardData s) in
  cardData (stopDragging now s) = l /\
  drag (stopDragging now s) = idle /\
  storage (stopDragging now s) = Some (JSON_stringify (workspaceData l now)) /\
  writes (stopDragging now s) = S (writes s).
Proof.
  intros Hd Hn He. unfold Freeform.stopDragging. rewrite Hd, Hn, He.
  unfold updateCardDataPosition. simpl. auto.
Qed.

(** A move followed by the animation frame makes the element show the
    pointer minus the press offset. *)
Lemma frame_shows (n : nat) (e : element) (ox oy cx cy : Q) (s : state) :
  isDragging (drag s) = true ->
  draggedCard (drag s) = Some n ->
  offset (drag s) = {| x := Fin ox; y := Fin oy |} ->
  frames s = [] ->
  find (is_node n) (elements s) = Some e ->
  exists e', find (is_node n) (elements (animation_frame (handleMouseMovement cx cy s)))
             = Some e' /\ elem_id e' = elem_id e /\ shows e' (minus cx ox) (minus cy oy).
Proof.
  intros Hd Hn Ho Hf He. unfold handleMouseMovement, animation_frame.
  rewrite Hd, Hn, Ho, Hf. simpl.
  eexists. split.
  - apply find_update_first; [exact He|]. apply find_some in He. apply He.
  - split; [reflexivity|split; reflexivity].
Qed.

End Platform.

End FreeformFacts.

(* ================================================================== *)
(** * Facts that span the variants *)
(* ================================================================== *)

Module Variants.
Import Js JsFacts Arrays ArraysFacts.

Local Open Scope string_scope.

(** C9: a move or a release that arrives while no drag is in progress
    changes nothing at all, in each of the three variants: the store and
    its layers, the drag session, the elements, the saved text and the
    count of storage writes are what they were. *)
Theorem idle_move_and_release_do_nothing
        (JSON_stringify : json -> string)
        (sl : Layered.state) (sf : Freeform.state) (sg : Grid.state)
        (cx cy : Q) (now : Z) :
  Layered.isDragging (Layered.drag sl) = false ->
  Freeform.isDragging (Freeform.drag sf) = false ->
  Grid.isDragging (Grid.drag sg) = false ->
  (Layered.step JSON_stringify sl (Layered.Mousemove cx cy) = sl /\
   Layered.step JSON_stringify sl (Layered.Mouseup now) = sl) /\
  (Freeform.handleMouseMovement cx cy sf = sf /\
   Freeform.stopDragging JSON_stringify now sf = sf) /\
  (Grid.step sg (Grid.Mousemove cx cy) = sg /\
   Grid.step sg (Grid.Mouseup cx cy) = sg).
Proof.
  intros Hl Hf Hg. simpl.
  unfold Layered.handleDrag, Layered.stopDrag,
    Freeform.handleMouseMovement, Freeform.stopDragging,
    Grid.handleMouseMovement, Grid.stopDragging.
  rewrite Hl, Hf, Hg. auto.
Qed.

(** C6, as the code has it: a resize passes over every card of the
    store.  In the layered variant each coordinate that lies beyond the
    new width minus 300, resp. the new height minus 400, is set to that
    bound and every other coordinate is left as it is, zero is no lower
    bound; the store is saved at once.  In the grid variant the
    coordinates of a card with a free position become their minimum with
    the new width minus 300, resp. the new height minus 200, and a card
    without a free position is left as it is. *)
Theorem resize_caps_from_above
        (JSON_stringify : json -> string)
        (sl : Layered.state) (sg : Grid.state) (w h : Q) (now : Z) :
  let sl' := Layered.handleWindowResize JSON_stringify w h now sl in
  let sg' := Grid.handleWindowResize w h sg in
  Layered.cards (Layered.config sl')
  = map (Layered.keep_in_bounds w h) (Layered.cards (Layered.config sl)) /\
  (forall c : Layered.card,
      let p := Layered.position c in
      let p' := Layered.position (Layered.keep_in_bounds w h c) in
      Layered.x p' = (if gt (Layered.x p) (Fin (w - 300)) then Fin (w - 300) else Layered.x p) /\
      Layered.y p' = (if gt (Layered.y p) (Fin (h - 400)) then Fin (h - 400) else Layered.y p) /\
      gt (Layered.x p') (Fin (w - 300)) = false /\
      gt (Layered.y p') (Fin (h - 400)) = false) /\
  Layered.storage sl'
  = Some (JSON_stringify (Layered.workspaceData (Layered.config sl') now)) /\
  Layered.writes sl' = S (Layered.writes sl) /\
  Grid.cardData sg' = map (Grid.keep_in_bounds w h) (Grid.cardData sg) /\
  (forall c : Grid.card,
      Grid.position (Grid.keep_in_bounds w h c) = Grid.position c /\
      match Grid.freePosition c with
      | Grid.object p =>
          Grid.freePosition (Grid.keep_in_bounds w h c)
          = Grid.object {| Grid.x := min (Grid.x p) (Fin (w - 300));
                           Grid.y := min (Grid.y p) (Fin (h - 200)) |} /\
          gt (min (Grid.x p) (Fin (w - 300))) (Fin (w - 300)) = false /\
          gt (min (Grid.y p) (Fin (h - 200))) (Fin (h - 200)) = false
      | _ => Grid.keep_in_bounds w h c = c
      end).
Proof.
  intros sl' sg'.
  destruct (LayeredFacts.resize_layered JSON_stringify w h now sl) as (C & S & W).
  split; [subst sl'; now rewrite C|].
  split.
  { intro c. destruct (LayeredFacts.keep_in_bounds_upper w h c) as [Hx Hy].
    repeat split; auto. }
  split; [subst sl'; now rewrite S, C|].
  split; [exact W|].
  split; [reflexivity|].
  intro c. destruct (GridFacts.keep_in_bounds_spec w h c) as (_ & P & F).
  split; [exact P|exact F].
Qed.

Lemma has_id_other_layered (cardId other : string) (a : Layered.card) :
  other <> cardId -> Layered.has_id cardId a = true -> Layered.has_id other a = false.
Proof.
  unfold Layered.has_id. intros Hne H. apply String.eqb_eq in H.
  apply String.eqb_neq. congruence.
Qed.

Lemma has_id_other_freeform (cardId other : string) (a : Freeform.card) :
  other <> cardId -> Freeform.has_id cardId a = true -> Freeform.has_id other a = false.
Proof.
  unfold Freeform.has_id. intros Hne H. apply String.eqb_eq in H.
  apply String.eqb_neq. congruence.
Qed.

(** C10, as the code has it: the release reads the [left] and [top]
    style strings of the dragged element with [parseInt] and writes the
    two numbers read to the record found under the element's id, in the
    layered and in the free-form variant; the store is saved with them
    at once.  Whatever position [(qx, qy)] the element shows, whole
    numbers or not, the two numbers read are whole numbers; for a
    coordinate that the platform prints in positional notation and whose
    magnitude is below [2^53] it is that coordinate cut toward zero.
    Every other record of the store is left as it was. *)
Theorem release_stores_whole_numbers
        (JSON_stringify : json -> string)
        (sl : Layered.state) (nl : nat) (el : Layered.element) (cl : Layered.card)
        (sf : Freeform.state) (nf : nat) (ef : Freeform.element) (cf : Freeform.card)
        (qx qy : Q) (now : Z) :
  Layered.isDragging (Layered.drag sl) = true ->
  Layered.draggedCard (Layered.drag sl) = Some nl ->
  find (Layered.is_node nl) (Layered.elements sl) = Some el ->
  find (Layered.has_id (Layered.elem_id el)) (Layered.cards (Layered.config sl)) = Some cl ->
  Layered.shows el qx qy ->
  Freeform.isDragging (Freeform.drag sf) = true ->
  Freeform.draggedCard (Freeform.drag sf) = Some nf ->
  find (Freeform.is_node nf) (Freeform.elements sf) = Some ef ->
  find (Freeform.has_id (Freeform.elem_id ef)) (Freeform.cardData sf) = Some cf ->
  Freeform.shows ef qx qy ->
  let sl' := Layered.stopDrag JSON_stringify now sl in
  let sf' := Freeform.stopDragging JSON_stringify now sf in
  exists zx zy : Z,
    (parseInt (toString (Fin qx) ++ "px") = of_Z zx /\
     parseInt (toString (Fin qy) ++ "px") = of_Z zy) /\
    (plain (double qx) -> zx = trunc (double qx)) /\
    (plain (double qy) -> zy = trunc (double qy)) /\
    (exists cl',
        find (Layered.has_id (Layered.elem_id el)) (Layered.cards (Layered.config sl'))
        = Some cl' /\
        Layered.position cl' = {| Layered.x := of_Z zx; Layered.y := of_Z zy |} /\
        Layered.id cl' = Layered.id cl /\ Layered.title cl' = Layered.title cl /\
        Layered.content cl' = Layered.content cl /\
        Layered.zIndex cl' = Layered.zIndex cl) /\
    (forall other, other <> Layered.elem_id el ->
        find (Layered.has_id other) (Layered.cards (Layered.config sl'))
        = find (Layered.has_id other) (Layered.cards (Layered.config sl))) /\
    Layered.storage sl'
    = Some (JSON_stringify (Layered.workspaceData (Layered.config sl') now)) /\
    (exists cf',
        find (Freeform.has_id (Freeform.elem_id ef)) (Freeform.cardData sf') = Some cf' /\
        Freeform.freePosition cf' = {| Freeform.x := of_Z zx; Freeform.y := of_Z zy |} /\
        Freeform.id cf' = Freeform.id cf /\ Freeform.title cf' = Freeform.title cf /\
        Freeform.content cf' = Freeform.content cf) /\
    (forall other, other <> Freeform.elem_id ef ->
        find (Freeform.has_id other) (Freeform.cardData sf')
        = find (Freeform.has_id other) (Freeform.cardData sf)) /\
    Freeform.storage sf'
    = Some (JSON_stringify (Freeform.workspaceData (Freeform.cardData sf') now)).
Proof.
  intros Hd Hn He Hc [Hl Ht] Hd' Hn' He' Hc' [Hl' Ht'] sl' sf'.
  destruct (parseInt_toString_integer qx) as [zx Hx].
  destruct (parseInt_toString_integer qy) as [zy Hy].
  exists zx, zy.
  split; [split; assumption|].
  split.
  { intro P. rewrite (parseInt_toString_px qx P) in Hx.
    unfold of_Z, inject_Z in Hx. congruence. }
  split.
  { intro P. rewrite (parseInt_toString_px qy P) in Hy.
    unfold of_Z, inject_Z in Hy. congruence. }
  destruct (LayeredFacts.stopDrag_reads JSON_stringify nl el now sl Hd Hn He)
    as (C & _ & S & _).
  destruct (FreeformFacts.stopDragging_reads JSON_stringify nf ef now sf Hd' Hn' He')
    as (C' & _ & S' & _).
  cbv zeta in S, S'. rewrite <- C in S. rewrite <- C' in S'.
  rewrite Hl, Ht, Hx, Hy in C. rewrite Hl', Ht', Hx, Hy in C'.
  subst sl' sf'.
  split.
  { eexists. split.
    - rewrite C. cbn [Layered.cards].
      apply (find_update_first (Layered.has_id (Layered.elem_id el)) _ _ cl Hc).
      apply find_some in Hc. apply Hc.
    - cbn. repeat split; reflexivity. }
  split.
  { intros other Hne. rewrite C. cbn [Layered.cards].
    apply find_update_first_other; [|reflexivity].
    intro a. now apply has_id_other_layered. }
  split; [exact S|].
  split.
  { eexists. split.
    - rewrite C'.
      apply (find_update_first (Freeform.has_id (Freeform.elem_id ef)) _ _ cf Hc').
      apply find_some in Hc'. apply Hc'.
    - cbn. repeat split; reflexivity. }
  split; [|exact S'].
  intros other Hne. rewrite C'.
  apply find_update_first_other; [|reflexivity].
  intro a. now apply has_id_other_freeform.
Qed.

End Variants.

(* ================================================================== *)
(** * Closed instances *)
(* ================================================================== *)

Module Instances.
Import Js JsFacts Arrays ArraysFacts.

Local Open Scope string_scope.

Ltac in_range := right; split; vm_compute; [discriminate|reflexivity].

(** ** Numbers *)

(** Differences are rounded as the platform rounds them, and a number
    printed in exponent notation is read by [parseInt] up to its point
    or its [e]. *)
Lemma printed_numbers_read_back :
  toString (Fin (minus (51 # 10) (minus (1 # 10) 0))) = "5" /\
  toString (Fin (minus (57 # 10) (minus (1007 # 10) 100))) = "4.999999999999997" /\
  toString (Fin (1 # 3)) = "0.3333333333333333" /\
  toString (Fin (5 # 10000000)) = "5e-7" /\
  parseInt "5e-7px" = of_Z 5 /\
  toString (of_Z (10 ^ 21)) = "1e+21" /\
  parseInt "1e+21px" = of_Z 1 /\
  toString (Fin (minus (3 # 10) (minus (30000000000000004 # 100000000000000000) 0)))
  = "-5.551115123125783e-17" /\
  parseInt "-5.551115123125783e-17px" = of_Z (-5).
Proof. repeat split; vm_compute; reflexivity. Qed.

(** ** All variants *)

Lemma idle_move_and_release_do_nothing_witness :
  Layered.step Layered.no_json (Layered.page None) (Layered.Mouseup 0) = Layered.page None /\
  Grid.step Grid.two_cards (Grid.Mouseup 5 5) = Grid.two_cards.
Proof.
  destruct (Variants.idle_move_and_release_do_nothing Layered.no_json
              (Layered.page None) (Freeform.one_card 10 10) Grid.two_cards 5 5 0
              eq_refl eq_refl eq_refl) as ((_ & H1) & _ & (_ & H2)).
  split; assumption.
Defined.

(** ** Layered variant *)

Lemma release_stores_position_unclamped_witness :
  (exists c',
      find (Layered.has_id "card-1")
           (Layered.cards (Layered.config
              (Layered.run Layered.no_json Layered.rendered_defaults Layered.pull_left)))
      = Some c' /\
      Layered.position c' = {| Layered.x := of_Z (-150); Layered.y := of_Z (-30) |} /\
      Layered.zIndex c' = 5%Z) /\
  (exists c',
      find (Layered.has_id "card-1")
           (Layered.cards (Layered.config
              (Layered.run Layered.no_json Layered.rendered_defaults Layered.fine_pull)))
      = Some c' /\
      Layered.position c' = {| Layered.x := of_Z 4; Layered.y := of_Z 8 |} /\
      Layered.zIndex c' = 5%Z).
Proof.
  split.
  - destruct (LayeredFacts.release_stores_position_unclamped Layered.no_json
                Layered.rendered_defaults (Layered.press_at 0 300 150 100 100)
                (Layered.element_of 0 Layered.rendered_defaults)
                (Layered.seed_card 0) [] 50 20 1
                eq_refl eq_refl eq_refl) as ((c' & F & P & Z & _) & _).
    + in_range.
    + in_range.
    + exists c'. split; [exact F|]. split; [|exact Z].
      rewrite P. vm_compute. reflexivity.
  - destruct (LayeredFacts.release_stores_position_unclamped Layered.no_json
                Layered.rendered_defaults
                {| Layered.on_remove_button := false; Layered.currentTarget := 0;
                   Layered.clientX := 1007 # 10; Layered.clientY := 1003 # 10;
                   Layered.rect_left := 100; Layered.rect_top := 100 |}
                (Layered.element_of 0 Layered.rendered_defaults)
                (Layered.seed_card 0) [] (57 # 10) (83 # 10) 1
                eq_refl eq_refl eq_refl) as ((c' & F & P & Z & _) & _).
    + in_range.
    + in_range.
    + exists c'. split; [exact F|]. split; [|exact Z].
      rewrite P. vm_compute. reflexivity.
Defined.

(** C5, as stated: the first default card, pulled to the left until its
    corner is 150 pixels left of and 30 pixels above the viewport's
    corner and released there, is stored at (-150, -30). *)
Lemma release_left_of_viewport :
  exists c,
    find (Layered.has_id "card-1")
         (Layered.cards (Layered.config
            (Layered.run Layered.no_json Layered.rendered_defaults Layered.pull_left)))
    = Some c /\
    Layered.position c = {| Layered.x := of_Z (-150); Layered.y := of_Z (-30) |} /\
    ~ Layered.rests_in_viewport 1280 800 c.
Proof.
  eexists. split; [vm_compute; reflexivity|]. split; [reflexivity|].
  intros [[H _] _]. vm_compute in H. apply H. reflexivity.
Qed.

(** C6, as stated: that card, stored at (-150, -30), is where it was
    after the window was resized to 1280 by 800. *)
Lemma resize_keeps_negative_coordinates :
  exists c,
    find (Layered.has_id "card-1")
         (Layered.cards (Layered.config
            (Layered.run Layered.no_json Layered.rendered_defaults
               (Layered.pull_left ++ [Layered.Resize 1280 800 2]))))
    = Some c /\
    Layered.position c = {| Layered.x := of_Z (-150); Layered.y := of_Z (-30) |} /\
    ~ Layered.rests_in_viewport 1280 800 c.
Proof.
  eexists. split; [vm_compute; reflexivity|]. split; [reflexivity|].
  intros [[H _] _]. vm_compute in H. apply H. reflexivity.
Qed.

Lemma malformed_blob_leaves_defaults_witness :
  Layered.initializeApp (Layered.always Layered.foreign_blob) (Layered.page (Some "saved"))
  = Layered.Absent (Layered.createAllCards (Layered.page (Some "saved"))).
Proof.
  destruct (LayeredFacts.malformed_blob_leaves_defaults
              (Layered.always Layered.foreign_blob)
              (Layered.page (Some "saved")) (Some "saved")) as (_ & _ & _ & H & _).
  - intros (blob & fields & items & _ & _ & P & C).
    unfold Layered.always in P. injection P as <-. discriminate C.
  - exact H.
Defined.

Lemma missing_counter_becomes_four_witness :
  exists s',
    Layered.loadFromStorage (Layered.always Layered.blob_without_counter)
      (Layered.page (Some "saved")) = Layered.Loaded s' /\
    Layered.maxZIndex (Layered.config s') = 4%Z /\
    Layered.maxZIndex (Layered.config (Layered.bringCardToFront "card-9" s')) = 5%Z.
Proof.
  destruct (LayeredFacts.missing_counter_becomes_four
              (Layered.always Layered.blob_without_counter)
              (Layered.page (Some "saved")) "saved" Layered.blob_without_counter
              [Layered.json_of_card Layered.high_card] [Layered.high_card]
              Layered.high_card Layered.high_card "card-9")
    as (s' & L & _ & M & F & _).
  - reflexivity.
  - discriminate.
  - reflexivity.
  - reflexivity.
  - reflexivity.
  - now left.
  - now left.
  - reflexivity.
  - reflexivity.
  - exists s'. auto.
Defined.

(** ** Grid variant *)

Lemma drop_on_own_cell_changes_nothing_witness :
  Grid.cardData
    (Grid.run Grid.a_on_grid
       (Grid.Mousedown {| Grid.currentTarget := 0; Grid.clientX := 5; Grid.clientY := 5;
                          Grid.rect_left := 0; Grid.rect_top := 0 |}
        :: map (fun m => Grid.Mousemove (fst m) (snd m)) [(70, 70); (260, 40)]
        ++ [Grid.Mouseup 50 50]))
  = Grid.cardData Grid.a_on_grid.
Proof.
  destruct (GridFacts.drop_on_own_cell_changes_nothing Grid.a_on_grid
              {| Grid.currentTarget := 0; Grid.clientX := 5; Grid.clientY := 5;
                 Grid.rect_left := 0; Grid.rect_top := 0 |}
              (Grid.element_of 0 Grid.a_on_grid) 0 (Grid.cell_at 0 0)
              (Grid.grid_card "card-1" "A" 0 0) [(70, 70); (260, 40)] 50 50)
    as (_ & _ & H & _).
  - vm_compute; reflexivity.
  - vm_compute. repeat constructor; simpl; intuition discriminate.
  - vm_compute; reflexivity.
  - intros e' H. vm_compute in H. destruct H as [<-|[<-|[]]]; vm_compute;
      intro; (discriminate || reflexivity).
  - vm_compute; reflexivity.
  - vm_compute; reflexivity.
  - vm_compute; reflexivity.
  - vm_compute; reflexivity.
  - vm_compute; reflexivity.
  - exact H.
Defined.

(** C1, on the code: with A in cell (0, 0) and B in cell (0, 1), A is
    released over B's cell; and with A free at (10, 10) and B in cell
    (0, 1), A is released over B's cell.  Both times A's record takes
    the grid position (0, 1), and B's record is given a grid position
    whose row and column are not numbers and no free position. *)
Theorem swap_leaves_occupant_nowhere :
  Grid.placement_of "card-1" Grid.both_on_grid
  = Some (Grid.object {| Grid.row := of_Z 0; Grid.col := of_Z 0 |}, Grid.null) /\
  Grid.placement_of "card-2" Grid.both_on_grid
  = Some (Grid.object {| Grid.row := of_Z 0; Grid.col := of_Z 1 |}, Grid.null) /\
  Grid.placement_of "card-1" (Grid.run Grid.both_on_grid (Grid.drag_to 0 0 0 150 50))
  = Some (Grid.object {| Grid.row := of_Z 0; Grid.col := of_Z 1 |}, Grid.null) /\
  Grid.placement_of "card-2" (Grid.run Grid.both_on_grid (Grid.drag_to 0 0 0 150 50))
  = Some (Grid.object {| Grid.row := NaN; Grid.col := NaN |}, Grid.null) /\
  Grid.placement_of "card-1" Grid.b_on_grid
  = Some (Grid.undefined, Grid.object {| Grid.x := of_Z 10; Grid.y := of_Z 10 |}) /\
  Grid.placement_of "card-2" Grid.b_on_grid
  = Some (Grid.object {| Grid.row := of_Z 0; Grid.col := of_Z 1 |}, Grid.null) /\
  Grid.placement_of "card-1" (Grid.run Grid.b_on_grid (Grid.drag_to 0 10 10 150 50))
  = Some (Grid.object {| Grid.row := of_Z 0; Grid.col := of_Z 1 |}, Grid.null) /\
  Grid.placement_of "card-2" (Grid.run Grid.b_on_grid (Grid.drag_to 0 10 10 150 50))
  = Some (Grid.object {| Grid.row := NaN; Grid.col := NaN |}, Grid.null) /\
  Grid.parent (Grid.element_of 1 (Grid.run Grid.b_on_grid (Grid.drag_to 0 10 10 150 50)))
  = Grid.Body.
Proof. repeat split; vm_compute; reflexivity. Qed.

(** ** Both drag variants *)

Lemma release_stores_whole_numbers_witness :
  Layered.left (Layered.element_of 0 Layered.held_new_card) = "367.5px" /\
  Layered.top (Layered.element_of 0 Layered.held_new_card) = "106.25px" /\
  (exists c',
      find (Layered.has_id "card-7")
           (Layered.cards (Layered.config
              (Layered.stopDrag Layered.no_json 9 Layered.held_new_card)))
      = Some c' /\
      Layered.position c' = {| Layered.x := of_Z 367; Layered.y := of_Z 106 |}) /\
  (exists c',
      find (Freeform.has_id "card-1")
           (Freeform.cardData
              (Freeform.stopDragging Layered.no_json 9
                 (Freeform.held_card (735 # 2) (425 # 4))))
      = Some c' /\
      Freeform.freePosition c' = {| Freeform.x := of_Z 367; Freeform.y := of_Z 106 |}).
Proof.
  assert (Cl : find (Layered.has_id (Layered.elem_id
                                       (Layered.element_of 0 Layered.held_new_card)))
                 (Layered.cards (Layered.config Layered.held_new_card))
               = Some {| Layered.id := "card-7"; Layered.title := "X";
                         Layered.content := "Y";
                         Layered.position :=
                           {| Layered.x := Fin ((3 # 8) * (1280 - 300));
                              Layered.y := Fin ((9 # 64) * (800 - 400) + 50) |};
                         Layered.zIndex := 6 |})
    by (vm_compute; reflexivity).
  assert (Cf : find (Freeform.has_id
                       (Freeform.elem_id
                          (Freeform.element_of 0 (Freeform.held_card (735 # 2) (425 # 4)))))
                 (Freeform.cardData (Freeform.held_card (735 # 2) (425 # 4)))
               = Some {| Freeform.id := "card-1"; Freeform.title := "How to Use?";
                         Freeform.content := "";
                         Freeform.freePosition :=
                           {| Freeform.x := Fin (735 # 2);
                              Freeform.y := Fin (425 # 4) |} |})
    by (vm_compute; reflexivity).
  assert (Sl : Layered.shows (Layered.element_of 0 Layered.held_new_card)
                 (735 # 2) (425 # 4)) by (split; vm_compute; reflexivity).
  assert (Sf : Freeform.shows
                 (Freeform.element_of 0 (Freeform.held_card (735 # 2) (425 # 4)))
                 (735 # 2) (425 # 4)) by (split; vm_compute; reflexivity).
  destruct (Variants.release_stores_whole_numbers Layered.no_json
              Layered.held_new_card 0 (Layered.element_of 0 Layered.held_new_card) _
              (Freeform.held_card (735 # 2) (425 # 4))
              0 (Freeform.element_of 0 (Freeform.held_card (735 # 2) (425 # 4))) _
              (735 # 2) (425 # 4) 9
              eq_refl eq_refl eq_refl Cl Sl eq_refl eq_refl eq_refl Cf Sf)
    as (zx & zy & _ & Px & Py & (cl & Fl & Pl & _) & _ & _ & (cf & Ff & Pf & _) & _).
  assert (Zx : zx = 367%Z) by (rewrite Px; [vm_compute; reflexivity|in_range]).
  assert (Zy : zy = 106%Z) by (rewrite Py; [vm_compute; reflexivity|in_range]).
  rewrite Zx, Zy in Pl, Pf.
  split; [vm_compute; reflexivity|]. split; [vm_compute; reflexivity|].
  split; [exists cl|exists cf]; split; assumption.
Defined.

(** C10, as stated: a coordinate that lies strictly between -1 and 1 is
    not always stored as 0.  The first default card is pressed
    0.30000000000000004 pixels right of the left edge of its box and
    the pointer is moved to 0.3: the card shows
    [-5.551115123125783e-17px] and [20px], and the release stores
    (-5, 20), in the layered and in the free-form variant. *)
Lemma release_reads_digits_of_exponent_notation :
  trunc (minus (3 # 10) (minus (30000000000000004 # 100000000000000000) 0)) = 0%Z /\
  Layered.left
    (Layered.element_of 0
       (Layered.run Layered.no_json Layered.rendered_defaults Layered.tiny_pull))
  = "-5.551115123125783e-17px" /\
  Layered.top
    (Layered.element_of 0
       (Layered.run Layered.no_json Layered.rendered_defaults Layered.tiny_pull))
  = "20px" /\
  map Layered.position
      (firstn 1 (Layered.cards (Layered.config
         (Layered.run Layered.no_json Layered.rendered_defaults Layered.tiny_pull))))
  = [ {| Layered.x := of_Z (-5); Layered.y := of_Z 20 |} ] /\
  Freeform.left (Freeform.element_of 0 (Freeform.tiny_release Layered.no_json))
  = "-5.551115123125783e-17px" /\
  map Freeform.freePosition (Freeform.cardData (Freeform.tiny_release Layered.no_json))
  = [ {| Freeform.x := of_Z (-5); Freeform.y := of_Z 20 |} ].
Proof. repeat split; vm_compute; reflexivity. Qed.

End Instances.

(* ================================================================== *)
(** * Further facts about arrays *)
(* ================================================================== *)

Module ArraysMore.
Import Arrays ArraysFacts.

Lemma Forall_update_first {A : Type} (P : A -> Prop) (p : A -> bool)
      (f : A -> A) (l : list A) :
  (forall a, P a -> P (f a)) -> Forall P l -> Forall P (update_first p f l).
Proof.
  intros Hf H. induction H as [|a r Ha Hr IH]; simpl; [constructor|].
  destruct (p a); constructor; auto.
Qed.

Lemma Forall_remove_first {A : Type} (P : A -> Prop) (p : A -> bool) (l : list A) :
  Forall P l -> Forall P (remove_first p l).
Proof.
  intro H. induction H as [|a r Ha Hr IH]; simpl; [constructor|].
  destruct (p a); auto.
Qed.

Lemma length_update_first {A : Type} (p : A -> bool) (f : A -> A) (l : list A) :
  List.length (update_first p f l) = List.length l.
Proof. induction l as [|a r IH]; simpl; auto. destruct (p a); simpl; auto. Qed.

Lemma remove_first_none {A : Type} (p : A -> bool) (l : list A) :
  find p l = None -> remove_first p l = l.
Proof.
  induction l as [|a r IH]; simpl; auto.
  destruct (p a); [discriminate|]. intro H. now rewrite IH.
Qed.

Lemma NoDup_map_filter {A B : Type} (g : A -> B) (p : A -> bool) (l : list A) :
  NoDup (map g l) -> NoDup (map g (filter p l)).
Proof.
  induction l as [|a r IH]; simpl; auto.
  intro H. inversion H as [|? ? Hn Hr]; subst.
  destruct (p a); simpl; auto.
  constructor; auto. intro Hin. apply Hn.
  apply in_map_iff in Hin as (b & <- & Hb). apply filter_In in Hb as [Hb _].
  now apply in_map.
Qed.

Lemma NoDup_app_disjoint {A : Type} (l1 l2 : list A) (a : A) :
  NoDup (l1 ++ l2) -> In a l1 -> In a l2 -> False.
Proof.
  induction l1 as [|b r IH]; simpl; [tauto|].
  intros H [->|H1] H2; inversion H as [|? ? Hn Hr]; subst.
  - apply Hn. apply in_or_app. now right.
  - now apply IH.
Qed.

End ArraysMore.

(* ================================================================== *)
(** * The layered variant: layers, removal, persistence and reset *)
(* ================================================================== *)

Module LayeredMore.
Import Js JsFacts Arrays ArraysFacts ArraysMore Layered LayeredFacts.

Local Open Scope string_scope.

(** ** Lists of cards *)

Lemma find_remove_first_none (l : list card) (cardId : string) :
  NoDup (map id l) -> find (has_id cardId) (remove_first (has_id cardId) l) = None.
Proof.
  induction l as [|a r IH]; simpl; auto.
  intro H. inversion H as [|? ? Hn Hr]; subst.
  destruct (has_id cardId a) eqn:E; simpl.
  - destruct (find (has_id cardId) r) as [c|] eqn:F; auto.
    apply find_some in F. destruct F as [Hin Hc].
    unfold has_id in *. apply String.eqb_eq in E, Hc.
    elim Hn. rewrite E, <- Hc. now apply in_map.
  - rewrite E. auto.
Qed.

Lemma find_none_not_in (l : list card) (cardId : string) :
  find (has_id cardId) l = None -> ~ In cardId (map id l).
Proof.
  intros H Hin. apply in_map_iff in Hin as (c & <- & Hc).
  apply (find_none _ _ H) in Hc. unfold has_id in Hc.
  now rewrite String.eqb_refl in Hc.
Qed.

Lemma has_id_other (a b : string) (c : card) :
  a <> b -> has_id b c = true -> has_id a c = false.
Proof.
  unfold has_id. intros Hne Hb. apply String.eqb_eq in Hb.
  apply String.eqb_neq. congruence.
Qed.

Section Platform.

Variable JSON_stringify : json -> string.
Variable JSON_parse : string -> option json.

Local Abbreviation step := (step JSON_stringify).
Local Abbreviation run := (run JSON_stringify).
Local Abbreviation stopDrag := (stopDrag JSON_stringify).
Local Abbreviation removeCard := (removeCard JSON_stringify).
Local Abbreviation showAddCardDialog := (showAddCardDialog JSON_stringify).
Local Abbreviation handleWindowResize := (handleWindowResize JSON_stringify).
Local Abbreviation saveToStorage := (saveToStorage JSON_stringify).
Local Abbreviation loadFromStorage := (loadFromStorage JSON_parse).
Local Abbreviation initializeApp := (initializeApp JSON_parse).
Local Abbreviation reset_timer := (reset_timer JSON_stringify).

(** ** The counter bounds the layers *)

Lemma bounded_weaken (z z' : Z) (l : list card) :
  (z <= z')%Z -> Forall (fun c => (zIndex c <= z)%Z) l ->
  Forall (fun c => (zIndex c <= z')%Z) l.
Proof. intros Hz H. eapply Forall_impl; [|exact H]. simpl. intros; lia. Qed.

Lemma bringCardToFront_bounded (cardId : string) (s : state) :
  layers_bounded s -> layers_bounded (bringCardToFront cardId s).
Proof.
  unfold layers_bounded, bringCardToFront. intro H. break_match; auto. simpl.
  apply Forall_update_first.
  - intros a _. simpl. lia.
  - eapply bounded_weaken; [|exact H]. lia.
Qed.

Lemma step_bounded (s : state) (ev : event) :
  layers_bounded s -> layers_bounded (step s ev).
Proof.
  intro H. destruct ev as [e|cx cy|now|cardId now|d|w h now|n]; simpl.
  - unfold startDrag. break_match; auto.
    unfold layers_bounded. simpl. now apply bringCardToFront_bounded.
  - unfold handleDrag. break_match; auto.
  - unfold Layered.stopDrag. break_match; auto.
    unfold layers_bounded in *. simpl. apply Forall_update_first; auto.
  - unfold layers_bounded in *. simpl. now apply Forall_remove_first.
  - unfold Layered.showAddCardDialog. break_match; auto.
    unfold layers_bounded in *. simpl. apply Forall_app. split.
    + eapply bounded_weaken; [|exact H]. lia.
    + repeat constructor. simpl. lia.
  - unfold layers_bounded in *. simpl. rewrite Forall_map.
    eapply Forall_impl; [|exact H]. auto.
  - unfold removal_timer. break_match; auto.
Qed.

Lemma run_bounded (evs : list event) (s : state) :
  layers_bounded s -> layers_bounded (run s evs).
Proof.
  revert s. induction evs as [|ev r IH]; intros s H; simpl; auto.
  apply IH. now apply step_bounded.
Qed.

(** X1: the counter bounds the layers.  If no card of the store lies above
    [maxZIndex], this stays so along every run of events; and when a
    card is then brought to the front it gets the counter plus one while
    every other card lies strictly below that value: the card brought to
    the front is the only topmost one. *)
Theorem front_card_is_topmost
        (s : state) (evs : list event) (cardId : string)
        (pre post : list card) (c : card) :
  layers_bounded s ->
  cards (config (run s evs)) = (pre ++ c :: post)%list ->
  has_id cardId c = true ->
  forallb (fun b => negb (has_id cardId b)) pre = true ->
  let s1 := run s evs in
  let s2 := bringCardToFront cardId s1 in
  let top := (maxZIndex (config s1) + 1)%Z in
  layers_bounded s1 /\ layers_bounded s2 /\
  cards (config s2) = (pre ++ set_zIndex top c :: post)%list /\
  Forall (fun c' => (zIndex c' < top)%Z) (pre ++ post).
Proof.
  intros Hb E Hc Hpre s1 s2 top.
  assert (B1 : layers_bounded s1) by now apply run_bounded.
  split; [exact B1|]. split; [now apply bringCardToFront_bounded|].
  split; [now apply bringCardToFront_found|].
  unfold layers_bounded in B1. fold s1 in E. rewrite E in B1.
  apply Forall_app in B1 as [B1 B2]. inversion B2; subst.
  apply Forall_app. split; eapply Forall_impl; eauto; simpl; intros; unfold top; lia.
Qed.

(** ** Removing a card *)

(** [removeCard] drops the first card with the id and nothing else:
    the cards before and after it keep their order, the counter, the
    drag session and the elements are as they were, and the store is
    saved. *)
Lemma remove_takes_first_match
        (s : state) (cardId : string) (now : Z) (pre post : list card) (c : card) :
  cards (config s) = (pre ++ c :: post)%list ->
  has_id cardId c = true ->
  forallb (fun b => negb (has_id cardId b)) pre = true ->
  let s' := removeCard cardId now s in
  cards (config s') = (pre ++ post)%list /\
  maxZIndex (config s') = maxZIndex (config s) /\
  drag s' = drag s /\ elements s' = elements s /\
  storage s' = Some (JSON_stringify (workspaceData (config s') now)) /\
  writes s' = S (writes s).
Proof.
  intros E Hc Hpre s'. subst s'. unfold Layered.removeCard. simpl.
  rewrite E, remove_first_split by assumption. repeat split; reflexivity.
Qed.

(** X2: [removeCard] with an id that no card of the store and no element
    of the document carries changes neither the store, the drag session,
    the elements nor the timers, and still writes the store to the
    storage: the save is not guarded by the look-up. *)
Theorem remove_of_unknown_id_still_saves (s : state) (cardId : string) (now : Z) :
  find (has_id cardId) (cards (config s)) = None ->
  getElementById cardId (elements s) = None ->
  let s' := removeCard cardId now s in
  config s' = config s /\ drag s' = drag s /\ elements s' = elements s /\
  timers s' = timers s /\
  storage s' = Some (JSON_stringify (workspaceData (config s) now)) /\
  writes s' = S (writes s).
Proof.
  intros Hf He s'. subst s'. unfold Layered.removeCard. rewrite He. simpl.
  rewrite remove_first_none by exact Hf.
  destruct (config s). repeat split; reflexivity.
Qed.

(** ** The drag gesture and the rest of the store *)

Lemma stopDrag_dragging (n : nat) (cardId : string) (off : point) (c : appConfig)
      (now : Z) (s : state) :
  dragging_on n cardId off c s ->
  exists p,
    cards (config (stopDrag now s))
    = update_first (has_id cardId) (set_position p) (cards c) /\
    maxZIndex (config (stopDrag now s)) = maxZIndex c /\
    drag (stopDrag now s) = idle /\
    writes (stopDrag now s) = S (writes s).
Proof.
  intros (Hd & Hc & e & He & Hid). unfold Layered.stopDrag.
  rewrite Hd. simpl. rewrite He. simpl. rewrite Hc, Hid. eauto.
Qed.

Lemma moves_writes (moves : list (Q * Q)) (s : state) :
  writes (run s (map (fun m => Mousemove (fst m) (snd m)) moves)) = writes s.
Proof.
  revert s. induction moves as [|m r IH]; intro s; simpl; auto.
  rewrite IH. unfold handleDrag. break_match; auto.
Qed.

Lemma startDrag_writes (e : press) (s : state) : writes (startDrag e s) = writes s.
Proof.
  unfold startDrag. break_match; auto. simpl.
  unfold bringCardToFront. break_match; auto.
Qed.

Lemma gesture_dragging (e : press) (s : state) (card : element) (moves : list (Q * Q)) :
  on_remove_button e = false ->
  find (is_node (currentTarget e)) (elements s) = Some card ->
  dragging_on (node card) (elem_id card)
    {| x := Fin (minus (clientX e) (rect_left e));
       y := Fin (minus (clientY e) (rect_top e)) |}
    (config (bringCardToFront (elem_id card) s))
    (run (startDrag e s) (map (fun m => Mousemove (fst m) (snd m)) moves)).
Proof.
  intros Hb Hf. apply moves_dragging. now apply startDrag_dragging.
Qed.

Lemma bringCardToFront_cards (cardId : string) (s : state) :
  cards (config (bringCardToFront cardId s))
  = update_first (has_id cardId) (set_zIndex (maxZIndex (config s) + 1))
      (cards (config s)).
Proof.
  unfold bringCardToFront. destruct (find _ _) eqn:F; simpl; auto.
  now rewrite update_first_none.
Qed.

(** X3: a whole drag gesture (press on a card, any moves, release)
    touches one card only.  The ids of the store and their order are as
    before, the record of every card with another id is as before, the
    drag session is idle again and the store was saved exactly once. *)
Theorem drag_touches_one_card
        (s : state) (e : press) (card : element) (moves : list (Q * Q)) (now : Z) :
  on_remove_button e = false ->
  find (is_node (currentTarget e)) (elements s) = Some card ->
  let s' := run s (Mousedown e :: map (fun m => Mousemove (fst m) (snd m)) moves
                   ++ [Mouseup now]) in
  map id (cards (config s')) = map id (cards (config s)) /\
  (forall other, other <> elem_id card ->
                 find (has_id other) (cards (config s'))
                 = find (has_id other) (cards (config s))) /\
  drag s' = idle /\
  writes s' = S (writes s).
Proof.
  intros Hb Hf s'.
  assert (E : s' = stopDrag now (run (startDrag e s)
                                   (map (fun m => Mousemove (fst m) (snd m)) moves))).
  { unfold s', Layered.run. simpl fold_left. now rewrite fold_left_app. }
  pose proof (gesture_dragging e s card moves Hb Hf) as D.
  set (s1 := run (startDrag e s) _) in *.
  assert (W : writes s1 = writes s).
  { unfold s1. now rewrite moves_writes, startDrag_writes. }
  destruct (stopDrag_dragging _ _ _ _ now s1 D) as (p & C & _ & I & Wr).
  rewrite E. rewrite C, bringCardToFront_cards.
  split; [|split; [|split]].
  - rewrite !map_update_first; auto.
  - intros other Hne.
    rewrite !find_update_first_other; auto;
      intros a Ha; eapply has_id_other; eauto.
  - exact I.
  - now rewrite Wr, W.
Qed.

(** X4: adding a card and removing it again gives back the cards the
    store held, provided the id made from the clock was not in the store;
    the layer counter does not come back (it stays one higher), and the
    store was saved twice. *)
Theorem add_then_remove_restores (s : state) (d : dialog) (now : Z) :
  declined (title_answer d) = false ->
  declined (content_answer d) = false ->
  ~ In (stamp_id (now_id d)) (ids s) ->
  let s' := removeCard (stamp_id (now_id d)) now (showAddCardDialog d s) in
  cards (config s') = cards (config s) /\
  maxZIndex (config s') = (maxZIndex (config s) + 1)%Z /\
  writes s' = S (S (writes s)).
Proof.
  intros Ht Hc Hn s'. subst s'.
  unfold Layered.removeCard, Layered.showAddCardDialog. rewrite Ht, Hc. simpl.
  split; [|split; reflexivity].
  set (c := {| id := _ |}).
  assert (F : forallb (fun b => negb (has_id (stamp_id (now_id d)) b))
                (cards (config s)) = true).
  { apply forallb_forall. intros b Hb. apply negb_true_iff.
    unfold has_id. apply String.eqb_neq. intro E. apply Hn.
    rewrite <- E. unfold ids. now apply in_map. }
  rewrite (remove_first_split _ (cards (config s)) [] c); auto using app_nil_r.
  unfold has_id, c. simpl. apply String.eqb_refl.
Qed.

(** X5: when the id made from the clock is already the id of a card [c]
    of the store, the new card is appended all the same, with the same
    id, and removing that id afterwards takes the older card [c] and
    leaves the new one: [findIndex] stops at the first match. *)
Theorem remove_after_clash_takes_older_card
        (s : state) (d : dialog) (now : Z) (pre post : list card) (c : card) :
  declined (title_answer d) = false ->
  declined (content_answer d) = false ->
  cards (config s) = (pre ++ c :: post)%list ->
  has_id (stamp_id (now_id d)) c = true ->
  forallb (fun b => negb (has_id (stamp_id (now_id d)) b)) pre = true ->
  let s1 := showAddCardDialog d s in
  let s' := removeCard (stamp_id (now_id d)) now s1 in
  exists added,
    cards (config s1) = (pre ++ c :: post ++ [added])%list /\
    id added = id c /\
    zIndex added = (maxZIndex (config s) + 1)%Z /\
    cards (config s') = (pre ++ post ++ [added])%list.
Proof.
  intros Ht Hc E Hid Hpre s1 s'. subst s1 s'.
  unfold Layered.removeCard, Layered.showAddCardDialog. rewrite Ht, Hc. simpl.
  eexists. rewrite E, <- app_assoc. simpl app.
  split; [reflexivity|]. split; [|split; [reflexivity|]].
  - simpl. unfold has_id in Hid. apply String.eqb_eq in Hid. now rewrite Hid.
  - now rewrite remove_first_split.
Qed.

(** ** Where a new card lands *)

Lemma getRandomPosition_bounds (r1 r2 w h : Q) :
  0 <= r1 -> r1 < 1 -> 0 <= r2 -> r2 < 1 -> 300 <= w -> 400 <= h ->
  within 0 (w - 300) (x (getRandomPosition r1 r2 w h)) /\
  within 50 (h - 350) (y (getRandomPosition r1 r2 w h)).
Proof.
  intros. unfold getRandomPosition, within. simpl. repeat split; nra.
Qed.

(** X6: with both prompts answered, random numbers at least 0 and below 1 and a window
    of at least 300 by 400 pixels, the new card is appended to the store
    with the id made from the clock, its element is appended to the
    document and shows the card's id, position and layer, the position
    has x between 0 and [innerWidth - 300] and y between 50 and
    [innerHeight - 350], and the store with the new card is saved. *)
Theorem added_card_lands_in_window (s : state) (d : dialog) :
  declined (title_answer d) = false ->
  declined (content_answer d) = false ->
  0 <= random_x d -> random_x d < 1 ->
  0 <= random_y d -> random_y d < 1 ->
  300 <= innerWidth d -> 400 <= innerHeight d ->
  let s' := showAddCardDialog d s in
  exists added e,
    cards (config s') = (cards (config s) ++ [added])%list /\
    elements s' = (elements s ++ [e])%list /\
    view_of e = rendering added /\ attached e = true /\
    id added = stamp_id (now_id d) /\
    within 0 (innerWidth d - 300) (x (position added)) /\
    within 50 (innerHeight d - 350) (y (position added)) /\
    storage s' = Some (JSON_stringify (workspaceData (config s') (now_save d))).
Proof.
  intros Ht Hc X0 X1 Y0 Y1 W H s'. subst s'.
  unfold Layered.showAddCardDialog. rewrite Ht, Hc. simpl.
  eexists. eexists. split; [reflexivity|]. split; [reflexivity|].
  split; [reflexivity|]. split; [reflexivity|]. split; [reflexivity|].
  destruct (getRandomPosition_bounds _ _ _ _ X0 X1 Y0 Y1 W H) as [Bx By].
  split; [exact Bx|]. split; [exact By|reflexivity].
Qed.

(** ** The document after a load *)

Lemma createCards_elements (l : list card) (s : state) :
  exists l',
    elements (fold_left (fun acc c => createCard c acc) l s) = (elements s ++ l')%list /\
    map view_of l' = map rendering l /\
    forallb attached l' = true /\
    config (fold_left (fun acc c => createCard c acc) l s) = config s.
Proof.
  revert s. induction l as [|c r IH]; intro s; simpl.
  - exists []. now rewrite app_nil_r.
  - destruct (IH (createCard c s)) as (l' & E & V & A & C).
    eexists (_ :: l'). rewrite E, C. simpl. rewrite <- app_assoc. simpl.
    split; [reflexivity|]. split; [|split; [exact A|reflexivity]].
    now rewrite V.
Qed.

Lemma info_cards_attached (l : list element) :
  forallb attached l = true -> info_cards l = l.
Proof.
  unfold info_cards. induction l as [|e r IH]; simpl; auto.
  intro H. apply andb_prop in H as [He Hr]. now rewrite He, IH.
Qed.


Lemma createAllCards_view (s : state) :
  map view_of (info_cards (elements (createAllCards s)))
  = (map view_of (info_cards (elements s)) ++ map rendering (cards (config s)))%list /\
  config (createAllCards s) = config s.
Proof.
  unfold createAllCards.
  destruct (createCards_elements (cards (config s)) s) as (l' & E & V & A & C).
  rewrite E, C. split; [|reflexivity].
  unfold info_cards. rewrite filter_app, map_app. f_equal.
  change (filter attached l') with (info_cards l').
  now rewrite info_cards_attached.
Qed.



Lemma createAllCards_drag (s : state) : drag (createAllCards s) = drag s.
Proof.
  unfold createAllCards. generalize (cards (config s)) as l. intro l.
  revert s. induction l as [|c r IH]; intro s; simpl; auto.
  now rewrite IH.
Qed.

(** ** Save, then load *)






(** ** Reset *)

Lemma reset_cards_in_window (draw : nat -> Q * Q) (w h : Q) :
  (forall i, (i < 4)%nat ->
             0 <= fst (draw i) /\ fst (draw i) < 1 /\
             0 <= snd (draw i) /\ snd (draw i) < 1) ->
  300 <= w -> 400 <= h ->
  Forall (fun c => within 0 (w - 300) (x (position c)) /\
                   within 50 (h - 350) (y (position c)))
         (reset_cards draw w h).
Proof.
  intros Hd Hw Hh. unfold reset_cards. rewrite Forall_map.
  apply Forall_forall. intros i Hi. apply in_seq in Hi.
  destruct (Hd i) as (A & B & C & D); [lia|].
  exact (getRandomPosition_bounds _ _ _ _ A B C D Hw Hh).
Qed.

(** X9: a declined reset changes nothing; when the timer of a confirmed
    reset fires, the store holds the four default cards (ids, titles and
    contents) on the layers 1 to 4 with the counter at 4, every position
    drawn inside the window (x between 0 and [w - 300], y between 50 and
    [h - 350], for random numbers at least 0 and below 1 and a window of at least 300
    by 400), the drag session is untouched, the four renderings are
    appended to what the document showed, and the store is saved. *)
Theorem reset_restores_the_default_cards
        (s : state) (draw : nat -> Q * Q) (w h : Q) (now : Z) :
  (forall i, (i < 4)%nat ->
             0 <= fst (draw i) /\ fst (draw i) < 1 /\
             0 <= snd (draw i) /\ snd (draw i) < 1) ->
  300 <= w -> 400 <= h ->
  let s' := reset_timer draw w h now s in
  resetWorkspace false s = s /\
  map id (cards (config s')) = map id default_cards /\
  map title (cards (config s')) = map title default_cards /\
  map content (cards (config s')) = map content default_cards /\
  map zIndex (cards (config s')) = [1; 2; 3; 4]%Z /\
  maxZIndex (config s') = 4%Z /\
  layers_bounded s' /\
  Forall (fun c => within 0 (w - 300) (x (position c)) /\
                   within 50 (h - 350) (y (position c)))
         (cards (config s')) /\
  drag s' = drag s /\
  map view_of (info_cards (elements s'))
  = (map view_of (info_cards (elements s)) ++ map rendering (cards (config s')))%list /\
  storage s' = Some (JSON_stringify (workspaceData (config s') now)).
Proof.
  intros Hd Hw Hh s'.
  assert (C : config s' = {| cards := reset_cards draw w h; maxZIndex := 4 |}).
  { unfold s', Layered.reset_timer, Layered.saveToStorage. cbn [config].
    now rewrite createAllCards_config. }
  split; [reflexivity|]. rewrite C. simpl cards. simpl maxZIndex.
  split; [reflexivity|]. split; [reflexivity|]. split; [reflexivity|].
  split; [reflexivity|]. split; [reflexivity|].
  split.
  { unfold layers_bounded. rewrite C. simpl. repeat constructor; simpl; lia. }
  split; [now apply reset_cards_in_window|].
  split.
  { unfold s', Layered.reset_timer, Layered.saveToStorage. cbn [drag].
    now rewrite createAllCards_drag. }
  split.
  { unfold s', Layered.reset_timer, Layered.saveToStorage. cbn [elements].
    destruct (createAllCards_view
                (with_config s {| cards := reset_cards draw w h; maxZIndex := 4 |}))
      as [V _]. exact V. }
  rewrite <- C. reflexivity.
Qed.

(** ** A card removed while it is dragged *)

(** X10: a card removed while it is dragged is not brought back by the
    release.  After press, moves, the removal of the dragged card and
    the release, the id is not in the store, the store holds what was
    there after the press without that card, and the drag session is
    idle: [updateCardPosition] finds no record and writes none. *)
Theorem removed_card_is_not_brought_back
        (s : state) (e : press) (card : element) (moves : list (Q * Q))
        (t now : Z) :
  on_remove_button e = false ->
  find (is_node (currentTarget e)) (elements s) = Some card ->
  NoDup (ids s) ->
  let s' := run s (Mousedown e :: map (fun m => Mousemove (fst m) (snd m)) moves
                   ++ [RemoveClick (elem_id card) t; Mouseup now]) in
  ~ In (elem_id card) (ids s') /\
  cards (config s')
  = remove_first (has_id (elem_id card))
      (cards (config (bringCardToFront (elem_id card) s))) /\
  drag s' = idle.
Proof.
  intros Hb Hf Hn s'.
  pose proof (gesture_dragging e s card moves Hb Hf) as D.
  set (s1 := run (startDrag e s) _) in *.
  assert (E : s' = stopDrag now (removeCard (elem_id card) t s1)).
  { unfold s', s1, Layered.run. simpl fold_left. now rewrite fold_left_app. }
  destruct D as (Hd & Hc & e1 & He1 & Hid).
  assert (N : NoDup (map id (cards (config (bringCardToFront (elem_id card) s))))).
  { change (NoDup (ids (bringCardToFront (elem_id card) s))).
    now rewrite bringCardToFront_ids. }
  pose proof (find_remove_first_none _ (elem_id card) N) as F.
  assert (C : cards (config s')
              = remove_first (has_id (elem_id card))
                  (cards (config (bringCardToFront (elem_id card) s)))).
  { rewrite E. unfold Layered.stopDrag, Layered.removeCard. cbn [drag config elements
      Layered.saveToStorage]. unfold Layered.saveToStorage. cbn [drag elements config].
    rewrite Hd. cbn [isDragging draggedCard]. rewrite He1.
    unfold updateCardPosition. cbn [config with_config with_drag cards
      Layered.saveToStorage]. unfold Layered.saveToStorage, with_drag, with_config.
    cbn [config cards]. rewrite Hid, Hc.
    now apply update_first_none. }
  split; [|split].
  - unfold ids. rewrite C. now apply find_none_not_in.
  - exact C.
  - rewrite E. unfold Layered.stopDrag, Layered.removeCard, Layered.saveToStorage.
    cbn [drag elements]. rewrite Hd. cbn [isDragging draggedCard]. rewrite He1.
    reflexivity.
Qed.

(** ** The removal timer *)




End Platform.

End LayeredMore.

(* ================================================================== *)
(** * The free-form variant: release and the pending animation frame *)
(* ================================================================== *)

Module FreeformMore.
Import Js JsFacts Arrays ArraysFacts Freeform FreeformFacts.

Local Open Scope string_scope.

Section Platform.

Variable JSON_stringify : json -> string.

Local Abbreviation stopDragging := (stopDragging JSON_stringify).

(** X12: in the free-form variant the move handler hands the style update
    to [requestAnimationFrame] and the release reads [style.left] and
    [style.top] at once.  After a release that comes before the frame,
    the record found under the card's id holds the position the element
    showed before the move, cut to whole numbers, and the store is saved
    with it; the frame then moves the element to the pointer minus the
    press offset and leaves the store alone, so the document and the
    store differ.  After a release that comes after the frame, the
    record holds the pointer minus the press offset (computed in
    doubles), cut to whole numbers.  The coordinates concerned are such
    as the platform prints in positional notation, below [2^53]. *)
Theorem release_stores_last_painted_position
        (n : nat) (e : element) (c : card) (ox oy qx qy cx cy : Q) (now : Z)
        (s : state) :
  isDragging (drag s) = true ->
  draggedCard (drag s) = Some n ->
  offset (drag s) = {| x := Fin ox; y := Fin oy |} ->
  frames s = [] ->
  find (is_node n) (elements s) = Some e ->
  find (has_id (elem_id e)) (cardData s) = Some c ->
  shows e qx qy ->
  plain (double qx) -> plain (double qy) ->
  plain (minus cx ox) -> plain (minus cy oy) ->
  let early := stopDragging now (handleMouseMovement cx cy s) in
  let late := stopDragging now (animation_frame (handleMouseMovement cx cy s)) in
  ((exists c1, find (has_id (elem_id e)) (cardData early) = Some c1 /\
               freePosition c1 = {| x := of_Z (trunc (double qx));
                                    y := of_Z (trunc (double qy)) |} /\
               id c1 = id c /\ title c1 = title c /\ content c1 = content c) /\
   storage early = Some (JSON_stringify (workspaceData (cardData early) now)) /\
   cardData (animation_frame early) = cardData early /\
   storage (animation_frame early) = storage early /\
   exists e', find (is_node n) (elements (animation_frame early)) = Some e' /\
              elem_id e' = elem_id e /\ shows e' (minus cx ox) (minus cy oy)) /\
  ((exists c2, find (has_id (elem_id e)) (cardData late) = Some c2 /\
               freePosition c2 = {| x := of_Z (trunc (minus cx ox));
                                    y := of_Z (trunc (minus cy oy)) |} /\
               id c2 = id c /\ title c2 = title c /\ content c2 = content c) /\
   storage late = Some (JSON_stringify (workspaceData (cardData late) now)) /\
   frames late = []).
Proof.
  intros Hd Hn Ho Hf He Hc Hs Pqx Pqy Pcx Pcy early late.
  assert (Hm : handleMouseMovement cx cy s
               = {| cardData := cardData s; drag := drag s; elements := elements s;
                    frames := [(n, (Fin (minus cx ox), Fin (minus cy oy)))];
                    storage := storage s; writes := writes s |}).
  { unfold handleMouseMovement. rewrite Hd, Hn, Ho, Hf. reflexivity. }
  assert (Hin : is_node n e = true) by (apply find_some in He; apply He).
  assert (Hid : has_id (elem_id e) c = true) by (apply find_some in Hc; apply Hc).
  split.
  - assert (E : cardData early
                = update_first (has_id (elem_id e))
                    (set_freePosition {| x := of_Z (trunc (double qx));
                                         y := of_Z (trunc (double qy)) |})
                    (cardData s) /\
                storage early = Some (JSON_stringify (workspaceData (cardData early) now)) /\
                frames early = [(n, (Fin (minus cx ox), Fin (minus cy oy)))] /\
                elements early
                = update_first (is_node n) (set_style_zIndex "auto") (elements s)).
    { unfold early, Freeform.stopDragging. rewrite Hm. cbn [drag elements].
      rewrite Hd, Hn, He. destruct Hs as (Hl & Ht).
      unfold updateCardDataPosition, saveToLocalStorage, cleanupAfterDrag.
      cbn [cardData storage frames elements].
      rewrite Hl, Ht, !parseInt_toString_px by assumption.
      split; [reflexivity|]. split; [reflexivity|]. split; reflexivity. }
    destruct E as (Ec & Est & Efr & Eel).
    split.
    { eexists. split.
      - rewrite Ec. apply (find_update_first _ _ _ c Hc). exact Hid.
      - cbn [freePosition id title content set_freePosition].
        split; [reflexivity|]. split; [reflexivity|]. split; reflexivity. }
    split; [exact Est|]. split; [reflexivity|]. split; [reflexivity|].
    unfold animation_frame. cbn [elements]. rewrite Efr, Eel. cbn [fold_left fst snd].
    eexists. split.
    + apply find_update_first;
        [apply (find_update_first (is_node n) (set_style_zIndex "auto") _ e He Hin)
        |exact Hin].
    + split; [reflexivity|split; reflexivity].
  - destruct (frame_shows n e ox oy cx cy s Hd Hn Ho Hf He) as (e' & He' & Hid' & Hl & Ht).
    assert (Hdr : drag (animation_frame (handleMouseMovement cx cy s)) = drag s).
    { rewrite Hm. reflexivity. }
    pose proof (stopDragging_reads JSON_stringify n e' now
                  (animation_frame (handleMouseMovement cx cy s))) as P.
    rewrite Hdr in P. specialize (P Hd Hn He'). cbv zeta in P.
    destruct P as (Pc & _ & Ps & _).
    rewrite <- Pc in Ps.
    assert (Hcd : cardData (animation_frame (handleMouseMovement cx cy s)) = cardData s).
    { rewrite Hm. reflexivity. }
    rewrite Hcd, Hid', Hl, Ht, !parseInt_toString_minus in Pc by assumption.
    split.
    { eexists. split.
      - unfold late. rewrite Pc. apply (find_update_first _ _ _ c Hc). exact Hid.
      - cbn [freePosition id title content set_freePosition].
        split; [reflexivity|]. split; [reflexivity|]. split; reflexivity. }
    split; [exact Ps|].
    unfold late, Freeform.stopDragging. rewrite Hdr, Hd, Hn, He'. reflexivity.
Qed.

End Platform.

End FreeformMore.

(* ================================================================== *)
(** * The grid variant: drops, new cards and the occupancy of the cells *)
(* ================================================================== *)

Module GridMore.
Import Js JsFacts Arrays ArraysFacts ArraysMore Grid GridFacts.

Local Open Scope string_scope.

Local Abbreviation no n := (forallb (fun e => negb (is_node n e))).

(** ** The dragged card between press and release *)

Lemma startDragging_holds (e : press) (s : state) (el : element) :
  find (is_node (currentTarget e)) (elements s) = Some el ->
  NoDup (map node (elements s)) ->
  exists rest,
    held_at (currentTarget e) (elem_id el) rest s (startDragging e s)
            (minus (clientX e) (rect_left e)) (minus (clientY e) (rect_top e))
            (rect_left e) (rect_top e).
Proof.
  intros Hf Hn. unfold startDragging. rewrite Hf.
  destruct (find_split _ _ _ Hf) as (pre & post & E & Hel & Hpre).
  assert (En : node el = currentTarget e) by now apply Nat.eqb_eq in Hel.
  assert (Hpost : no (currentTarget e) post = true).
  { rewrite E in Hn. apply nodup_nodes_split in Hn as [_ Hn]. now rewrite En in Hn. }
  assert (Hrest : no (currentTarget e) (pre ++ post) = true)
    by now apply forallb_app_true.
  exists (pre ++ post)%list. rewrite En.
  unfold held_at, convertCardToFreePosition.
  cbn [drag cardData cells elements with_elements with_drag
       isDragging draggedCard offset].
  rewrite E, (update_first_split _ _ pre post el Hel Hpre).
  rewrite appendChild_at by (auto).
  rewrite update_last by auto.
  repeat split; auto.
  eexists. split; [reflexivity|]. repeat split; auto.
Qed.

Lemma handleMouseMovement_holds (n : nat) (cardId : string) (rest : list element)
      (before s : state) (ox oy qx qy cx cy : Q) :
  held_at n cardId rest before s ox oy qx qy ->
  held_at n cardId rest before (handleMouseMovement cx cy s) ox oy
          (minus cx ox) (minus cy oy).
Proof.
  intros (Hd & Hn & Ho & Hc & Hcs & Hr & d & E & Hnd & Hid & Hp & Hfree & Hs).
  unfold handleMouseMovement. rewrite Hd, Hn, Ho.
  unfold held_at. cbn [drag cardData cells elements with_elements x y sub].
  rewrite E, update_last by auto.
  repeat split; auto.
  eexists. split; [reflexivity|]. repeat split; auto.
Qed.

Lemma moves_hold (n : nat) (cardId : string) (rest : list element)
      (before : state) (ox oy : Q) (moves : list (Q * Q)) :
  forall (s : state) (qx qy : Q),
    held_at n cardId rest before s ox oy qx qy ->
    let p := fold_left (fun _ m => (minus (fst m) ox, minus (snd m) oy))
                       moves (qx, qy) in
    held_at n cardId rest before
            (run s (map (fun m => Mousemove (fst m) (snd m)) moves))
            ox oy (fst p) (snd p).
Proof.
  induction moves as [|m r IH]; intros s qx qy H; [exact H|].
  simpl.
  apply (IH (handleMouseMovement (fst m) (snd m) s)
            (minus (fst m) ox) (minus (snd m) oy)).
  now apply (handleMouseMovement_holds _ _ _ _ _ _ _ qx qy).
Qed.

(** The release of a held card where no cell lies under the pointer. *)
Lemma release_outside (n : nat) (cardId : string) (rest : list element)
      (before s : state) (ox oy qx qy ux uy : Q) :
  held_at n cardId rest before s ox oy qx qy ->
  findGridCellUnderMouse ux uy s = None ->
  cardData (stopDragging ux uy s)
  = update_first (has_id cardId)
      (set_placement null
         (object {| x := parseInt (toString (Fin qx) ++ "px");
                    y := parseInt (toString (Fin qy) ++ "px") |}))
      (cardData before) /\
  drag (stopDragging ux uy s) = idle /\
  cells (stopDragging ux uy s) = cells before /\
  exists d, elements (stopDragging ux uy s) = (rest ++ [d])%list /\
            is_node n d = true /\ elem_id d = cardId /\ parent d = Body /\
            free_position d = true /\ dragging d = false /\ shows d qx qy.
Proof.
  intros (Hd & Hn & Ho & Hc & Hcs & Hr & d & E & Hnd & Hid & Hp & Hfree & Hl & Ht)
         Hout.
  unfold stopDragging. rewrite Hd, Hn, Hout.
  unfold finalizeCardFreePosition. rewrite E, find_last by auto.
  rewrite update_last by auto.
  unfold updateCardDataPosition, cleanupAfterDrag.
  cbn [drag cardData cells elements with_elements with_cardData].
  rewrite Hn, Hc, Hid, Hcs, Hl, Ht.
  rewrite update_last by auto.
  repeat split; auto.
  eexists. split; [reflexivity|]. repeat split; auto.
Qed.

(** The release of a lifted card over a cell in which no card rests. *)
Lemma release_on_free_cell (n : nat) (cardId : string) (k : nat)
      (rest : list element) (before s : state) (cell : grid_cell) (cx cy : Q) :
  lifted n cardId k rest before s ->
  nth_error (cells before) k = Some cell ->
  findGridCellUnderMouse cx cy s = Some k ->
  cardData (stopDragging cx cy s)
  = update_first (has_id cardId)
      (set_placement (object {| row := parseInt_opt (cell_row cell);
                                col := parseInt_opt (cell_col cell) |}) null)
      (cardData before) /\
  drag (stopDragging cx cy s) = idle /\
  exists d, elements (stopDragging cx cy s) = (rest ++ [d])%list /\
            is_node n d = true /\ elem_id d = cardId /\ parent d = Cell k /\
            free_position d = false /\ dragging d = false /\
            left d = "" /\ top d = "" /\
            data_row d = Some (stored (cell_row cell)) /\
            data_col d = Some (stored (cell_col cell)).
Proof.
  intros (Hd & Hn & Ho & Hc & Hcs & Hr & Hk & d & E & Hnd & Hid & Hp) Hcell Hdrop.
  assert (R : resting_card k (elements s) = None).
  { rewrite E. now apply resting_none. }
  unfold stopDragging. rewrite Hd, Hn, Hdrop.
  unfold snapCardToGrid. rewrite R.
  unfold moveCardToGridCell. rewrite E, find_last by auto.
  rewrite update_last, appendChild_last by auto.
  unfold updateCardDataPosition, cleanupAfterDrag.
  cbn [drag cardData cells elements with_elements with_cardData].
  rewrite Hn, Hc, Hid, Hcs. simpl dataset_row. simpl dataset_col. rewrite Hcell.
  rewrite update_last by auto.
  repeat split; auto.
  eexists. split; [reflexivity|]. repeat split; auto.
Qed.

Lemma gesture_release (s : state) (e : press) (moves : list (Q * Q)) (cx cy : Q) :
  run s (Mousedown e :: map (fun m => Mousemove (fst m) (snd m)) moves
         ++ [Mouseup cx cy])
  = stopDragging cx cy
      (run (startDragging e s) (map (fun m => Mousemove (fst m) (snd m)) moves)).
Proof. unfold run. simpl fold_left. now rewrite fold_left_app. Qed.

(** X13: grid variant: a card (free or resting in another cell) that is
    pressed, moved and released over a cell in which no other card rests
    ends up in that cell.  Its record gets the grid position parsed from
    the cell's [data-row] and [data-col] and a [null] free position, the
    record of every card with another id is as before, the drag session
    is idle, and the element rests in the cell, without the classes
    [free-position] and [dragging], with empty [left] and [top] and the
    cell's attributes in its dataset. *)
Theorem drop_on_free_cell_places_card
        (s : state) (e : press) (el : element) (k : nat) (cell : grid_cell)
        (moves : list (Q * Q)) (cx cy : Q) :
  find (is_node (currentTarget e)) (elements s) = Some el ->
  NoDup (map node (elements s)) ->
  (forall e', In e' (elements s) -> child_of (Cell k) e' = true -> e' = el) ->
  nth_error (cells s) k = Some cell ->
  findGridCellUnderMouse cx cy s = Some k ->
  let s' := run s (Mousedown e :: map (fun m => Mousemove (fst m) (snd m)) moves
                   ++ [Mouseup cx cy]) in
  cardData s'
  = update_first (has_id (elem_id el))
      (set_placement (object {| row := parseInt_opt (cell_row cell);
                                col := parseInt_opt (cell_col cell) |}) null)
      (cardData s) /\
  (forall other, other <> elem_id el ->
                 placement_of other s' = placement_of other s) /\
  drag s' = idle /\
  exists d, resting_card k (elements s') = Some d /\
            node d = currentTarget e /\ elem_id d = elem_id el /\
            free_position d = false /\ dragging d = false /\
            left d = "" /\ top d = "" /\
            data_row d = Some (stored (cell_row cell)) /\
            data_col d = Some (stored (cell_col cell)).
Proof.
  intros Hf Hn Hk Hcell Hdrop s'.
  destruct (startDragging_lifts e s el k Hf Hn Hk) as (rest & L).
  apply (moves_lifted _ _ _ _ _ moves) in L.
  assert (Hdrop' : findGridCellUnderMouse cx cy
                     (run (startDragging e s)
                          (map (fun m => Mousemove (fst m) (snd m)) moves)) = Some k).
  { destruct L as (_ & _ & _ & _ & Hcs & _).
    unfold findGridCellUnderMouse in *. now rewrite Hcs. }
  pose proof L as (_ & _ & _ & _ & _ & _ & Hfree & _).
  destruct (release_on_free_cell _ _ _ _ _ _ cell cx cy L Hcell Hdrop')
    as (C & D & d & E & Hd1 & Hd2 & Hd3 & Hd4 & Hd5 & Hd6 & Hd7 & Hd8 & Hd9).
  unfold s'. rewrite gesture_release.
  split; [exact C|]. split.
  { intros other Hne. unfold placement_of. rewrite C.
    rewrite find_update_first_other; auto.
    intros a Ha. apply (has_id_exclusive (elem_id el) other); auto. }
  split; [exact D|].
  exists d. split.
  { unfold resting_card. rewrite E, find_skip.
    - simpl. unfold child_of. rewrite Hd3, Hd5. simpl. now rewrite Nat.eqb_refl.
    - rewrite forallb_forall in Hfree. apply forallb_forall. intros x Hx.
      apply Hfree in Hx. apply negb_true_iff in Hx. now rewrite Hx. }
  unfold is_node in Hd1. apply Nat.eqb_eq in Hd1.
  repeat split; auto.
Qed.

(** X14: grid variant: a card that is pressed, moved and released where
    no cell lies under the pointer becomes a free card.  The record found
    under its id gets a [null] grid position and, as free position, what
    the element shows cut to whole numbers: the pointer of the last move
    minus the press offset (computed in doubles), or the corner of its
    box at press time when there was no move; the point of release plays
    no part.  The shown coordinates are such as the platform prints in
    positional notation, below [2^53].  The record of every card with
    another id is as before, the drag session is idle and the element
    hangs under the body, free-positioned and not dragging. *)
Theorem drop_outside_grid_stores_shown_position
        (s : state) (e : press) (el : element) (c : card) (moves : list (Q * Q))
        (ux uy : Q) :
  find (is_node (currentTarget e)) (elements s) = Some el ->
  find (has_id (elem_id el)) (cardData s) = Some c ->
  NoDup (map node (elements s)) ->
  findGridCellUnderMouse ux uy s = None ->
  plain (double (fst (last_shown e moves))) ->
  plain (double (snd (last_shown e moves))) ->
  let s' := run s (Mousedown e :: map (fun m => Mousemove (fst m) (snd m)) moves
                   ++ [Mouseup ux uy]) in
  let p := last_shown e moves in
  (exists c', find (has_id (elem_id el)) (cardData s') = Some c' /\
              position c' = null /\
              freePosition c' = object {| x := of_Z (trunc (double (fst p)));
                                          y := of_Z (trunc (double (snd p))) |} /\
              id c' = id c /\ title c' = title c /\ content c' = content c /\
              type c' = type c) /\
  (forall other, other <> elem_id el ->
                 placement_of other s' = placement_of other s) /\
  drag s' = idle /\
  exists d, find (is_node (currentTarget e)) (elements s') = Some d /\
            elem_id d = elem_id el /\ parent d = Body /\
            free_position d = true /\ dragging d = false /\
            shows d (fst p) (snd p).
Proof.
  intros Hf Hc Hn Hout Px Py s' p.
  destruct (startDragging_holds e s el Hf Hn) as (rest & H).
  apply (moves_hold _ _ _ _ _ _ moves) in H. cbv zeta in H.
  change (fold_left _ moves (rect_left e, rect_top e)) with p in H.
  assert (Hout' : findGridCellUnderMouse ux uy
                    (run (startDragging e s)
                         (map (fun m => Mousemove (fst m) (snd m)) moves)) = None).
  { destruct H as (_ & _ & _ & _ & Hcs & _).
    unfold findGridCellUnderMouse in *. now rewrite Hcs. }
  pose proof H as (_ & _ & _ & _ & _ & Hrest & _).
  destruct (release_outside _ _ _ _ _ _ _ _ _ ux uy H Hout')
    as (C & D & _ & d & E & Hd1 & Hd2 & Hd3 & Hd4 & Hd5 & Hd6).
  fold p in Px, Py.
  rewrite (parseInt_toString_px (fst p) Px), (parseInt_toString_px (snd p) Py) in C.
  unfold s'. rewrite gesture_release.
  split.
  { eexists. split.
    - rewrite C. apply (find_update_first _ _ _ c Hc).
      apply find_some in Hc. apply Hc.
    - cbn [position freePosition id title content type set_placement].
      split; [reflexivity|]. split; [reflexivity|]. split; [reflexivity|].
      split; [reflexivity|]. split; reflexivity. }
  split.
  { intros other Hne. unfold placement_of. rewrite C.
    rewrite find_update_first_other; auto.
    intros a Ha. apply (has_id_exclusive (elem_id el) other); auto. }
  split; [exact D|].
  exists d. split; [rewrite E; now apply find_last|].
  split; [exact Hd2|]. split; [exact Hd3|]. split; [exact Hd4|].
  split; [exact Hd5|exact Hd6].
Qed.

(** ** Adding a card *)

(** X15: grid variant: when a prompt is declined or answered with the
    empty text nothing changes; otherwise, for random numbers at least 0 and below 1
    and a window of at least 300 by 200 pixels, a card with the id made
    from the clock, no grid position and a free position with x between
    0 and [innerWidth - 300] and y between 100 and [innerHeight - 100] is
    appended to the store, and its element, with a fresh handle, is
    appended under the body and shows that position. *)
Theorem added_card_is_free_and_in_window (d : dialog) (s : state) :
  (declined (title_answer d) = true \/ declined (content_answer d) = true ->
   showAddCardDialog d s = s) /\
  (declined (title_answer d) = false ->
   declined (content_answer d) = false ->
   0 <= random_x d -> random_x d < 1 ->
   0 <= random_y d -> random_y d < 1 ->
   300 <= innerWidth d -> 200 <= innerHeight d ->
   let s' := showAddCardDialog d s in
   exists (c : card) (e : element) (qx qy : Q),
     cardData s' = (cardData s ++ [c])%list /\
     elements s' = (elements s ++ [e])%list /\
     fresh s' = S (fresh s) /\ drag s' = drag s /\
     id c = "card-" ++ toString (of_Z (now_id d)) /\
     position c = null /\
     freePosition c = object {| x := Fin qx; y := Fin qy |} /\
     node e = fresh s /\ elem_id e = id c /\ parent e = Body /\
     free_position e = true /\ dragging e = false /\ shows e qx qy /\
     0 <= qx /\ qx <= innerWidth d - 300 /\
     100 <= qy /\ qy <= innerHeight d - 100).
Proof.
  split.
  - unfold showAddCardDialog. intros [H|H]; rewrite H; [reflexivity|].
    now destruct (declined (title_answer d)).
  - intros Ht Hc Hx0 Hx1 Hy0 Hy1 Hw Hh s'.
    unfold s', showAddCardDialog. rewrite Ht, Hc.
    eexists. eexists.
    exists (random_x d * (innerWidth d - 300)).
    exists (random_y d * (innerHeight d - 200) + 100).
    unfold createAndPlace, createSingleCard, positionCard.
    cbn [freePosition]. unfold positionCardFreely.
    cbn [with_elements with_cardData cardData elements fresh drag node elem_id
         left top x y].
    split; [reflexivity|]. split; [reflexivity|].
    split; [reflexivity|]. split; [reflexivity|].
    split; [reflexivity|]. split; [reflexivity|].
    split; [reflexivity|]. split; [reflexivity|].
    split; [reflexivity|]. split; [reflexivity|].
    split; [reflexivity|]. split; [reflexivity|].
    split; [split; reflexivity|].
    repeat split; nra.
Qed.

(** ** No cell holds two cards *)

Lemma in_update_node (n : nat) (f : element -> element) (l : list element)
      (x : element) :
  NoDup (map node l) ->
  In x (update_first (is_node n) f l) ->
  exists y, In y l /\ x = if is_node n y then f y else y.
Proof.
  induction l as [|a r IH]; simpl; [tauto|].
  intros Hn. inversion Hn as [|? ? Ha Hr]; subst.
  destruct (is_node n a) eqn:E; simpl.
  - intros [<-|Hx].
    + exists a. rewrite E. auto.
    + exists x. split; [auto|].
      destruct (is_node n x) eqn:Ex; auto.
      exfalso. apply Ha. unfold is_node in *. apply Nat.eqb_eq in E, Ex.
      rewrite E, <- Ex. now apply in_map.
  - intros [<-|Hx].
    + exists a. rewrite E. auto.
    + destruct (IH Hr Hx) as (y & Hy & Eq). exists y. auto.
Qed.

Lemma in_appendChild (p : container) (n : nat) (l : list element) (x : element) :
  NoDup (map node l) ->
  In x (appendChild p n l) ->
  exists y, In y l /\ x = if is_node n y then set_parent p y else y.
Proof.
  intros Hn. unfold appendChild. destruct (find (is_node n) l) as [e|] eqn:F.
  - destruct (find_split _ _ _ F) as (pre & post & E & He & Hpre).
    subst l. destruct (nodup_nodes_split _ _ _ Hn) as [_ Hpost].
    assert (En : node e = n) by now apply Nat.eqb_eq in He.
    rewrite En in Hpost.
    rewrite remove_first_split by auto.
    intro Hx. apply in_app_or in Hx as [Hx|[<-|[]]].
    + exists x. split.
      * apply in_app_or in Hx as [Hx|Hx]; apply in_or_app; [now left|right; now right].
      * assert (H : is_node n x = false); [|now rewrite H].
        apply negb_true_iff.
        apply in_app_or in Hx as [Hx|Hx];
          [rewrite forallb_forall in Hpre; now apply Hpre
          |rewrite forallb_forall in Hpost; now apply Hpost].
    + exists e. split; [apply in_or_app; right; now left|]. now rewrite He.
  - intro Hx. exists x. split; auto. now rewrite (find_none _ _ F x Hx).
Qed.

Lemma NoDup_appendChild (p : container) (n : nat) (l : list element) :
  NoDup (map node l) -> NoDup (map node (appendChild p n l)).
Proof.
  intros Hn. unfold appendChild. destruct (find (is_node n) l) as [e|] eqn:F; auto.
  destruct (find_split _ _ _ F) as (pre & post & E & He & Hpre). subst l.
  rewrite remove_first_split by auto.
  eapply Permutation_NoDup; [|exact Hn].
  rewrite !map_app. simpl. rewrite <- app_assoc.
  apply Permutation_app_head. apply Permutation_cons_append.
Qed.

Lemma is_node_float_at (n : nat) (e : press) (y : element) :
  is_node n (float_at e y) = is_node n y.
Proof. reflexivity. Qed.

Lemma is_node_set_parent (n : nat) (p : container) (y : element) :
  is_node n (set_parent p y) = is_node n y.
Proof. reflexivity. Qed.

Lemma is_node_set_dragging (n : nat) (b : bool) (y : element) :
  is_node n (set_dragging b y) = is_node n y.
Proof. reflexivity. Qed.

Lemma is_node_settle (n : nat) (r c : option string) (y : element) :
  is_node n (settle r c y) = is_node n y.
Proof. reflexivity. Qed.

Ltac same_node T :=
  repeat (progress (cbv iota;
                    rewrite ?is_node_float_at, ?is_node_set_parent,
                            ?is_node_set_dragging, ?is_node_settle, ?T)).

Lemma NoDup_update_node (p : element -> bool) (f : element -> element)
      (l : list element) :
  (forall a, node (f a) = node a) ->
  NoDup (map node l) -> NoDup (map node (update_first p f l)).
Proof. intros H Hn. now rewrite map_update_first. Qed.

(** A list whose members are the images under [G] of the members of a
    tidy list is tidy as soon as the images are. *)
Lemma tidy_image (bound bound' : nat) (l l' : list element) (G : element -> element) :
  tidy_elements bound l ->
  NoDup (map node l') ->
  (forall x, In x l' -> exists y, In y l /\ x = G y) ->
  (bound <= bound')%nat ->
  (forall y, node (G y) = node y) ->
  (forall y, In y l -> is_cell (parent (G y)) = true -> dragging (G y) = false) ->
  (forall y1 y2 k, In y1 l -> In y2 l ->
                   parent (G y1) = Cell k -> parent (G y2) = Cell k ->
                   node y1 = node y2) ->
  tidy_elements bound' l'.
Proof.
  intros (Hn & Hb & Hd & Ho) Hn' Him Hle Hnode Hdrag Hone.
  rewrite Forall_forall in Hb.
  split; [exact Hn'|]. split; [|split].
  - apply Forall_forall. intros x Hx. destruct (Him x Hx) as (y & Hy & ->).
    rewrite Hnode. apply Hb in Hy. lia.
  - apply Forall_forall. intros x Hx. destruct (Him x Hx) as (y & Hy & ->).
    now apply Hdrag.
  - intros a b k Ha Hb' Pa Pb.
    destruct (Him a Ha) as (y1 & Hy1 & ->). destruct (Him b Hb') as (y2 & Hy2 & ->).
    rewrite !Hnode. now apply (Hone y1 y2 k).
Qed.

Lemma tidy_elements_update (bound n : nat) (f : element -> element)
      (l : list element) :
  (forall a, node (f a) = node a /\ parent (f a) = parent a /\
             (dragging a = false -> dragging (f a) = false)) ->
  tidy_elements bound l ->
  tidy_elements bound (update_first (is_node n) f l).
Proof.
  intros Hf H. pose proof H as (Hn & Hb & Hd & Ho).
  rewrite Forall_forall in Hd.
  apply (tidy_image bound bound l _ (fun y => if is_node n y then f y else y)); auto.
  - apply NoDup_update_node; auto. intro a. apply Hf.
  - intros x Hx. now apply in_update_node.
  - intro y. destruct (is_node n y); auto. apply Hf.
  - intros y Hy. destruct (is_node n y).
    + destruct (Hf y) as (_ & -> & Hdr). intro C. apply Hdr. now apply Hd.
    + now apply Hd.
  - intros y1 y2 k H1 H2 P1 P2. apply (Ho y1 y2 k); auto.
    + destruct (is_node n y1); auto. destruct (Hf y1) as (_ & <- & _). auto.
    + destruct (is_node n y2); auto. destruct (Hf y2) as (_ & <- & _). auto.
Qed.

Lemma under_body_update (m n : nat) (f : element -> element) (l : list element) :
  (forall a, node (f a) = node a /\ parent (f a) = parent a) ->
  Forall (fun e => node e = m -> parent e = Body) l ->
  Forall (fun e => node e = m -> parent e = Body) (update_first (is_node n) f l).
Proof.
  intros Hf. apply Forall_update_first. intros a Ha.
  destruct (Hf a) as (-> & ->). exact Ha.
Qed.

Lemma handleMouseMovement_tidy (cx cy : Q) (s : state) :
  tidy s -> tidy (handleMouseMovement cx cy s).
Proof.
  intros H. unfold handleMouseMovement.
  destruct (isDragging (drag s)) eqn:D; [|exact H].
  destruct (draggedCard (drag s)) as [n|] eqn:N; [|exact H].
  destruct H as (He & Hd).
  split; cbn [with_elements elements fresh drag].
  - apply tidy_elements_update; auto.
  - intros D' m Hm. apply under_body_update; auto.
Qed.

Lemma show_position_tidy (cs : list grid_cell) (bound : nat) (c : card)
      (l : list element) :
  tidy_elements bound l -> tidy_elements bound (show_position cs l c).
Proof.
  intro H. unfold show_position. break_match; auto.
  apply tidy_elements_update; auto.
Qed.

Lemma show_position_under_body (cs : list grid_cell) (m : nat) (c : card)
      (l : list element) :
  Forall (fun e => node e = m -> parent e = Body) l ->
  Forall (fun e => node e = m -> parent e = Body) (show_position cs l c).
Proof.
  intro H. unfold show_position. break_match; auto.
  apply under_body_update; auto.
Qed.

Lemma handleWindowResize_tidy (w h : Q) (s : state) :
  tidy s -> tidy (handleWindowResize w h s).
Proof.
  intros (He & Hd). unfold handleWindowResize.
  split; cbn [elements fresh drag].
  - generalize (map (keep_in_bounds w h) (cardData s)) as moved.
    generalize dependent (elements s). intros l Hl _ moved. revert l Hl.
    induction moved as [|c r IH]; intros l Hl; simpl; auto.
    apply IH. now apply show_position_tidy.
  - intros D m Hm. specialize (Hd D m Hm).
    generalize (map (keep_in_bounds w h) (cardData s)) as moved.
    generalize dependent (elements s). intros l _ Hl moved. revert l Hl.
    induction moved as [|c r IH]; intros l Hl; simpl; auto.
    apply IH. now apply show_position_under_body.
Qed.

Lemma showAddCardDialog_tidy (d : dialog) (s : state) :
  tidy s -> tidy (showAddCardDialog d s).
Proof.
  intros (He & Hd). unfold showAddCardDialog.
  destruct (declined (title_answer d)); [now split|].
  destruct (declined (content_answer d)); [now split|].
  unfold createAndPlace, createSingleCard, positionCard.
  cbn [freePosition]. unfold positionCardFreely, with_elements, with_cardData.
  cbn [cardData elements fresh drag node elem_id left top x y dragging
       data_row data_col].
  destruct He as (Hn & Hb & Hdr & Ho).
  split; [split; [|split; [|split]]|];
    cbn [cardData elements fresh drag node elem_id left top x y dragging
         data_row data_col].
  - rewrite map_app. simpl.
    eapply Permutation_NoDup; [apply Permutation_cons_append|].
    constructor; auto. intro Hin. apply in_map_iff in Hin as (y & Ey & Hy).
    rewrite Forall_forall in Hb. apply Hb in Hy. lia.
  - apply Forall_app. split.
    + eapply Forall_impl; [|exact Hb]. simpl. intros; lia.
    + repeat constructor.
  - apply Forall_app. split; [exact Hdr|repeat constructor].
  - intros a b k Ha Hb' Pa Pb.
    apply in_app_or in Ha as [Ha|[<-|[]]]; [|discriminate Pa].
    apply in_app_or in Hb' as [Hb'|[<-|[]]]; [|discriminate Pb].
    now apply (Ho a b k).
  - intros D m Hm. apply Forall_app. split; [now apply Hd|].
    repeat constructor.
Qed.

Lemma startDragging_elements (e : press) (s : state) (card : element) :
  find (is_node (currentTarget e)) (elements s) = Some card ->
  elements (startDragging e s)
  = update_first (is_node (node card)) (set_dragging true)
      (appendChild Body (node card)
         (update_first (is_node (node card)) (float_at e) (elements s))) /\
  fresh (startDragging e s) = fresh s /\
  isDragging (drag (startDragging e s)) = true /\
  draggedCard (drag (startDragging e s)) = Some (node card).
Proof.
  intro Hf. unfold startDragging. rewrite Hf. repeat split; reflexivity.
Qed.

Lemma startDragging_tidy (e : press) (s : state) :
  tidy s -> tidy (startDragging e s).
Proof.
  intros (He & Hd).
  destruct (find (is_node (currentTarget e)) (elements s)) as [card|] eqn:Hf;
    [|unfold startDragging; rewrite Hf; now split].
  destruct (startDragging_elements e s card Hf) as (E & Fr & D & N).
  set (n := node card) in *.
  set (G := fun y => if is_node n y
                     then set_dragging true (set_parent Body (float_at e y))
                     else y).
  pose proof He as (Hn & Hb & Hdr & Ho).
  assert (N1 : NoDup (map node (update_first (is_node n) (float_at e) (elements s)))).
  { apply NoDup_update_node; auto. }
  assert (N2 : NoDup (map node (appendChild Body n
                 (update_first (is_node n) (float_at e) (elements s))))).
  { now apply NoDup_appendChild. }
  assert (Him : forall x, In x (elements (startDragging e s)) ->
                          exists y, In y (elements s) /\ x = G y).
  { intros x Hx. rewrite E in Hx.
    destruct (in_update_node _ _ _ _ N2 Hx) as (y1 & H1 & ->).
    destruct (in_appendChild _ _ _ _ N1 H1) as (y2 & H2 & ->).
    destruct (in_update_node _ _ _ _ Hn H2) as (y3 & H3 & ->).
    exists y3. split; auto. unfold G.
    destruct (is_node n y3) eqn:T; same_node T; reflexivity. }
  assert (Gnode : forall y, node (G y) = node y).
  { intro y. unfold G. now destruct (is_node n y). }
  rewrite Forall_forall in Hdr.
  split.
  - rewrite Fr.
    apply (tidy_image (fresh s) (fresh s) (elements s) _ G); auto.
    + rewrite E. apply NoDup_update_node; auto.
    + intros y Hy. unfold G. destruct (is_node n y); [discriminate|now apply Hdr].
    + intros y1 y2 k H1 H2. unfold G.
      destruct (is_node n y1); [discriminate|].
      destruct (is_node n y2); [discriminate|]. now apply Ho.
  - intros _ m Hm. rewrite N in Hm. injection Hm as <-.
    apply Forall_forall. intros x Hx Ex.
    destruct (Him x Hx) as (y & Hy & ->). rewrite Gnode in Ex.
    unfold G. unfold is_node at 1. rewrite Ex, Nat.eqb_refl. reflexivity.
Qed.

Lemma moveCardToGridCell_elements (n : nat) (t : container) (s : state) :
  elements (moveCardToGridCell n t s)
  = appendChild t n
      (update_first (is_node n)
         (settle (dataset_row (cells s) t) (dataset_col (cells s) t))
         (elements s)) /\
  fresh (moveCardToGridCell n t s) = fresh s /\
  drag (moveCardToGridCell n t s) = drag s.
Proof.
  unfold moveCardToGridCell.
  destruct (find (is_node n) (elements s)) as [card|] eqn:F.
  - repeat split; reflexivity.
  - rewrite update_first_none by exact F. unfold appendChild. rewrite F.
    repeat split; reflexivity.
Qed.

Lemma child_of_cell (k : nat) (e : element) :
  child_of (Cell k) e = true <-> parent e = Cell k.
Proof.
  unfold child_of, same_container. destruct (parent e) as [|j].
  - split; discriminate.
  - rewrite Nat.eqb_eq. split; congruence.
Qed.

Lemma find_own_handle (l : list element) (e : element) :
  NoDup (map node l) -> In e l -> find (is_node (node e)) l = Some e.
Proof.
  induction l as [|a r IH]; simpl; [tauto|].
  intros H [->|Hin].
  - unfold is_node. now rewrite Nat.eqb_refl.
  - inversion H as [|? ? Hn Hr]; subst.
    unfold is_node at 1. destruct (Nat.eqb_spec (node a) (node e)) as [Eq|Ne].
    + elim Hn. rewrite Eq. now apply in_map.
    + now apply IH.
Qed.

Lemma tidy_cleanup (s : state) :
  tidy_elements (fresh s)
    (match draggedCard (drag s) with
     | Some n => update_first (is_node n) (set_dragging false) (elements s)
     | None => elements s
     end) ->
  tidy (cleanupAfterDrag s).
Proof. intro H. split; [exact H|]. intro D. discriminate D. Qed.

Lemma release_outside_tidy (n : nat) (s : state) :
  tidy_elements (fresh s) (elements s) ->
  draggedCard (drag s) = Some n ->
  tidy (cleanupAfterDrag (finalizeCardFreePosition n s)).
Proof.
  intros He N. apply tidy_cleanup. unfold finalizeCardFreePosition.
  destruct (find (is_node n) (elements s)) as [card|].
  - unfold updateCardDataPosition. cbn [drag with_cardData with_elements elements fresh].
    rewrite N. apply tidy_elements_update; auto.
    apply tidy_elements_update; auto.
  - rewrite N. apply tidy_elements_update; auto.
Qed.

Lemma release_on_empty_cell_tidy (n k : nat) (s : state) :
  tidy_elements (fresh s) (elements s) ->
  draggedCard (drag s) = Some n ->
  resting_card k (elements s) = None ->
  tidy (cleanupAfterDrag (moveCardToGridCell n (Cell k) s)).
Proof.
  intros He N R. apply tidy_cleanup.
  destruct (moveCardToGridCell_elements n (Cell k) s) as (E & Fr & Dr).
  rewrite Dr, N, E, Fr.
  set (r := dataset_row (cells s) (Cell k)). set (c := dataset_col (cells s) (Cell k)).
  set (G := fun y => if is_node n y
                     then set_dragging false (set_parent (Cell k) (settle r c y))
                     else y).
  pose proof He as (Hn & Hb & Hdr & Ho).
  assert (N1 : NoDup (map node (update_first (is_node n) (settle r c) (elements s)))).
  { apply NoDup_update_node; auto. }
  assert (N2 : NoDup (map node (appendChild (Cell k) n
                 (update_first (is_node n) (settle r c) (elements s))))).
  { now apply NoDup_appendChild. }
  rewrite Forall_forall in Hdr.
  apply (tidy_image (fresh s) (fresh s) (elements s) _ G); auto.
  - apply NoDup_update_node; auto.
  - intros x Hx.
    destruct (in_update_node _ _ _ _ N2 Hx) as (y1 & H1 & ->).
    destruct (in_appendChild _ _ _ _ N1 H1) as (y2 & H2 & ->).
    destruct (in_update_node _ _ _ _ Hn H2) as (y3 & H3 & ->).
    exists y3. split; auto. unfold G.
    destruct (is_node n y3) eqn:T; same_node T; reflexivity.
  - intro y. unfold G. now destruct (is_node n y).
  - intros y Hy. unfold G. destruct (is_node n y); [reflexivity|now apply Hdr].
  - assert (Free : forall y, In y (elements s) -> parent y = Cell k -> False).
    { intros y Hy Py. pose proof (find_none _ _ R y Hy) as Hf. cbv beta in Hf.
      assert (Dy : dragging y = false) by (apply Hdr; [exact Hy|now rewrite Py]).
      apply child_of_cell in Py. rewrite Py, Dy in Hf. discriminate. }
    intros y1 y2 j H1 H2. unfold G.
    destruct (is_node n y1) eqn:T1, (is_node n y2) eqn:T2;
      cbn [parent set_dragging set_parent]; intros P1 P2.
    + unfold is_node in T1, T2. apply Nat.eqb_eq in T1, T2. congruence.
    + exfalso. apply (Free y2 H2). congruence.
    + exfalso. apply (Free y1 H1). congruence.
    + now apply (Ho y1 y2 j).
Qed.

Lemma release_on_taken_cell_tidy (n k : nat) (b : element) (s : state) :
  tidy_elements (fresh s) (elements s) ->
  draggedCard (drag s) = Some n ->
  Forall (fun e => node e = n -> parent e = Body) (elements s) ->
  resting_card k (elements s) = Some b ->
  swapCardPositions n (node b) s
  = moveCardToGridCell (node b) Body (moveCardToGridCell n (Cell k) s) /\
  tidy (cleanupAfterDrag (swapCardPositions n (node b) s)).
Proof.
  intros He N Hbody R.
  pose proof He as (Hn & Hb & Hdr & Ho).
  apply find_some in R as (Hin & Hc). apply andb_prop in Hc as (Hc & Hnd).
  apply child_of_cell in Hc.
  rewrite Forall_forall in Hbody, Hdr.
  assert (Hne : is_node n b = false).
  { unfold is_node. apply Nat.eqb_neq. intro Eq.
    rewrite (Hbody b Hin Eq) in Hc. discriminate. }
  assert (P2 : parentElement (node b) s = Cell k).
  { unfold parentElement. now rewrite (find_own_handle _ _ Hn Hin). }
  assert (P1 : parentElement n s = Body).
  { unfold parentElement. destruct (find (is_node n) (elements s)) as [a|] eqn:F; auto.
    apply find_some in F as (Ha & Hna). apply Hbody; auto.
    now apply Nat.eqb_eq in Hna. }
  assert (S : swapCardPositions n (node b) s
              = moveCardToGridCell (node b) Body (moveCardToGridCell n (Cell k) s)).
  { unfold swapCardPositions. now rewrite P1, P2. }
  split; [exact S|]. rewrite S. apply tidy_cleanup.
  set (s1 := moveCardToGridCell n (Cell k) s).
  destruct (moveCardToGridCell_elements n (Cell k) s) as (E1 & Fr1 & Dr1).
  destruct (moveCardToGridCell_elements (node b) Body s1) as (E2 & Fr2 & Dr2).
  fold s1 in E1, Fr1, Dr1.
  rewrite Dr2, Dr1, N, E2, Fr2, Fr1, E1.
  set (r1 := dataset_row (cells s) (Cell k)).
  set (c1 := dataset_col (cells s) (Cell k)).
  set (r2 := dataset_row (cells s1) Body).
  set (c2 := dataset_col (cells s1) Body).
  set (m := node b) in *.
  set (G := fun y => if is_node n y
                     then set_dragging false (set_parent (Cell k) (settle r1 c1 y))
                     else if is_node m y
                          then set_parent Body (settle r2 c2 y)
                          else y).
  set (l1 := update_first (is_node n) (settle r1 c1) (elements s)).
  set (l2 := appendChild (Cell k) n l1).
  set (l3 := update_first (is_node m) (settle r2 c2) l2).
  set (l4 := appendChild Body m l3).
  assert (N1 : NoDup (map node l1)) by (apply NoDup_update_node; auto).
  assert (N2 : NoDup (map node l2)) by now apply NoDup_appendChild.
  assert (N3 : NoDup (map node l3)) by (apply NoDup_update_node; auto).
  assert (N4 : NoDup (map node l4)) by now apply NoDup_appendChild.
  assert (Excl : forall y, is_node n y = true -> is_node m y = true -> False).
  { intros y T1 T2. unfold is_node in *. apply Nat.eqb_eq in T1, T2.
    apply Nat.eqb_neq in Hne. unfold m in T2. congruence. }
  apply (tidy_image (fresh s) (fresh s) (elements s) _ G); auto.
  - apply NoDup_update_node; auto.
  - intros x Hx.
    destruct (in_update_node _ _ _ _ N4 Hx) as (y1 & H1 & ->).
    destruct (in_appendChild _ _ _ _ N3 H1) as (y2 & H2 & ->).
    destruct (in_update_node _ _ _ _ N2 H2) as (y3 & H3 & ->).
    destruct (in_appendChild _ _ _ _ N1 H3) as (y4 & H4 & ->).
    destruct (in_update_node _ _ _ _ Hn H4) as (y5 & H5 & ->).
    exists y5. split; auto. unfold G.
    destruct (is_node n y5) eqn:T1; destruct (is_node m y5) eqn:T2.
    + destruct (Excl y5 T1 T2).
    + same_node T1. same_node T2. same_node T1. reflexivity.
    + same_node T1. same_node T2. same_node T1. reflexivity.
    + same_node T1. same_node T2. same_node T1. reflexivity.
  - intro y. unfold G. destruct (is_node n y); [reflexivity|].
    now destruct (is_node m y).
  - intros y Hy. unfold G. destruct (is_node n y); [reflexivity|].
    destruct (is_node m y); [discriminate|now apply Hdr].
  - intros y1 y2 j H1 H2. unfold G.
    assert (Only : forall y, In y (elements s) -> is_node m y = false ->
                             parent y = Cell k -> False).
    { intros y Hy Tm Py. unfold is_node in Tm. apply Nat.eqb_neq in Tm.
      apply Tm. now apply (Ho y b k). }
    destruct (is_node n y1) eqn:T1, (is_node n y2) eqn:T2.
    + intros _ _. unfold is_node in T1, T2. apply Nat.eqb_eq in T1, T2. congruence.
    + destruct (is_node m y2) eqn:M2; cbn [parent set_dragging set_parent];
        intros Q1 Q2; [discriminate Q2|].
      exfalso. apply (Only y2 H2 M2). congruence.
    + destruct (is_node m y1) eqn:M1; cbn [parent set_dragging set_parent];
        intros Q1 Q2; [discriminate Q1|].
      exfalso. apply (Only y1 H1 M1). congruence.
    + destruct (is_node m y1) eqn:M1; [discriminate|].
      destruct (is_node m y2) eqn:M2; [discriminate|].
      now apply (Ho y1 y2 j).
Qed.

Lemma stopDragging_tidy (cx cy : Q) (s : state) :
  tidy s -> tidy (stopDragging cx cy s).
Proof.
  intros H. unfold stopDragging.
  destruct (isDragging (drag s)) eqn:D; [|exact H].
  destruct (draggedCard (drag s)) as [n|] eqn:N; [|exact H].
  destruct H as (He & Hd). specialize (Hd D n N).
  destruct (findGridCellUnderMouse cx cy s) as [k|].
  - unfold snapCardToGrid.
    destruct (resting_card k (elements s)) as [b|] eqn:R.
    + now apply (release_on_taken_cell_tidy n k b s).
    + now apply release_on_empty_cell_tidy.
  - now apply release_outside_tidy.
Qed.

Lemma step_tidy (s : state) (ev : event) : tidy s -> tidy (step s ev).
Proof.
  destruct ev as [e|cx cy|cx cy|d|w h]; simpl.
  - apply startDragging_tidy.
  - apply handleMouseMovement_tidy.
  - apply stopDragging_tidy.
  - apply showAddCardDialog_tidy.
  - apply handleWindowResize_tidy.
Qed.

Lemma run_tidy (evs : list event) : forall s, tidy s -> tidy (run s evs).
Proof.
  induction evs as [|ev r IH]; intros s H; [exact H|].
  simpl. apply IH. now apply step_tidy.
Qed.

Lemma at_most_one (bound k : nat) (l : list element) :
  tidy_elements bound l ->
  (List.length (filter (child_of (Cell k)) l) <= 1)%nat.
Proof.
  intros (Hn & _ & _ & Ho).
  pose proof (NoDup_map_filter node (child_of (Cell k)) l Hn) as Hf.
  destruct (filter (child_of (Cell k)) l) as [|a [|b r]] eqn:F; simpl; try lia.
  exfalso.
  assert (Ha : In a (filter (child_of (Cell k)) l)) by (rewrite F; now left).
  assert (Hb : In b (filter (child_of (Cell k)) l)) by (rewrite F; right; now left).
  apply filter_In in Ha as (Ha & Pa). apply filter_In in Hb as (Hb & Pb).
  apply child_of_cell in Pa, Pb.
  pose proof (Ho a b k Ha Hb Pa Pb) as Eq.
  simpl in Hf. inversion Hf as [|? ? Hna _]; subst. apply Hna. left. now symmetry.
Qed.

(** X16: grid variant: no cell ever holds two cards.  On a page where
    handles are distinct, no card in a cell carries the class [dragging],
    no cell holds two cards and a dragged card hangs under the body, all
    of this holds again after every run of events (press, move, release,
    add, resize), and every cell has at most one card element as child. *)
Theorem no_cell_ever_holds_two_cards (s : state) (evs : list event) :
  tidy s ->
  let s' := run s evs in
  tidy s' /\
  forall k, (List.length (filter (child_of (Cell k)) (elements s')) <= 1)%nat.
Proof.
  intros H s'. pose proof (run_tidy evs s H) as T.
  split; [exact T|]. intro k. destruct T as (T & _).
  now apply (at_most_one (fresh s')).
Qed.

(** ** The page after start-up *)

Lemma createAndPlace_tidy (c : card) (s : state) :
  tidy_elements (fresh s) (elements s) ->
  (forall e k, In e (elements s) -> parent e = Cell k -> ~ In k (named_cell (cells s) c)) ->
  let s' := createAndPlace s c in
  tidy_elements (fresh s') (elements s') /\
  drag s' = drag s /\ cells s' = cells s /\
  (forall e k, In e (elements s') -> parent e = Cell k ->
               In k (named_cell (cells s) c) \/
               exists e0, In e0 (elements s) /\ parent e0 = Cell k).
Proof.
  intros (Hn & Hb & Hdr & Ho) Hfree s'. subst s'.
  unfold createAndPlace, createSingleCard, positionCard, named_cell in *.
  assert (Fresh : ~ In (fresh s) (map node (elements s))).
  { intro Hin. apply in_map_iff in Hin as (y & Ey & Hy).
    rewrite Forall_forall in Hb. apply Hb in Hy. lia. }
  assert (Up : Forall (fun e => (node e < S (fresh s))%nat) (elements s)).
  { eapply Forall_impl; [|exact Hb]. simpl. intros; lia. }
  assert (Same : tidy_elements (S (fresh s)) (elements s)) by (repeat split; auto).
  assert (Old : forall e k, In e (elements s) -> parent e = Cell k ->
                            In k (@nil nat) \/
                            exists e0, In e0 (elements s) /\ parent e0 = Cell k).
  { intros e k He Pe. right. now exists e. }
  destruct (freePosition c) as [| |p] eqn:F.
  1, 2: destruct (position c) as [| |g] eqn:P;
    [split; [exact Same|]; split; [reflexivity|]; split; [reflexivity|exact Old] ..
    |unfold positionCardInGrid; cbn [cells];
     destruct (find_index _ (cells s)) as [k0|] eqn:K;
     [|split; [exact Same|]; split; [reflexivity|]; split; [reflexivity|exact Old]]].
  3: unfold positionCardFreely.
  all: unfold with_elements; cbn [cardData elements fresh drag cells].
  all: split; [split; [|split; [|split]]|split; [reflexivity|split; [reflexivity|]]].
  all: try (rewrite map_app; simpl;
            eapply Permutation_NoDup; [apply Permutation_cons_append|];
            now constructor).
  all: try (apply Forall_app; split; [exact Up|repeat constructor]).
  all: try (apply Forall_app; split; [exact Hdr|repeat constructor]).
  - intros a b k Ha Hb' Pa Pb.
    apply in_app_or in Ha as [Ha|[<-|[]]]; apply in_app_or in Hb' as [Hb'|[<-|[]]].
    + now apply (Ho a b k).
    + cbn [parent] in Pb. injection Pb as <-.
      elim (Hfree a k0 Ha Pa). now left.
    + cbn [parent] in Pa. injection Pa as <-.
      elim (Hfree b k0 Hb' Pb). now left.
    + reflexivity.
  - intros e k He Pe. apply in_app_or in He as [He|[<-|[]]].
    + right. now exists e.
    + cbn [parent] in Pe. injection Pe as <-. left. now left.
  - intros a b k Ha Hb' Pa Pb.
    apply in_app_or in Ha as [Ha|[<-|[]]]; apply in_app_or in Hb' as [Hb'|[<-|[]]].
    + now apply (Ho a b k).
    + cbn [parent] in Pb. injection Pb as <-.
      elim (Hfree a k0 Ha Pa). now left.
    + cbn [parent] in Pa. injection Pa as <-.
      elim (Hfree b k0 Hb' Pb). now left.
    + reflexivity.
  - intros e k He Pe. apply in_app_or in He as [He|[<-|[]]].
    + right. now exists e.
    + cbn [parent] in Pe. injection Pe as <-. left. now left.
  - intros a b k Ha Hb' Pa Pb.
    apply in_app_or in Ha as [Ha|[<-|[]]]; [|discriminate Pa].
    apply in_app_or in Hb' as [Hb'|[<-|[]]]; [|discriminate Pb].
    now apply (Ho a b k).
  - intros e k He Pe. apply in_app_or in He as [He|[<-|[]]]; [|discriminate Pe].
    right. now exists e.
Qed.

Lemma createAllCards_tidy (l : list card) :
  forall s : state,
    tidy_elements (fresh s) (elements s) ->
    drag s = idle ->
    NoDup (flat_map (named_cell (cells s)) l) ->
    (forall e k, In e (elements s) -> parent e = Cell k ->
                 ~ In k (flat_map (named_cell (cells s)) l)) ->
    tidy (fold_left createAndPlace l s).
Proof.
  induction l as [|c r IH]; intros s He Hd Hn Hfree.
  - simpl fold_left. split; [exact He|]. rewrite Hd. discriminate.
  - simpl in Hn, Hfree. simpl fold_left.
    destruct (createAndPlace_tidy c s He) as (He1 & Hd1 & Hc1 & Hin1).
    { intros e k Hin P Hk. apply (Hfree e k Hin P). apply in_or_app. now left. }
    apply IH.
    + exact He1.
    + now rewrite Hd1.
    + rewrite Hc1. now apply NoDup_app_remove_l in Hn.
    + rewrite Hc1. intros e k Hin P Hk.
      destruct (Hin1 e k Hin P) as [Hc|(e0 & Hin0 & P0)].
      * now apply (NoDup_app_disjoint _ _ k Hn).
      * apply (Hfree e0 k Hin0 P0). apply in_or_app. now right.
Qed.

(** X17: grid variant: the page is tidy from start-up on.  When no two
    cards of the store without a free position name the same cell,
    [createAllCards] on the blank page gives a tidy page, and after every
    run of events the page is tidy and every cell has at most one card
    element as child. *)
Theorem page_is_tidy_from_startup
        (l : list card) (cs : list grid_cell) (evs : list event) :
  NoDup (flat_map (named_cell cs) l) ->
  let s0 := createAllCards (blank l cs) in
  let s' := run s0 evs in
  tidy s0 /\ tidy s' /\
  forall k, (List.length (filter (child_of (Cell k)) (elements s')) <= 1)%nat.
Proof.
  intros Hn s0 s'.
  assert (T0 : tidy s0).
  { unfold s0, createAllCards.
    apply createAllCards_tidy; [|reflexivity|exact Hn|intros e k []].
    split; [constructor|]. split; [constructor|]. split; [constructor|].
    intros a b k []. }
  pose proof (run_tidy evs s0 T0) as T.
  split; [exact T0|]. split; [exact T|].
  intro k. destruct T as (T & _). now apply (at_most_one (fresh s')).
Qed.

End GridMore.

(* ================================================================== *)
(** * Two resizes in a row *)
(* ================================================================== *)

Module VariantsMore.
Import Js JsFacts Arrays ArraysFacts.

Lemma cap_twice (v : number) (m1 m2 : Q) :
  m1 <= m2 ->
  let v1 := if gt v (Fin m1) then Fin m1 else v in
  (if gt v1 (Fin m2) then Fin m2 else v1) = v1.
Proof.
  intros Hm v1. subst v1. destruct v as [|q]; [reflexivity|].
  simpl. destruct (Qle_bool q m1) eqn:E; simpl.
  - apply Qle_bool_iff in E.
    assert (H : Qle_bool q m2 = true) by (apply Qle_bool_iff; lra).
    now rewrite H.
  - assert (H : Qle_bool m1 m2 = true) by now apply Qle_bool_iff.
    now rewrite H.
Qed.

Lemma min_twice (v : number) (m1 m2 : Q) :
  m1 <= m2 -> min (min v (Fin m1)) (Fin m2) = min v (Fin m1).
Proof.
  intros Hm. destruct v as [|q]; [reflexivity|].
  simpl. destruct (Qle_bool q m1) eqn:E; simpl.
  - apply Qle_bool_iff in E.
    assert (H : Qle_bool q m2 = true) by (apply Qle_bool_iff; lra).
    now rewrite H.
  - assert (H : Qle_bool m1 m2 = true) by now apply Qle_bool_iff.
    now rewrite H.
Qed.

Lemma layered_keep_twice (w1 h1 w2 h2 : Q) (c : Layered.card) :
  w1 <= w2 -> h1 <= h2 ->
  Layered.keep_in_bounds w2 h2 (Layered.keep_in_bounds w1 h1 c)
  = Layered.keep_in_bounds w1 h1 c.
Proof.
  intros Hw Hh. unfold Layered.keep_in_bounds.
  cbn [Layered.position Layered.set_position Layered.x Layered.y].
  unfold Layered.set_position at 1.
  cbn [Layered.id Layered.title Layered.content Layered.zIndex Layered.set_position].
  rewrite (cap_twice (Layered.x (Layered.position c)) (w1 - 300) (w2 - 300)) by lra.
  rewrite (cap_twice (Layered.y (Layered.position c)) (h1 - 400) (h2 - 400)) by lra.
  reflexivity.
Qed.

Lemma grid_keep_twice (w1 h1 w2 h2 : Q) (c : Grid.card) :
  w1 <= w2 -> h1 <= h2 ->
  Grid.keep_in_bounds w2 h2 (Grid.keep_in_bounds w1 h1 c)
  = Grid.keep_in_bounds w1 h1 c.
Proof.
  intros Hw Hh. unfold Grid.keep_in_bounds.
  destruct (Grid.freePosition c) as [| |p] eqn:F.
  - now rewrite F.
  - now rewrite F.
  - cbn [Grid.freePosition Grid.set_placement Grid.position Grid.x Grid.y].
    unfold Grid.set_placement.
    cbn [Grid.id Grid.title Grid.content Grid.type].
    rewrite (min_twice (Grid.x p) (w1 - 300) (w2 - 300)) by lra.
    rewrite (min_twice (Grid.y p) (h1 - 200) (h2 - 200)) by lra.
    reflexivity.
Qed.

(** X18: a resize to a window that is at least as wide and as high as the
    one of the resize before moves no card back: in the layered variant
    the store after the second resize is the store after the first (and
    it is saved again), in the grid variant the card records are the
    same.  The positions a smaller window pushed in stay pushed in. *)
Theorem growing_window_moves_no_card_back
        (JSON_stringify : json -> string)
        (sl : Layered.state) (sg : Grid.state) (w1 h1 w2 h2 : Q) (t1 t2 : Z) :
  w1 <= w2 -> h1 <= h2 ->
  let sl1 := Layered.handleWindowResize JSON_stringify w1 h1 t1 sl in
  let sl2 := Layered.handleWindowResize JSON_stringify w2 h2 t2 sl1 in
  let sg1 := Grid.handleWindowResize w1 h1 sg in
  let sg2 := Grid.handleWindowResize w2 h2 sg1 in
  Layered.config sl2 = Layered.config sl1 /\
  Layered.storage sl2
  = Some (JSON_stringify (Layered.workspaceData (Layered.config sl1) t2)) /\
  Grid.cardData sg2 = Grid.cardData sg1.
Proof.
  intros Hw Hh sl1 sl2 sg1 sg2.
  assert (C : Layered.config sl2 = Layered.config sl1).
  { unfold sl2, sl1, Layered.handleWindowResize, Layered.saveToStorage.
    cbn [Layered.config Layered.cards Layered.maxZIndex]. f_equal.
    rewrite map_map. apply map_ext. intro c. now apply layered_keep_twice. }
  split; [exact C|]. split.
  - rewrite <- C. reflexivity.
  - unfold sg2, sg1, Grid.handleWindowResize. cbn [Grid.cardData].
    rewrite map_map. apply map_ext. intro c. now apply grid_keep_twice.
Qed.

End VariantsMore.

(* ================================================================== *)
(** * Facts about the theme manager *)
(* ================================================================== *)

Module ThemeFacts.
Import Theme.

Local Open Scope string_scope.

Lemma toggleTheme_with_icon (s : state) (i : icon) :
  themeIcon s = Some i ->
  exists s' i',
    toggleTheme s = Returned s' /\
    isDarkMode s' = negb (isDarkMode s) /\
    dark_mode s' = isDarkMode s' /\
    themePreference s' = Some (label (isDarkMode s')) /\
    themeIcon s' = Some i'.
Proof.
  intro Hi. unfold toggleTheme, applyTheme, set_isDarkMode, write_icon, set_dark_mode.
  cbn [isDarkMode themeIcon]. rewrite Hi.
  destruct (isDarkMode s); cbn [negb option_map]; eexists; eexists;
    (split; [reflexivity|]); repeat split; reflexivity.
Qed.

Lemma clicks_with_icon (n : nat) (s : state) (i : icon) :
  themeIcon s = Some i ->
  isDarkMode (clicks n s) = Nat.iter n negb (isDarkMode s) /\
  exists i', themeIcon (clicks n s) = Some i'.
Proof.
  intro Hi. induction n as [|n (IH & i' & Hi')]; [simpl; eauto|].
  change (clicks (S n) s) with (click (clicks n s)). unfold click.
  destruct (toggleTheme_with_icon _ _ Hi') as (s' & j & E & D & _ & _ & Hj).
  rewrite E. cbn [state_of]. split; [|eauto].
  rewrite D, IH. reflexivity.
Qed.

Lemma loadTheme_label (i : icon) (prefers body dark : bool) :
  exists s, ThemeManager (Some i) prefers body (Some (label dark)) = Returned s /\
            isDarkMode s = dark /\ dark_mode s = dark /\
            themePreference s = Some (label dark).
Proof.
  unfold ThemeManager, loadTheme, starts_dark, applyTheme, set_isDarkMode,
    write_icon, set_dark_mode.
  destruct dark; cbn; eexists; (split; [reflexivity|]); repeat split; reflexivity.
Qed.

(** X19: with an icon in the theme button no click throws.  After one
    or more clicks the mode is the one at the start flipped once per
    click, the body carries the class [dark-mode] exactly in dark mode
    and the saved preference names the mode; two more clicks give the
    same mode again; and a manager constructed later with that saved
    preference starts in that mode, whatever the system prefers. *)
Theorem theme_follows_clicks_and_is_remembered
        (s : state) (i : icon) (n : nat) :
  themeIcon s = Some i ->
  let s' := clicks (S n) s in
  isDarkMode s' = Nat.iter (S n) negb (isDarkMode s) /\
  dark_mode s' = isDarkMode s' /\
  themePreference s' = Some (label (isDarkMode s')) /\
  isDarkMode (clicks 2 s') = isDarkMode s' /\
  forall (j : icon) (prefers body : bool),
    exists s'', ThemeManager (Some j) prefers body (themePreference s') = Returned s'' /\
                isDarkMode s'' = isDarkMode s' /\ dark_mode s'' = isDarkMode s'.
Proof.
  intros Hi s'.
  destruct (clicks_with_icon n s i Hi) as (_ & i1 & Hi1).
  destruct (clicks_with_icon (S n) s i Hi) as (D & i2 & Hi2). fold s' in D, Hi2.
  assert (T : dark_mode s' = isDarkMode s' /\
              themePreference s' = Some (label (isDarkMode s'))).
  { unfold s'. change (clicks (S n) s) with (click (clicks n s)). unfold click.
    destruct (toggleTheme_with_icon _ _ Hi1) as (t & j & E & _ & Hd & Hp & _).
    rewrite E. cbn [state_of]. auto. }
  destruct T as (Td & Tp).
  split; [exact D|]. split; [exact Td|]. split; [exact Tp|]. split.
  - destruct (clicks_with_icon 2 s' i2 Hi2) as (D2 & _). rewrite D2. simpl.
    apply negb_involutive.
  - intros j prefers body. rewrite Tp.
    destruct (loadTheme_label j prefers body (isDarkMode s')) as (t & E & H1 & H2 & _).
    exists t. auto.
Qed.

Lemma click_without_icon (s : state) :
  themeIcon s = None ->
  themeIcon (click s) = None /\
  isDarkMode (click s) = negb (isDarkMode s) /\
  dark_mode (click s) = negb (isDarkMode s) /\
  themePreference (click s)
  = (if isDarkMode s then Some "light" else themePreference s).
Proof.
  intro Hi. unfold click, toggleTheme, applyTheme, set_isDarkMode, write_icon,
              set_dark_mode.
  cbn [isDarkMode themeIcon]. rewrite Hi.
  destruct (isDarkMode s); cbn; repeat split; reflexivity.
Qed.

(** X20: without an icon in the theme button, switching to dark mode
    throws after the body got the class [dark-mode] and before the
    preference is saved, while switching to light mode returns and saves
    [light]; so along any number of clicks the saved preference is the
    one at the start or [light], never a newly chosen [dark].  The
    constructor throws in the same way when the saved preference is
    [dark], or when there is none (or an empty one) and the system
    prefers dark. *)
Theorem dark_theme_without_icon_throws_before_saving (s : state) :
  themeIcon s = None ->
  (isDarkMode s = false ->
   toggleTheme s = Thrown (set_dark_mode true (set_isDarkMode true s))) /\
  (isDarkMode s = true ->
   toggleTheme s
   = Returned (saveTheme (set_dark_mode false (set_isDarkMode false s)))) /\
  (forall n, themePreference (clicks n s) = themePreference s \/
             themePreference (clicks n s) = Some "light") /\
  (forall (prefers body : bool) (saved : option string),
      saved = Some "dark" \/
      (prefers = true /\ (saved = None \/ saved = Some "")) ->
      exists s', ThemeManager None prefers body saved = Thrown s' /\
                 isDarkMode s' = true /\ dark_mode s' = true /\
                 themePreference s' = saved).
Proof.
  intro Hi. split; [|split; [|split]].
  - intro Hd. unfold toggleTheme, applyTheme, set_isDarkMode, write_icon, set_dark_mode.
    cbn [isDarkMode themeIcon]. rewrite Hi, Hd. reflexivity.
  - intro Hd. unfold toggleTheme, applyTheme, set_isDarkMode, write_icon, set_dark_mode.
    cbn [isDarkMode themeIcon]. rewrite Hi, Hd. reflexivity.
  - intro n.
    assert (H : themeIcon (clicks n s) = None /\
                (themePreference (clicks n s) = themePreference s \/
                 themePreference (clicks n s) = Some "light")).
    { induction n as [|n (IHi & IHp)]; [simpl; auto|].
      change (clicks (S n) s) with (click (clicks n s)).
      destruct (click_without_icon _ IHi) as (H1 & _ & _ & H4).
      split; [exact H1|]. rewrite H4.
      destruct (isDarkMode (clicks n s)); auto. }
    apply H.
  - intros prefers body saved H.
    unfold ThemeManager, loadTheme, starts_dark, applyTheme, set_isDarkMode,
      write_icon, set_dark_mode.
    destruct H as [->|(-> & [->| ->])]; cbn; eexists;
      (split; [reflexivity|]); repeat split; reflexivity.
Qed.

Lemma ThemeManager_outcome (i : option icon) (prefers body : bool)
      (saved : option string) :
  match i, starts_dark prefers saved with
  | None, true =>
      exists t, ThemeManager i prefers body saved = Thrown t /\
                isDarkMode t = true /\ dark_mode t = true /\
                themePreference t = saved
  | _, dark =>
      exists t, ThemeManager i prefers body saved = Returned t /\
                isDarkMode t = dark /\ dark_mode t = dark /\
                themePreference t = saved
  end.
Proof.
  unfold ThemeManager, loadTheme, applyTheme, set_isDarkMode, write_icon, set_dark_mode.
  cbn [isDarkMode themeIcon themePreference].
  destruct i as [i|], (starts_dark prefers saved); cbn; eexists;
    (split; [reflexivity|]); repeat split; reflexivity.
Qed.

(** X21: [initializeApp] constructs the theme manager before it loads
    and renders.  On a page whose theme button has no icon, when the
    theme to start with is dark (the saved preference is [dark], or
    there is none and the system prefers dark), the constructor throws
    and the start-up stops there: nothing is loaded, no card is
    rendered, the page of the cards is as it was, and the body carries
    the class [dark-mode].  In every other case the start-up goes on to
    the load and the first rendering. *)
Theorem startup_stops_when_theme_manager_throws
        (JSON_parse : string -> option Js.json)
        (button : option (option icon)) (prefers body : bool)
        (saved : option string) (s : Layered.state) :
  let start := Startup.initializeApp JSON_parse button prefers body saved s in
  (button = Some None /\ starts_dark prefers saved = true ->
   exists t, start = Startup.Aborted t s /\
             dark_mode t = true /\ themePreference t = saved) /\
  (~ (button = Some None /\ starts_dark prefers saved = true) ->
   exists th, start = Startup.Ready th (Layered.initializeApp JSON_parse s)).
Proof.
  intro start. unfold start, Startup.initializeApp. split.
  - intros (-> & Hd).
    pose proof (ThemeManager_outcome None prefers body saved) as H.
    rewrite Hd in H. destruct H as (t & E & _ & H2 & H3).
    rewrite E. eauto.
  - intro Hn. destruct button as [[i|]|]; [| |eauto].
    + pose proof (ThemeManager_outcome (Some i) prefers body saved) as H.
      cbv beta iota in H. destruct H as (t & E & _). rewrite E. eauto.
    + pose proof (ThemeManager_outcome None prefers body saved) as H.
      destruct (starts_dark prefers saved) eqn:D.
      * elim Hn. auto.
      * destruct H as (t & E & _). rewrite E. eauto.
Qed.

End ThemeFacts.

(* ================================================================== *)
(** * Closed instances of the further facts *)
(* ================================================================== *)

Module MoreInstances.
Import Js Arrays.

Local Open Scope string_scope.

Ltac closed := vm_compute; first [reflexivity | discriminate].

Ltac in_range := right; split; vm_compute; [discriminate|reflexivity].

Ltac compare :=
  match goal with
  | |- Qle _ _ => vm_compute; congruence
  | |- Qlt _ _ => vm_compute; congruence
  end.

Ltac absent :=
  let H := fresh in
  intro H; vm_compute in H;
  repeat (destruct H as [H|H]; [discriminate H|]); exact H.

Ltac distinct := vm_compute; repeat (apply NoDup_cons; [absent|]); apply NoDup_nil.

(** ** Layered variant *)

Lemma front_card_is_topmost_witness :
  let s1 := Layered.run Layered.no_json (Layered.page None)
              [Layered.AddClick (Layered.some_dialog 7)] in
  Layered.layers_bounded (Layered.bringCardToFront "card-2" s1) /\
  Forall (fun c => (Layered.zIndex c < 6)%Z)
         (firstn 1 (Layered.cards (Layered.config s1))
          ++ skipn 2 (Layered.cards (Layered.config s1))).
Proof.
  intro s1.
  assert (B : Layered.layers_bounded (Layered.page None)).
  { unfold Layered.layers_bounded. vm_compute. repeat constructor; discriminate. }
  destruct (LayeredMore.front_card_is_topmost Layered.no_json (Layered.page None)
              [Layered.AddClick (Layered.some_dialog 7)] "card-2"
              (firstn 1 (Layered.cards (Layered.config s1)))
              (skipn 2 (Layered.cards (Layered.config s1)))
              (Layered.seed_card 1) B eq_refl eq_refl eq_refl)
    as (_ & H2 & _ & H4).
  split; [exact H2|exact H4].
Defined.

Lemma remove_of_unknown_id_still_saves_witness :
  Layered.config (Layered.removeCard Layered.no_json "card-0" 3 Layered.rendered_defaults)
  = Layered.config Layered.rendered_defaults /\
  Layered.writes (Layered.removeCard Layered.no_json "card-0" 3 Layered.rendered_defaults)
  = 1%nat.
Proof.
  destruct (LayeredMore.remove_of_unknown_id_still_saves Layered.no_json
              Layered.rendered_defaults "card-0" 3 eq_refl eq_refl)
    as (H1 & _ & _ & _ & _ & H6).
  split; [exact H1|exact H6].
Defined.

Lemma drag_touches_one_card_witness :
  map Layered.id (Layered.cards (Layered.config
        (Layered.run Layered.no_json Layered.rendered_defaults Layered.pull_left)))
  = ["card-1"; "card-2"; "card-3"; "card-4"] /\
  find (Layered.has_id "card-3") (Layered.cards (Layered.config
        (Layered.run Layered.no_json Layered.rendered_defaults Layered.pull_left)))
  = Some (Layered.seed_card 2).
Proof.
  destruct (LayeredMore.drag_touches_one_card Layered.no_json
              Layered.rendered_defaults (Layered.press_at 0 300 150 100 100)
              (Layered.element_of 0 Layered.rendered_defaults)
              [(50, 20)] 1 eq_refl eq_refl)
    as (H1 & H2 & _).
  split; [exact H1|].
  apply (H2 "card-3"). closed.
Defined.

Lemma add_then_remove_restores_witness :
  Layered.cards (Layered.config
    (Layered.removeCard Layered.no_json (Layered.stamp_id 7) 8
       (Layered.showAddCardDialog Layered.no_json (Layered.some_dialog 7)
          (Layered.page None))))
  = Layered.default_cards.
Proof.
  assert (N : ~ In (Layered.stamp_id 7) (Layered.ids (Layered.page None))).
  { absent. }
  exact (proj1 (LayeredMore.add_then_remove_restores Layered.no_json
                  (Layered.page None) (Layered.some_dialog 7) 8 eq_refl eq_refl N)).
Defined.

Lemma remove_after_clash_takes_older_card_witness :
  let s := Layered.showAddCardDialog Layered.no_json (Layered.some_dialog 7)
             (Layered.page None) in
  let s' := Layered.removeCard Layered.no_json (Layered.stamp_id 7) 9
              (Layered.showAddCardDialog Layered.no_json (Layered.some_dialog 7) s) in
  exists added,
    Layered.cards (Layered.config s') = (Layered.default_cards ++ [added])%list /\
    Layered.zIndex added = 6%Z.
Proof.
  intros s s'.
  destruct (LayeredMore.remove_after_clash_takes_older_card Layered.no_json
              s (Layered.some_dialog 7) 9 Layered.default_cards []
              (nth 4 (Layered.cards (Layered.config s)) (Layered.seed_card 0))
              eq_refl eq_refl eq_refl eq_refl eq_refl)
    as (added & _ & _ & Hz & Hc).
  exists added. split; [exact Hc|exact Hz].
Defined.

Lemma added_card_lands_in_window_witness :
  exists added e,
    Layered.cards (Layered.config
      (Layered.showAddCardDialog Layered.no_json (Layered.some_dialog 7)
         (Layered.page None)))
    = (Layered.default_cards ++ [added])%list /\
    Layered.view_of e = Layered.rendering added /\
    Layered.within 0 980 (Layered.x (Layered.position added)) /\
    Layered.within 50 450 (Layered.y (Layered.position added)).
Proof.
  destruct (LayeredMore.added_card_lands_in_window Layered.no_json
              (Layered.page None) (Layered.some_dialog 7) eq_refl eq_refl)
    as (added & e & H1 & _ & H3 & _ & _ & H6 & H7 & _).
  - vm_compute; congruence.
  - vm_compute; congruence.
  - vm_compute; congruence.
  - vm_compute; congruence.
  - vm_compute; congruence.
  - vm_compute; congruence.
  - exists added, e. split; [exact H1|]. split; [exact H3|].
    split; [exact H6|exact H7].
Defined.



Lemma reset_restores_the_default_cards_witness :
  let s' := Layered.reset_timer Layered.no_json (fun _ => (1 # 3, 1 # 7))
              1280 800 9 Layered.rendered_defaults in
  map Layered.id (Layered.cards (Layered.config s')) = map Layered.id Layered.default_cards /\
  map Layered.zIndex (Layered.cards (Layered.config s')) = [1; 2; 3; 4]%Z /\
  Layered.layers_bounded s'.
Proof.
  intro s'.
  assert (D : forall i : nat, (i < 4)%nat ->
                0 <= fst ((fun _ : nat => (1 # 3, 1 # 7)) i) /\
                fst ((fun _ : nat => (1 # 3, 1 # 7)) i) < 1 /\
                0 <= snd ((fun _ : nat => (1 # 3, 1 # 7)) i) /\
                snd ((fun _ : nat => (1 # 3, 1 # 7)) i) < 1).
  { intros i _. vm_compute. repeat split; congruence. }
  destruct (LayeredMore.reset_restores_the_default_cards Layered.no_json
              Layered.rendered_defaults (fun _ => (1 # 3, 1 # 7)) 1280 800 9 D)
    as (_ & H2 & _ & _ & H5 & _ & H7 & _); try (vm_compute; congruence).
  split; [exact H2|]. split; [exact H5|exact H7].
Defined.

Lemma removed_card_is_not_brought_back_witness :
  map Layered.id (Layered.cards (Layered.config
    (Layered.run Layered.no_json Layered.rendered_defaults
       [Layered.Mousedown (Layered.press_at 0 300 150 100 100);
        Layered.Mousemove 50 20;
        Layered.RemoveClick "card-1" 2; Layered.Mouseup 3])))
  = ["card-2"; "card-3"; "card-4"].
Proof.
  assert (N : NoDup (Layered.ids Layered.rendered_defaults)) by distinct.
  destruct (LayeredMore.removed_card_is_not_brought_back Layered.no_json
              Layered.rendered_defaults (Layered.press_at 0 300 150 100 100)
              (Layered.element_of 0 Layered.rendered_defaults)
              [(50, 20)] 2 3 eq_refl eq_refl N) as (_ & H & _).
  exact (f_equal (map Layered.id) H).
Defined.


(** ** Free-form variant *)

Lemma release_stores_last_painted_position_witness :
  let s := Freeform.held_card (107 # 10) (203 # 10) in
  Freeform.left (Freeform.element_of 0 s) = "10.7px" /\
  (exists c1,
      find (Freeform.has_id "card-1")
           (Freeform.cardData (Freeform.animation_frame
              (Freeform.stopDragging Layered.no_json 1
                 (Freeform.handleMouseMovement (1057 # 10) (553 # 10) s))))
      = Some c1 /\
      Freeform.freePosition c1 = {| Freeform.x := of_Z 10; Freeform.y := of_Z 20 |}) /\
  (exists c2,
      find (Freeform.has_id "card-1")
           (Freeform.cardData (Freeform.stopDragging Layered.no_json 1
              (Freeform.animation_frame
                 (Freeform.handleMouseMovement (1057 # 10) (553 # 10) s))))
      = Some c2 /\
      Freeform.freePosition c2 = {| Freeform.x := of_Z 100; Freeform.y := of_Z 50 |}).
Proof.
  intro s.
  assert (Sh : Freeform.shows (Freeform.element_of 0 s) (107 # 10) (203 # 10)).
  { split; vm_compute; reflexivity. }
  assert (C : find (Freeform.has_id (Freeform.elem_id (Freeform.element_of 0 s)))
                (Freeform.cardData s)
              = Some {| Freeform.id := "card-1"; Freeform.title := "How to Use?";
                        Freeform.content := "";
                        Freeform.freePosition :=
                          {| Freeform.x := Fin (107 # 10);
                             Freeform.y := Fin (203 # 10) |} |}) by closed.
  destruct (FreeformMore.release_stores_last_painted_position Layered.no_json
              0 (Freeform.element_of 0 s) _
              (minus ((107 # 10) + 5) (107 # 10)) (minus ((203 # 10) + 5) (203 # 10))
              (107 # 10) (203 # 10) (1057 # 10) (553 # 10) 1 s
              eq_refl eq_refl eq_refl eq_refl eq_refl C Sh)
    as (((c1 & F1 & V1 & _) & _ & A & _) & ((c2 & F2 & V2 & _) & _)).
  - in_range.
  - in_range.
  - in_range.
  - in_range.
  - split; [vm_compute; reflexivity|]. split.
    + exists c1. split; [rewrite A; exact F1|].
      rewrite V1. vm_compute. reflexivity.
    + exists c2. split; [exact F2|]. rewrite V2. vm_compute. reflexivity.
Defined.

(** ** Grid variant *)

Lemma drop_on_free_cell_places_card_witness :
  Grid.placement_of "card-1" (Grid.run Grid.two_cards (Grid.drag_to 0 10 10 50 50))
  = Some (Grid.object {| Grid.row := of_Z 0; Grid.col := of_Z 0 |}, Grid.null) /\
  Grid.placement_of "card-2" (Grid.run Grid.two_cards (Grid.drag_to 0 10 10 50 50))
  = Grid.placement_of "card-2" Grid.two_cards.
Proof.
  assert (N : NoDup (map Grid.node (Grid.elements Grid.two_cards))) by distinct.
  assert (O : forall e', In e' (Grid.elements Grid.two_cards) ->
                         Grid.child_of (Grid.Cell 0) e' = true ->
                         e' = Grid.element_of 0 Grid.two_cards).
  { intros e' Hin. vm_compute in Hin.
    destruct Hin as [<-|[<-|[]]]; vm_compute; intro H; discriminate H. }
  destruct (GridMore.drop_on_free_cell_places_card Grid.two_cards
              {| Grid.currentTarget := 0;
                 Grid.clientX := inject_Z (10 + 5); Grid.clientY := inject_Z (10 + 5);
                 Grid.rect_left := inject_Z 10; Grid.rect_top := inject_Z 10 |}
              (Grid.element_of 0 Grid.two_cards) 0 (Grid.cell_at 0 0)
              [(inject_Z 50, inject_Z 50)] (inject_Z 50) (inject_Z 50)
              eq_refl N O eq_refl eq_refl) as (H1 & H2 & _).
  split.
  - unfold Grid.placement_of. unfold Grid.drag_to. cbn [map fst snd app] in H1.
    rewrite H1. vm_compute. reflexivity.
  - apply (H2 "card-2"). closed.
Defined.

Lemma drop_outside_grid_stores_shown_position_witness :
  let gesture :=
    [ Grid.Mousedown {| Grid.currentTarget := 0;
                        Grid.clientX := 1007 # 10; Grid.clientY := 1003 # 10;
                        Grid.rect_left := 100; Grid.rect_top := 100 |};
      Grid.Mousemove (5002 # 10) (4009 # 10);
      Grid.Mouseup (inject_Z 500) (inject_Z 400) ] in
  Grid.left (Grid.element_of 0 (Grid.run Grid.a_on_grid gesture)) = "499.5px" /\
  Grid.top (Grid.element_of 0 (Grid.run Grid.a_on_grid gesture))
  = "400.59999999999997px" /\
  Grid.placement_of "card-1" (Grid.run Grid.a_on_grid gesture)
  = Some (Grid.null, Grid.object {| Grid.x := of_Z 499; Grid.y := of_Z 400 |}).
Proof.
  intro gesture.
  assert (N : NoDup (map Grid.node (Grid.elements Grid.a_on_grid))) by distinct.
  assert (F : find (Grid.is_node 0) (Grid.elements Grid.a_on_grid)
              = Some (Grid.element_of 0 Grid.a_on_grid)) by closed.
  assert (C : find (Grid.has_id (Grid.elem_id (Grid.element_of 0 Grid.a_on_grid)))
                (Grid.cardData Grid.a_on_grid)
              = Some (Grid.grid_card "card-1" "A" 0 0)) by closed.
  assert (O : Grid.findGridCellUnderMouse (inject_Z 500) (inject_Z 400) Grid.a_on_grid
              = None) by closed.
  destruct (GridMore.drop_outside_grid_stores_shown_position Grid.a_on_grid
              {| Grid.currentTarget := 0;
                 Grid.clientX := 1007 # 10; Grid.clientY := 1003 # 10;
                 Grid.rect_left := 100; Grid.rect_top := 100 |}
              (Grid.element_of 0 Grid.a_on_grid) _
              [(5002 # 10, 4009 # 10)] (inject_Z 500) (inject_Z 400)
              F C N O) as ((c' & Fc & P & V & _) & _).
  - in_range.
  - in_range.
  - split; [vm_compute; reflexivity|]. split; [vm_compute; reflexivity|].
    assert (G : find (Grid.has_id "card-1")
                  (Grid.cardData (Grid.run Grid.a_on_grid gesture)) = Some c')
      by exact Fc.
    unfold Grid.placement_of. rewrite G, P, V. vm_compute. reflexivity.
Defined.

(** A difference the platform prints in exponent notation: pressed at
    0.30000000000000004 from the left edge of its box and moved to 0.3,
    the card shows [-5.551115123125783e-17px], and the release outside
    the grid stores -5. *)
Lemma tiny_difference_is_stored_by_its_first_digit :
  let gesture :=
    [ Grid.Mousedown {| Grid.currentTarget := 0;
                        Grid.clientX := 30000000000000004 # 100000000000000000;
                        Grid.clientY := 1007 # 10;
                        Grid.rect_left := 0; Grid.rect_top := 100 |};
      Grid.Mousemove (3 # 10) (57 # 10);
      Grid.Mouseup (inject_Z 500) (inject_Z 400) ] in
  Grid.left (Grid.element_of 0 (Grid.run Grid.a_on_grid gesture))
  = "-5.551115123125783e-17px" /\
  Grid.top (Grid.element_of 0 (Grid.run Grid.a_on_grid gesture))
  = "4.999999999999997px" /\
  Grid.placement_of "card-1" (Grid.run Grid.a_on_grid gesture)
  = Some (Grid.null, Grid.object {| Grid.x := of_Z (-5); Grid.y := of_Z 4 |}).
Proof. intro gesture. repeat split; vm_compute; reflexivity. Qed.

Lemma added_card_is_free_and_in_window_witness :
  exists c e qx qy,
    Grid.cardData (Grid.showAddCardDialog (Grid.some_dialog 7) Grid.two_cards)
    = (Grid.cardData Grid.two_cards ++ [c])%list /\
    Grid.freePosition c = Grid.object {| Grid.x := Fin qx; Grid.y := Fin qy |} /\
    Grid.shows e qx qy /\ 0 <= qx /\ qx <= 980 /\ 100 <= qy /\ qy <= 700.
Proof.
  destruct (proj2 (GridMore.added_card_is_free_and_in_window
                     (Grid.some_dialog 7) Grid.two_cards) eq_refl eq_refl)
    as (c & e & qx & qy & H1 & _ & _ & _ & _ & _ & H7 & _ & _ & _ & _ & _ & H13
        & B1 & B2 & B3 & B4);
    try compare.
  exists c, e, qx, qy.
  split; [exact H1|]. split; [exact H7|]. split; [exact H13|].
  split; [exact B1|]. split; [exact B2|]. split; [exact B3|exact B4].
Defined.

Lemma no_cell_ever_holds_two_cards_witness :
  (List.length (filter (Grid.child_of (Grid.Cell 1))
                  (Grid.elements (Grid.run Grid.both_on_grid
                                    (Grid.drag_to 0 0 0 150 50)))) <= 1)%nat.
Proof.
  assert (T : Grid.tidy Grid.both_on_grid).
  { unfold Grid.both_on_grid, Grid.a_on_grid.
    apply GridMore.run_tidy. apply GridMore.run_tidy.
    unfold Grid.two_cards, Grid.createAllCards. cbn [Grid.cardData].
    apply GridMore.createAllCards_tidy; [|reflexivity|distinct|intros e k []].
    split; [constructor|]. split; [constructor|]. split; [constructor|].
    intros a b k []. }
  exact (proj2 (GridMore.no_cell_ever_holds_two_cards Grid.both_on_grid
                  (Grid.drag_to 0 0 0 150 50) T) 1%nat).
Defined.

Lemma growing_window_moves_no_card_back_witness :
  Layered.config
    (Layered.handleWindowResize Layered.no_json 1280 800 2
       (Layered.handleWindowResize Layered.no_json 350 450 1 Layered.rendered_defaults))
  = Layered.config
      (Layered.handleWindowResize Layered.no_json 350 450 1 Layered.rendered_defaults) /\
  Grid.cardData
    (Grid.handleWindowResize 1280 800 (Grid.handleWindowResize 350 450 Grid.two_cards))
  = Grid.cardData (Grid.handleWindowResize 350 450 Grid.two_cards).
Proof.
  destruct (VariantsMore.growing_window_moves_no_card_back Layered.no_json
              Layered.rendered_defaults Grid.two_cards 350 450 1280 800 1 2)
    as (H1 & _ & H3); try (vm_compute; congruence).
  split; [exact H1|exact H3].
Defined.

Lemma page_is_tidy_from_startup_witness :
  Grid.tidy (Grid.createAllCards (Grid.blank Grid.mixed_cards Grid.two_by_two)) /\
  (List.length (filter (Grid.child_of (Grid.Cell 1))
                  (Grid.elements
                     (Grid.run (Grid.createAllCards
                                  (Grid.blank Grid.mixed_cards Grid.two_by_two))
                               (Grid.drag_to 0 0 0 150 50)))) <= 1)%nat.
Proof.
  assert (N : NoDup (flat_map (Grid.named_cell Grid.two_by_two) Grid.mixed_cards))
    by distinct.
  destruct (GridMore.page_is_tidy_from_startup Grid.mixed_cards Grid.two_by_two
              (Grid.drag_to 0 0 0 150 50) N) as (H1 & _ & H3).
  split; [exact H1|exact (H3 1%nat)].
Defined.

(** ** Theme manager *)

Lemma theme_follows_clicks_and_is_remembered_witness :
  Theme.isDarkMode (Theme.clicks 3 (Theme.light_page (Some Theme.sun))) = true /\
  Theme.themePreference (Theme.clicks 3 (Theme.light_page (Some Theme.sun)))
  = Some "dark".
Proof.
  destruct (ThemeFacts.theme_follows_clicks_and_is_remembered
              (Theme.light_page (Some Theme.sun)) Theme.sun 2 eq_refl)
    as (H1 & _ & H3 & _).
  split; [exact H1|exact H3].
Defined.

Lemma dark_theme_without_icon_throws_before_saving_witness :
  Theme.toggleTheme (Theme.light_page None)
  = Theme.Thrown (Theme.set_dark_mode true
                    (Theme.set_isDarkMode true (Theme.light_page None))) /\
  Theme.themePreference (Theme.click (Theme.light_page None)) = None.
Proof.
  destruct (ThemeFacts.dark_theme_without_icon_throws_before_saving
              (Theme.light_page None) eq_refl) as (H1 & _).
  split; [exact (H1 eq_refl)|].
  unfold Theme.click. rewrite (H1 eq_refl). reflexivity.
Defined.

Lemma startup_stops_when_theme_manager_throws_witness :
  exists t,
    Startup.initializeApp (Layered.always Layered.blob_without_counter)
      (Some None) false false (Some "dark") (Layered.page (Some "x"))
    = Startup.Aborted t (Layered.page (Some "x")) /\
    Theme.dark_mode t = true.
Proof.
  destruct (proj1 (ThemeFacts.startup_stops_when_theme_manager_throws
                     (Layered.always Layered.blob_without_counter)
                     (Some None) false false (Some "dark") (Layered.page (Some "x")))
                  (conj eq_refl eq_refl)) as (t & E & D & _).
  exists t. split; [exact E|exact D].
Defined.

End MoreInstances.
